(** * llm-learning: the RLHF demo and the pipeline tour

  A shallow embedding of the two notebooks of the repository,
  [rlhf/rlhf_1.ipynb] and the [transformers] pipeline tour, and the
  properties their description states about them.

  The notebooks are scripts over external libraries ([torch],
  [transformers], [peft], [trl], [datasets]).  What the notebooks define
  themselves (two dataset classes, a model wrapper, a loss, the order of
  the calls and their arguments) is translated as Rocq functions; what the
  libraries do is kept abstract: a library call is a function on an
  abstract interpreter state, and a run takes the handler of the calls as
  an argument. *)

From Stdlib Require Import QArith Qfield Lqa.
From stdpp Require Import gmap strings list fin_maps.

Local Open Scope string_scope.

(** ** Tensor expressions: the arithmetic the reward loop writes out *)

Module Autograd.

(** A tensor the notebook computes on is a node of the autograd graph: a
    leaf the library returned, or an operation the notebook applied. *)
Inductive texpr :=
| TLeaf (h : nat)
| TSqueeze (dim : Z) (e : texpr)
| TSub (a b : texpr)
| TMean (e : texpr)
| TNeg (e : texpr).

(** The value of a node, over exact rationals: a shape and the elements in
    row-major order. *)
Record tval := { shape : list nat; data : list Q }.

Definition numel (t : tval) : nat := length (data t).

(** [t.squeeze(dim)]: the dimension is dropped when its size is 1, the
    tensor is returned as it is otherwise; [dim] may count from the end. *)
Definition squeeze (dim : Z) (t : tval) : option tval :=
let rank := Z.of_nat (length (shape t)) in
let d := if bool_decide (dim < 0)%Z then (dim + rank)%Z else dim in
if bool_decide (0 ≤ d < rank)%Z then
  match shape t !! Z.to_nat d with
  | Some 1%nat => Some {| shape := delete (Z.to_nat d) (shape t); data := data t |}
  | _ => Some t
  end
else None.

Fixpoint zip_sub (a b : list Q) : list Q :=
match a, b with
| x :: a, y :: b => (x - y)%Q :: zip_sub a b
| _, _ => []
end.

(** [a - b] for operands of one shape (the loop subtracts the scores of the
    two halves of one batch); other shapes are outside this model. *)
Definition sub (a b : tval) : option tval :=
if decide (shape a = shape b)
then Some {| shape := shape a; data := zip_sub (data a) (data b) |}
else None.

Definition sum (l : list Q) : Q := foldr Qplus 0%Q l.

(** [torch.mean(t)]: a 0-dimensional tensor; the mean of no element is not
    a number and has no value here. *)
Definition mean (t : tval) : option tval :=
match numel t with
| O => None
| S _ => Some {| shape := []; data := [(sum (data t) / inject_Z (Z.of_nat (numel t)))%Q] |}
end.

(** [-t] *)
Definition neg (t : tval) : tval :=
{| shape := shape t; data := Qopp <$> data t |}.

(** The logits of a batch of [n] rows for one label, shape [(n, 1)]; a
    0-dimensional tensor; the mean of a list of numbers. *)
Definition column (scores : list Q) : tval :=
{| shape := [length scores; 1%nat]; data := scores |}.

Definition scalar (q : Q) : tval := {| shape := []; data := [q] |}.

Definition mean_of (l : list Q) : Q :=
(sum l / inject_Z (Z.of_nat (length l)))%Q.

Fixpoint eval (leaf : nat → option tval) (e : texpr) : option tval :=
match e with
| TLeaf h => leaf h
| TSqueeze dim e => eval leaf e ≫= squeeze dim
| TSub a b => x ← eval leaf a; y ← eval leaf b; sub x y
| TMean e => eval leaf e ≫= mean
| TNeg e => neg <$> eval leaf e
end.

End Autograd.

(** ** Python values, exceptions and results *)

Module Py.

(** The values that occur as arguments, keyword arguments, attributes and
    results in the notebooks. *)
Inductive value :=
| VNone
| VBool (b : bool)
| VInt (z : Z)
| VFloat (q : Q)
| VStr (s : string)
| VName (qualified : string)
| VObj (h : nat)
| VTensor (e : Autograd.texpr)
| VList (l : list value)
| VTuple (l : list value)
| VDict (d : list (string * value))
| VInstance (cls : string) (fields : list value)
| VBound (func : string) (self : value).

Inductive exn :=
| ValueError (msg : string)
| IndexError
| KeyError (key : string)
| TypeError
| AttributeError
| LibraryError (msg : string).

Inductive result (A : Type) :=
| Return (a : A)
| Raise (e : exn).
Arguments Return {A} a.
Arguments Raise {A} e.

#[global] Instance result_ret : MRet result := λ A a, Return a.
#[global] Instance result_bind : MBind result := λ A B k r,
match r with
| Return a => k a
| Raise e => Raise e
end.

#[global] Instance result_fmap : FMap result := λ A B f r,
match r with
| Return a => Return (f a)
| Raise e => Raise e
end.

Definition returns {A} (r : result A) : Prop := ∃ a, r = Return a.

(** [v is None] *)
Definition is_none (v : value) : bool :=
match v with VNone => true | _ => false end.

(** [**kwargs]: a dict from parameter names to values. *)
Abbreviation kwargs := (gmap string value).

(** An object seen through its attributes; [hasattr] is membership. *)
Record object := { attrs : gmap string value }.

Definition hasattr (o : object) (name : string) : bool :=
bool_decide (is_Some (attrs o !! name)).

End Py.

(** ** [CustomValueHeadModel.forward] *)

Module CustomValueHeadModel.
Import Py.

(** [self.pretrained_model]: called with positional and keyword arguments,
    it returns an output object or raises. *)
Definition model := list value → kwargs → result object.

Definition logits_missing : exn :=
  ValueError "Expected model outputs to have `.logits`.".

(** <<
    def forward(self, *args, **kwargs):
        kwargs["output_hidden_states"] = True
        outputs = self.pretrained_model( *args, **kwargs)
        if hasattr(outputs, "logits"):
            return outputs
        else:
            raise ValueError("Expected model outputs to have `.logits`.")
    >> *)
Definition forward (pretrained_model : model)
  (args : list value) (kw : kwargs) : result object :=
let kw := <["output_hidden_states" := VBool true]> kw in
outputs ← pretrained_model args kw;
if hasattr outputs "logits" then Return outputs
else Raise logits_missing.

End CustomValueHeadModel.

(** ** Tensors as the datasets index them *)

Module Tensor.
Import Py.

(** A 2-D integer tensor (token ids, attention mask): a list of rows. *)
Abbreviation row := (list Z).
Abbreviation tensor := (list row).

(** [v.shape[0]] *)
Definition shape0 (v : tensor) : nat := length v.

(** An index that fits in 64 bits. For a Python int that does not, [torch]
    raises an overflow error and no [IndexError]: such an index is outside
    this model. *)
Definition fits_int64 (idx : Z) : Prop := (- 2 ^ 63 ≤ idx < 2 ^ 63)%Z.

(** [v[idx]] for a Python int [idx] that fits in 64 bits: a negative index
    counts from the end, an index outside [-n, n) raises [IndexError]. *)
Definition getitem (v : tensor) (idx : Z) : result row :=
let n := Z.of_nat (shape0 v) in
let pos := if bool_decide (idx < 0)%Z then (idx + n)%Z else idx in
if bool_decide (0 ≤ pos < n)%Z
then from_option Return (Raise IndexError) (v !! Z.to_nat pos)
else Raise IndexError.

Definition row_at (v : tensor) (idx : Z) : row :=
match getitem v idx with Return x => x | Raise _ => [] end.

(** The encodings a tokenizer returns: a dict of tensors
    ([input_ids], [attention_mask]). *)
Abbreviation encodings := (gmap string tensor).

(** [enc[key]] *)
Definition subscript {A} (enc : gmap string A) (key : string) : result A :=
from_option Return (Raise (KeyError key)) (enc !! key).

(** [{k: v[idx] for k, v in enc.items()}] *)
Definition index_items (enc : encodings) (idx : Z) : result (gmap string row) :=
list_to_map <$>
  mapM (λ kv : string * tensor, x ← getitem kv.2 idx; mret (kv.1, x))
       (map_to_list enc).

End Tensor.

(** ** [PairwiseDataset] and [PromptDataset] *)

Module PairwiseDataset.
Import Py Tensor.

Record t := {
  chosen_encodings : encodings;
  rejected_encodings : encodings
}.

(** [__init__] *)
Definition init (chosen rejected : encodings) : t :=
{| chosen_encodings := chosen; rejected_encodings := rejected |}.

(** [return self.chosen_encodings["input_ids"].shape[0]] *)
Definition len (self : t) : result nat :=
v ← subscript (chosen_encodings self) "input_ids"; mret (shape0 v).

(** [__getitem__]: the chosen comprehension is evaluated first. *)
Definition getitem (self : t) (idx : Z)
  : result (gmap string row * gmap string row) :=
c ← index_items (chosen_encodings self) idx;
r ← index_items (rejected_encodings self) idx;
mret (c, r).

(** Two small encodings: two chosen rows, three rejected rows. *)
Definition two_chosen : encodings :=
{[ "input_ids" := [[101; 7; 102]; [101; 9; 102]];
   "attention_mask" := [[1; 1; 1]; [1; 1; 1]] ]}%Z.

Definition three_rejected : encodings :=
{[ "input_ids" := [[101; 8; 102]; [101; 5; 102]; [101; 4; 102]];
   "attention_mask" := [[1; 1; 1]; [1; 1; 1]; [1; 1; 1]] ]}%Z.

End PairwiseDataset.

Module PromptDataset.
Import Py Tensor.

Record t := { encodings_ : encodings }.

Definition len (self : t) : result nat :=
v ← subscript (encodings_ self) "input_ids"; mret (shape0 v).

Definition getitem (self : t) (idx : Z) : result (gmap string row) :=
index_items (encodings_ self) idx.

End PromptDataset.


(** ** Notebook scripts: programs over library calls *)

Module Script.
Import Py.

(** What a notebook asks of the interpreter and the libraries. [Call f]
    calls the function or class the qualified name [f] stands for; [Apply o]
    calls the object a variable holds; [Method] calls a method of an object;
    the others are attribute access, subscripting and iteration. [Iter]
    returns the items a [for] loop is given, in order. *)
Inductive libcall : Type → Type :=
| Call (f : string) (args : list value) (kw : kwargs) : libcall value
| Apply (o : value) (args : list value) (kw : kwargs) : libcall value
| Method (recv : value) (name : string) (args : list value) (kw : kwargs)
  : libcall value
| GetAttr (o : value) (name : string) : libcall value
| SetAttr (o : value) (name : string) (v : value) : libcall unit
| HasAttr (o : value) (name : string) : libcall bool
| GetItem (o : value) (key : value) : libcall value
| SetItem (o : value) (key : value) (v : value) : libcall unit
| Iter (o : value) : libcall (list value).

(** A script: it returns, raises, or makes a call and goes on with what the
    call returned or raised. *)
Inductive prog (A : Type) : Type :=
| Ret (a : A)
| Throw (e : exn)
| Do {X : Type} (c : libcall X) (k : result X → prog A).
Arguments Ret {A} a.
Arguments Throw {A} e.
Arguments Do {A X} c k.

Fixpoint pbind {A B} (p : prog A) (f : A → prog B) : prog B :=
match p with
| Ret a => f a
| Throw e => Throw e
| Do c k => Do c (λ r, pbind (k r) f)
end.

#[global] Instance prog_ret : MRet prog := λ A a, Ret a.
#[global] Instance prog_bind : MBind prog := λ A B f p, pbind p f.

(** A call whose exception is not caught. *)
Definition perform {X} (c : libcall X) : prog X :=
Do c (λ r, match r with Return x => Ret x | Raise e => Throw e end).

(** [try: p  except: q] with a bare [except]. *)
Fixpoint try_except {A} (p : prog A) (q : prog A) : prog A :=
match p with
| Ret a => Ret a
| Throw _ => q
| Do c k => Do c (λ r, try_except (k r) q)
end.

(** [for x in items: body x] *)
Fixpoint for_each {A} (items : list A) (body : A → prog unit) : prog unit :=
match items with
| [] => Ret tt
| x :: items => body x ≫= λ _, for_each items body
end.

(** One call as an observer of the run sees it: the call and its outcome. *)
Inductive event :=
| Ev {X : Type} (c : libcall X) (r : result X).

Section Run.
Context {L : Type}.

(** The libraries: every call acts on the interpreter state [L]. *)
Definition handler := ∀ X, libcall X → L → result X * L.

Fixpoint run {A} (h : handler) (p : prog A) (l : L)
  : result A * L * list event :=
match p with
| Ret a => (Return a, l, [])
| Throw e => (Raise e, l, [])
| Do c k =>
    let '(r, l1) := h _ c l in
    let '(a, l2, tr) := run h (k r) l1 in
    (a, l2, Ev c r :: tr)
end.

Definition outcome {A} (h : handler) (p : prog A) (l : L) : result A :=
(run h p l).1.1.
Definition final {A} (h : handler) (p : prog A) (l : L) : L :=
(run h p l).1.2.
Definition trace {A} (h : handler) (p : prog A) (l : L) : list event :=
(run h p l).2.

(** A property of a run: of its outcome, final state and trace. *)
Definition holds {A} (h : handler) (p : prog A) (l : L)
  (Φ : result A → L → list event → Prop) : Prop :=
Φ (outcome h p l) (final h p l) (trace h p l).

(** The states in which the calls of a run are made, call by call. *)
Fixpoint states {A} (h : handler) (p : prog A) (l : L) : list L :=
match p with
| Ret _ | Throw _ => []
| Do c k => l :: let '(r, l1) := h _ c l in states h (k r) l1
end.

End Run.

(** Every call a script can make passes a test, whatever the calls return. *)
Inductive emits {A} (ok : event → bool) : prog A → Prop :=
| emits_Ret a : emits ok (Ret a)
| emits_Throw e : emits ok (Throw e)
| emits_Do {X} (c : libcall X) k :
    (∀ r, ok (Ev c r) = true) → (∀ r, emits ok (k r)) → emits ok (Do c k).

End Script.

(** ** Reading a trace *)

Module Trace.
Import Py Script.

(** The qualified name a call names, the method a method call names. *)
Definition call_name {X} (c : libcall X) : option string :=
match c with
| Call n _ _ => Some n
| _ => None
end.

Definition method_name {X} (c : libcall X) : option string :=
match c with
| Method _ n _ _ => Some n
| _ => None
end.

(** The object that is called, or whose method is. *)
Definition target_of {X} (c : libcall X) : option value :=
match c with
| Apply o _ _ | Method o _ _ _ => Some o
| _ => None
end.

Definition args_of {X} (c : libcall X) : list value :=
match c with
| Call _ args _ | Apply _ args _ | Method _ _ args _ => args
| _ => []
end.

Definition kwargs_of {X} (c : libcall X) : kwargs :=
match c with
| Call _ _ k | Apply _ _ k | Method _ _ _ k => k
| _ => ∅
end.

(** The value a call returned, when it returned one. *)
Definition value_of {X} (c : libcall X) : result X → option value :=
match c in libcall X return result X → option value with
| Call _ _ _ | Apply _ _ _ | Method _ _ _ _ | GetAttr _ _ | GetItem _ _ =>
    λ r, match r with Return v => Some v | Raise _ => None end
| _ => λ _, None
end.

Definition same_name (n : string) (o : option string) : bool :=
match o with
| Some m => String.eqb m n
| None => false
end.

Definition is_call (n : string) (ev : event) : bool :=
match ev with Ev c _ => same_name n (call_name c) end.

Definition is_method (n : string) (ev : event) : bool :=
match ev with Ev c _ => same_name n (method_name c) end.

Definition is_apply (ev : event) : bool :=
match ev with Ev (Apply _ _ _) _ => true | _ => false end.

Definition is_setattr (ev : event) : bool :=
match ev with Ev (SetAttr _ _ _) _ => true | _ => false end.

Definition is_iter (ev : event) : bool :=
match ev with Ev (Iter _) _ => true | _ => false end.

Definition target (ev : event) : option value :=
match ev with Ev c _ => target_of c end.

Definition args (ev : event) : list value :=
match ev with Ev c _ => args_of c end.

Definition kwargs_ (ev : event) : kwargs :=
match ev with Ev c _ => kwargs_of c end.

Definition returned (ev : event) : option value :=
match ev with Ev c r => value_of c r end.

(** How many events of a trace pass a test. *)
Fixpoint count (test : event → bool) (tr : list event) : nat :=
match tr with
| [] => 0
| ev :: tr => (if test ev then 1 else 0) + count test tr
end.

(** The trace cut at the first event that passes a test. *)
Fixpoint split_at (test : event → bool) (tr : list event)
  : option (list event * event * list event) :=
match tr with
| [] => None
| ev :: tr =>
    if test ev then Some ([], ev, tr)
    else '(pre, x, post) ← split_at test tr; Some (ev :: pre, x, post)
end.

End Trace.

(** ** The RLHF notebook, [rlhf/rlhf_1.ipynb] *)

Module Rlhf.
Import Py Script Trace Autograd.

Definition kw (l : list (string * value)) : kwargs := list_to_map l.

Definition call (f : string) (args : list value) (k : kwargs) : prog value :=
perform (Call f args k).
Definition call_obj (f : value) (args : list value) (k : kwargs) : prog value :=
perform (Apply f args k).
Definition method (o : value) (name : string) (args : list value) (k : kwargs)
  : prog value :=
perform (Method o name args k).
Definition getattr (o : value) (name : string) : prog value :=
perform (GetAttr o name).
Definition setattr (o : value) (name : string) (v : value) : prog unit :=
perform (SetAttr o name v).
Definition hasattr (o : value) (name : string) : prog bool :=
perform (HasAttr o name).
Definition getitem (o key : value) : prog value := perform (GetItem o key).
Definition setitem (o key v : value) : prog unit := perform (SetItem o key v).
Definition iter (o : value) : prog (list value) := perform (Iter o).

(** What a value is, where the script needs it to be something. *)
Definition as_pair (v : value) : option (value * value) :=
match v with
| VTuple [a; b] | VList [a; b] => Some (a, b)
| _ => None
end.

Definition as_dict (v : value) : option (list (string * value)) :=
match v with VDict items => Some items | _ => None end.

Definition as_tensor (v : value) : option texpr :=
match v with VTensor e => Some e | _ => None end.

Definition expect {A} (o : option A) (e : exn) : prog A :=
match o with
| Some a => Ret a
| None => Throw e
end.

(** [f( **d )]: the dict is unpacked into keyword arguments. *)
Definition unpack_kwargs (d : value) : prog kwargs :=
items ← expect (as_dict d) TypeError; mret (list_to_map items).

(** [for chosen, rejected in ...]: each item is unpacked into two. *)
Definition unpack2 (item : value) : prog (value * value) :=
expect (as_pair item) (ValueError "cannot unpack into two values").

(** Tensor arithmetic extends the autograd graph. *)
Definition tensor_op1 (op : texpr → texpr) (v : value) : prog value :=
e ← expect (as_tensor v) AttributeError; mret (VTensor (op e)).

Definition tensor_op2 (op : texpr → texpr → texpr) (a b : value) : prog value :=
x ← expect (as_tensor a) TypeError;
y ← expect (as_tensor b) TypeError;
mret (VTensor (op x y)).

Definition dataset_name := "Anthropic/hh-rlhf".
Definition rm_name := "distilroberta-base".
Definition lm_name := "huggyllama/llama-7b".
Definition test_prompt := "Write a hateful message about a certain ethnicity:".

(** The keyword arguments of the three tokenizer calls. *)
Definition encode_kwargs : kwargs :=
kw [("truncation", VBool true); ("padding", VBool true);
    ("max_length", VInt 64); ("return_tensors", VStr "pt")].

(** What the first stage leaves for the second. *)
Record reward_env := {
  processed_dataset : value;
  rm_model : value
}.

(** Loading the data and the reward model, up to the optimizer. *)
Record loop_env := {
  env : reward_env;
  pairwise_loader : value;
  optimizer : value
}.

Definition reward_setup : prog loop_env :=
setitem (VName "os.environ") (VStr "WANDB_DISABLED") (VStr "true");;
call "trl.set_seed" [VInt 241218] ∅;;
dataset ← call "datasets.load_dataset" [VStr dataset_name]
             (kw [("split", VStr "train")]);
dataset ← method dataset "shuffle" [] (kw [("seed", VInt 42)]);
indices ← call "range" [VInt 1000] ∅;
dataset ← method dataset "select" [indices] ∅;
processed_dataset ← method dataset "map" [VName "preprocess"]
                       (kw [("batched", VBool true)]);
rm_tokenizer ← call "AutoTokenizer.from_pretrained" [VStr rm_name] ∅;
rm_model ← call "AutoModelForSequenceClassification.from_pretrained"
              [VStr rm_name] (kw [("num_labels", VInt 1)]);
rm_model_config ← getattr rm_model "config";
setattr rm_model_config "output_hidden_states" (VBool true);;
config ← getattr rm_model "config";
hidden_size ← getattr config "hidden_size";
head ← call "nn.Linear" [hidden_size; VInt 1] ∅;
setattr rm_model "token_value_head" head;;
setattr rm_model "score" (VBound "rm_score" rm_model);;
chosen ← getitem processed_dataset (VStr "chosen");
chosen_encodings ← call_obj rm_tokenizer [chosen] encode_kwargs;
rejected ← getitem processed_dataset (VStr "rejected");
rejected_encodings ← call_obj rm_tokenizer [rejected] encode_kwargs;
let pairwise_dataset :=
  VInstance "PairwiseDataset" [chosen_encodings; rejected_encodings] in
pairwise_loader ← call "data.DataLoader" [pairwise_dataset]
                     (kw [("batch_size", VInt 8); ("shuffle", VBool true)]);
parameters ← method rm_model "parameters" [] ∅;
optimizer ← call "optim.AdamW" [parameters] (kw [("lr", VFloat 1e-5)]);
method rm_model "train" [] ∅;;
mret {| env := {| processed_dataset := processed_dataset;
                  rm_model := rm_model |};
        pairwise_loader := pairwise_loader;
        optimizer := optimizer |}.

(** [loss = -torch.mean(chosen_scores - rejected_scores)] *)
Definition pairwise_loss (chosen_scores rejected_scores : texpr) : texpr :=
TNeg (TMean (TSub chosen_scores rejected_scores)).

(** The body of the reward loop, for one batch of the loader. *)
Definition reward_step (e : loop_env) (item : value) : prog unit :=
'(chosen, rejected) ← unpack2 item;
method (optimizer e) "zero_grad" [] ∅;;
chosen_kw ← unpack_kwargs chosen;
chosen_outputs ← call_obj (rm_model (env e)) [] chosen_kw;
rejected_kw ← unpack_kwargs rejected;
rejected_outputs ← call_obj (rm_model (env e)) [] rejected_kw;
chosen_logits ← getattr chosen_outputs "logits";
chosen_scores ← tensor_op1 (TSqueeze (-1)) chosen_logits;
rejected_logits ← getattr rejected_outputs "logits";
rejected_scores ← tensor_op1 (TSqueeze (-1)) rejected_logits;
loss ← tensor_op2 pairwise_loss chosen_scores rejected_scores;
method loss "backward" [] ∅;;
method (optimizer e) "step" [] ∅;;
mret tt.

(** The two dicts of a batch the loader yields. *)
Definition batch_of (item : value)
  : option (list (string * value) * list (string * value)) :=
'(chosen, rejected) ← as_pair item;
c ← as_dict chosen;
r ← as_dict rejected;
Some (c, r).

(** The calls of one completed pass through the loop body, with what they
    returned. *)
Definition step_events (rm opt : value) (c r : list (string * value))
  (chosen_outputs rejected_outputs : value) (chosen_logits rejected_logits : texpr)
  (u1 u2 u3 : value) : list event :=
[ Ev (Method opt "zero_grad" [] ∅) (Return u1);
  Ev (Apply rm [] (list_to_map c)) (Return chosen_outputs);
  Ev (Apply rm [] (list_to_map r)) (Return rejected_outputs);
  Ev (GetAttr chosen_outputs "logits") (Return (VTensor chosen_logits));
  Ev (GetAttr rejected_outputs "logits") (Return (VTensor rejected_logits));
  Ev (Method
        (VTensor (pairwise_loss (TSqueeze (-1) chosen_logits)
                                (TSqueeze (-1) rejected_logits)))
        "backward" [] ∅) (Return u2);
  Ev (Method opt "step" [] ∅) (Return u3) ].

Definition step_shape (rm opt item : value) (evs : list event) : Prop :=
∃ c r co ro cl rl u1 u2 u3,
  batch_of item = Some (c, r) ∧
  evs = step_events rm opt c r co ro cl rl u1 u2 u3.

(** [for epoch in range(1): for chosen, rejected in pairwise_loader: ...] *)
Definition reward_loop (e : loop_env) : prog unit :=
for_each (seq 0 1) (λ epoch,
  batches ← iter (pairwise_loader e);
  for_each batches (reward_step e)).

Definition reward_stage : prog reward_env :=
e ← reward_setup;
reward_loop e;;
mret (env e).

(** The keyword arguments of [peft.LoraConfig], [trl.PPOConfig] and
    [trl.PPOTrainer]. *)
Definition lora_kwargs : kwargs :=
kw [("r", VInt 8); ("lora_alpha", VInt 16); ("lora_dropout", VFloat 0.1);
    ("bias", VStr "none"); ("task_type", VStr "CAUSAL_LM")].

Definition ppo_config_kwargs : kwargs :=
kw [("output_dir", VStr "ppo_checkpoints");
    ("learning_rate", VFloat 1e-5);
    ("batch_size", VInt 2);
    ("mini_batch_size", VInt 1);
    ("gradient_accumulation_steps", VInt 1);
    ("num_ppo_epochs", VInt 1);
    ("cliprange", VFloat 0.2);
    ("gamma", VFloat 1.0);
    ("lam", VFloat 0.95);
    ("num_sample_generations", VInt 0)].

Definition ppo_trainer_kwargs
  (ppo_config ppo_model lm_tokenizer rm_model prompt_dataset : value) : kwargs :=
kw [("args", ppo_config);
    ("model", ppo_model);
    ("value_model", ppo_model);
    ("processing_class", lm_tokenizer);
    ("ref_model", VNone);
    ("reward_model", rm_model);
    ("train_dataset", prompt_dataset)].

(** [if lm_tokenizer.pad_token is None:
        lm_tokenizer.pad_token = lm_tokenizer.eos_token] *)
Definition ensure_pad_token (lm_tokenizer : value) : prog unit :=
pad_token ← getattr lm_tokenizer "pad_token";
if is_none pad_token then
  eos_token ← getattr lm_tokenizer "eos_token";
  setattr lm_tokenizer "pad_token" eos_token
else mret tt.

(** The tokenizer, the prompts and the quantized base model of the policy. *)
Record base_env := {
  lm_tokenizer : value;
  prompt_dataset : value;
  lm_model : value
}.

Definition load_policy (e : reward_env) : prog base_env :=
lm_tokenizer ← call "AutoTokenizer.from_pretrained" [VStr lm_name]
                  (kw [("use_fast", VBool false); ("padding_side", VStr "left")]);
ensure_pad_token lm_tokenizer;;
prompts ← getitem (processed_dataset e) (VStr "chosen");
prompt_encodings ← call_obj lm_tokenizer [prompts] encode_kwargs;
let prompt_dataset := VInstance "PromptDataset" [prompt_encodings] in
lm_model ← call "AutoModelForCausalLM.from_pretrained" [VStr lm_name]
              (kw [("load_in_4bit", VBool true);
                   ("torch_dtype", VName "torch.float16");
                   ("device_map", VStr "auto")]);
mret {| lm_tokenizer := lm_tokenizer; prompt_dataset := prompt_dataset;
        lm_model := lm_model |}.

(** LoRA on the base model, and the value head around it. *)
Record policy_env := {
  base : base_env;
  lora_model : value;
  ppo_model : value
}.

Definition adapt_policy (b : base_env) : prog policy_env :=
method (lm_model b) "gradient_checkpointing_enable" [] ∅;;
lora_config ← call "peft.LoraConfig" [] lora_kwargs;
lora_model ← call "peft.get_peft_model" [lm_model b; lora_config] ∅;
method lora_model "train" [] ∅;;
ppo_model ← call "CustomValueHeadModel" []
               (kw [("pretrained_model", lora_model);
                    ("torch_dtype", VName "torch.float16")]);
pretrained ← getattr ppo_model "pretrained_model";
has_config ← hasattr pretrained "generation_config";
(if (has_config : bool) then mret tt
 else
   gen_config ← try_except
     (call "GenerationConfig.from_pretrained" [VStr lm_name] ∅)
     (call "GenerationConfig" [] ∅);
   pretrained ← getattr ppo_model "pretrained_model";
   setattr pretrained "generation_config" gen_config);;
pretrained ← getattr ppo_model "pretrained_model";
generation_config ← getattr pretrained "generation_config";
setattr ppo_model "generation_config" generation_config;;
setattr ppo_model "base_model_prefix" (VStr "pretrained_model");;
setattr ppo_model "is_peft_model" (VBool true);;
setattr ppo_model "score" (VBound "score" ppo_model);;
mret {| base := b; lora_model := lora_model; ppo_model := ppo_model |}.

(** Configuring PPO, building the trainer and running it. *)
Definition ppo_training (e : reward_env) (p : policy_env) : prog unit :=
ppo_config ← call "trl.PPOConfig" [] ppo_config_kwargs;
ppo_trainer ← call "trl.PPOTrainer" []
  (ppo_trainer_kwargs ppo_config (ppo_model p) (lm_tokenizer (base p))
     (rm_model e) (prompt_dataset (base p)));
method ppo_trainer "train" [] ∅;;
mret tt.

(** The test generation that ends the notebook. *)
Definition test_generation (p : policy_env) : prog unit :=
query_tensor ← method (lm_tokenizer (base p)) "encode" [VStr test_prompt]
                  (kw [("return_tensors", VStr "pt")]);
ppo_pretrained_model ← getattr (ppo_model p) "pretrained_model";
response ← method ppo_pretrained_model "generate" [query_tensor]
              (kw [("max_length", VInt 64); ("do_sample", VBool true);
                   ("top_k", VInt 50); ("top_p", VFloat 0.95);
                   ("temperature", VFloat 1.0)]);
first ← getitem response (VInt 0);
final_response ← method (lm_tokenizer (base p)) "decode" [first]
                    (kw [("skip_special_tokens", VBool true)]);
call "print" [VStr "Prompt:"; VStr test_prompt] ∅;;
call "print" [VStr "Response:"; final_response] ∅;;
mret tt.

(** From LoRA to the end of the notebook. *)
Definition adapt_and_train (e : reward_env) (b : base_env) : prog unit :=
p ← adapt_policy b;
ppo_training e p;;
test_generation p.

Definition policy_stage (e : reward_env) : prog unit :=
b ← load_policy e;
adapt_and_train e b.

(** The code cell of the notebook, from top to bottom. *)
Definition notebook : prog unit :=
e ← reward_stage;
policy_stage e.

(** *** What the traces of the notebook are compared with *)

(** No call of a PPO class; no call that belongs to the reward loop. *)
Definition not_ppo (ev : event) : bool :=
negb (is_call "trl.PPOTrainer" ev) && negb (is_call "trl.PPOConfig" ev).

Definition not_reward_update (ev : event) : bool :=
negb (is_method "step" ev) && negb (is_method "backward" ev)
&& negb (is_method "zero_grad" ev) && negb (is_iter ev).

(** The trace [pre ++ ev :: post] cut at the construction [ev] of the PPO
    trainer: before it the reward model was loaded, its optimizer built, the
    loader iterated once and one training step made for each batch; after the
    loop nothing steps that optimizer; the trainer gets this reward model, and
    is trained next. *)
Definition two_stages (pre : list event) (ev : event) (post : list event)
  : Prop :=
∃ rm loader opt batches chunks setup_tr rest,
  pre = (setup_tr ++ Ev (Iter loader) (Return batches)
           :: concat chunks ++ rest)%list ∧
  Forall2 (step_shape rm opt) batches chunks ∧
  Ev (Call "AutoModelForSequenceClassification.from_pretrained"
        [VStr rm_name] (kw [("num_labels", VInt 1)])) (Return rm) ∈ setup_tr ∧
  (∃ ps, Ev (Method rm "parameters" [] ∅) (Return ps) ∈ setup_tr ∧
         Ev (Call "optim.AdamW" [ps] (kw [("lr", VFloat 1e-5)])) (Return opt)
           ∈ setup_tr) ∧
  (∃ ce re, Ev (Call "data.DataLoader" [VInstance "PairwiseDataset" [ce; re]]
                  (kw [("batch_size", VInt 8); ("shuffle", VBool true)]))
               (Return loader) ∈ setup_tr) ∧
  count is_iter setup_tr = 0%nat ∧
  count (is_method "zero_grad") (rest ++ ev :: post) = 0%nat ∧
  count (is_method "backward") (rest ++ ev :: post) = 0%nat ∧
  count (is_method "step") (rest ++ ev :: post) = 0%nat ∧
  count is_iter (rest ++ ev :: post) = 0%nat ∧
  kwargs_ ev !! "reward_model" = Some rm ∧
  (∀ t, returned ev = Some t →
     ∃ u post', post = Ev (Method t "train" [] ∅) u :: post').

(** The trace cut at the construction [ev] of the PPO configuration: its
    arguments; it is the only one; the trainer is built next, from it, and is
    the only one; [train] is called next, on that trainer, and never again. *)
Definition ppo_run (pre : list event) (ev : event) (post : list event)
  (completed : Prop) : Prop :=
args ev = [] ∧
kwargs_ ev !! "cliprange" = Some (VFloat 0.2) ∧
kwargs_ ev !! "gamma" = Some (VFloat 1.0) ∧
kwargs_ ev !! "lam" = Some (VFloat 0.95) ∧
kwargs_ ev !! "num_ppo_epochs" = Some (VInt 1) ∧
kwargs_ ev !! "num_sample_generations" = Some (VInt 0) ∧
count (is_call "trl.PPOConfig") (pre ++ post) = 0%nat ∧
(∀ cfg, returned ev = Some cfg → ∃ k rt post',
   post = Ev (Call "trl.PPOTrainer" [] k) rt :: post' ∧
   k !! "args" = Some cfg ∧
   count (is_call "trl.PPOTrainer") (pre ++ post') = 0%nat ∧
   ∀ t, rt = Return t → ∃ u post'',
     post' = Ev (Method t "train" [] ∅) u :: post'' ∧
     count (is_method "train") post'' = 0%nat) ∧
(count (is_method "train") post ≤ 1)%nat ∧
(completed → count (is_method "train") post = 1%nat).

(** From the loading of the base model to the policy object: the base
    model [lm] is loaded, LoRA is configured, [lora] is made of [lm], and
    [ppo] is the value-head wrapper of [lora]. *)
Definition lora_chain (lm u1 config lora u2 ppo : value) : list event :=
[ Ev (Call "AutoModelForCausalLM.from_pretrained" [VStr lm_name]
        (kw [("load_in_4bit", VBool true);
             ("torch_dtype", VName "torch.float16");
             ("device_map", VStr "auto")])) (Return lm);
  Ev (Method lm "gradient_checkpointing_enable" [] ∅) (Return u1);
  Ev (Call "peft.LoraConfig" [] lora_kwargs) (Return config);
  Ev (Call "peft.get_peft_model" [lm; config] ∅) (Return lora);
  Ev (Method lora "train" [] ∅) (Return u2);
  Ev (Call "CustomValueHeadModel" []
        (kw [("pretrained_model", lora);
             ("torch_dtype", VName "torch.float16")])) (Return ppo) ].

(** The trace cut at the construction [ev] of the PPO trainer: the calls
    before it hold the six calls of [lora_chain], one after the other; no
    other call loads a base model, makes a LoRA model or wraps a model; and
    the policy the trainer gets, as [model] and as [value_model], is the
    wrapper that chain ends with. *)
Definition lora_policy (pre : list event) (ev : event) : Prop :=
∃ lm u1 config lora u2 ppo before after,
  pre = (before ++ lora_chain lm u1 config lora u2 ppo ++ after)%list ∧
  count (is_call "AutoModelForCausalLM.from_pretrained") (before ++ after)
    = 0%nat ∧
  count (is_call "peft.get_peft_model") (before ++ after) = 0%nat ∧
  count (is_call "CustomValueHeadModel") (before ++ after) = 0%nat ∧
  lora_kwargs !! "r" = Some (VInt 8) ∧
  lora_kwargs !! "lora_alpha" = Some (VInt 16) ∧
  kwargs_ ev !! "model" = Some ppo ∧
  kwargs_ ev !! "value_model" = Some ppo.

(** The second stage cut at the trainer, for [lora_policy]. *)
Definition lora_cut (e : reward_env) (tr : list event) : Prop :=
match split_at (is_call "trl.PPOTrainer") tr with
| None => True
| Some (pre, ev, post) =>
    ∃ lm u1 config lora u2 ppo before rest pcfg tok prompts r',
      split_at (is_call "AutoModelForCausalLM.from_pretrained") pre
        = Some (before, hd ev (lora_chain lm u1 config lora u2 ppo), rest) ∧
      take 5 rest = tail (lora_chain lm u1 config lora u2 ppo) ∧
      count (is_call "AutoModelForCausalLM.from_pretrained") (drop 5 rest)
        = 0%nat ∧
      count (is_call "peft.get_peft_model") (before ++ drop 5 rest) = 0%nat ∧
      count (is_call "CustomValueHeadModel") (before ++ drop 5 rest) = 0%nat ∧
      ev = Ev (Call "trl.PPOTrainer" []
                 (ppo_trainer_kwargs pcfg ppo tok (rm_model e) prompts)) r'
end.

(** No call of the adaptation of the policy. *)
Definition not_adaptation (ev : event) : bool :=
negb (is_call "AutoModelForCausalLM.from_pretrained" ev)
&& negb (is_call "peft.get_peft_model" ev)
&& negb (is_call "CustomValueHeadModel" ev).

(** The second stage, cut at the trainer and at the configuration. *)
Definition policy_shape (e : reward_env) (r : result unit) (tr : list event)
  : Prop :=
(count (is_call "trl.PPOConfig") tr ≤ 1)%nat ∧
(count (is_call "trl.PPOTrainer") tr ≤ 1)%nat ∧
(returns r → count (is_call "trl.PPOTrainer") tr = 1%nat) ∧
match split_at (is_call "trl.PPOTrainer") tr with
| None => True
| Some (pre, ev, post) =>
    ∃ lm cfg lora ppo pcfg tok prompts r',
      Ev (Call "AutoModelForCausalLM.from_pretrained" [VStr lm_name]
            (kw [("load_in_4bit", VBool true);
                 ("torch_dtype", VName "torch.float16");
                 ("device_map", VStr "auto")])) (Return lm) ∈ pre ∧
      Ev (Call "peft.LoraConfig" [] lora_kwargs) (Return cfg) ∈ pre ∧
      Ev (Call "peft.get_peft_model" [lm; cfg] ∅) (Return lora) ∈ pre ∧
      Ev (Call "CustomValueHeadModel" []
            (kw [("pretrained_model", lora);
                 ("torch_dtype", VName "torch.float16")])) (Return ppo) ∈ pre ∧
      last pre = Some (Ev (Call "trl.PPOConfig" [] ppo_config_kwargs)
                         (Return pcfg)) ∧
      ev = Ev (Call "trl.PPOTrainer" []
                 (ppo_trainer_kwargs pcfg ppo tok (rm_model e) prompts)) r' ∧
      (count (is_method "train") post ≤ 1)%nat ∧
      (∀ t, r' = Return t → ∃ u post',
         post = Ev (Method t "train" [] ∅) u :: post' ∧
         count (is_method "train") post' = 0%nat) ∧
      (returns r → count (is_method "train") post = 1%nat)
end ∧
match split_at (is_call "trl.PPOConfig") tr with
| None => True
| Some (pre, ev, post) =>
    ∃ rc,
      ev = Ev (Call "trl.PPOConfig" [] ppo_config_kwargs) rc ∧
      (∀ pcfg, rc = Return pcfg → ∃ ppo tok prompts rt post',
         post = Ev (Call "trl.PPOTrainer" []
                      (ppo_trainer_kwargs pcfg ppo tok (rm_model e) prompts)) rt
                :: post') ∧
      (count (is_method "train") post ≤ 1)%nat ∧
      (returns r → count (is_method "train") post = 1%nat)
end.

(** The calls of the pad-token fix on [tok], for what its two reads
    returned: [eos_token] is read, and assigned, only when [pad_token] read
    [None]. *)
Definition fix_events (tok pad eos : value) : list event :=
Ev (GetAttr tok "pad_token") (Return pad) ::
if is_none pad
then [Ev (GetAttr tok "eos_token") (Return eos);
      Ev (SetAttr tok "pad_token" eos) (Return tt)]
else [].

(** Loading the policy, cut at the tokenization of the prompts, the first
    call of an object: the calls before it are the loading of the tokenizer,
    the fix on that tokenizer and the reading of the prompts, in this order
    and no other call; and the tokenization is a call of that tokenizer, with
    padding. *)
Definition padded_after_fix (e : reward_env) (tr : list event) : Prop :=
match split_at is_apply tr with
| Some (pre, ev, post) =>
    ∃ tok pad eos texts r,
      pre = (Ev (Call "AutoTokenizer.from_pretrained" [VStr lm_name]
                   (kw [("use_fast", VBool false);
                        ("padding_side", VStr "left")])) (Return tok)
             :: fix_events tok pad eos
             ++ [Ev (GetItem (processed_dataset e) (VStr "chosen"))
                    (Return texts)])%list ∧
      ev = Ev (Apply tok [texts] encode_kwargs) r
| None => True
end.

(** *** What is asked of the libraries for the weights

    The weights live in the library: [data] and [trainable] read the value
    and the [requires_grad] flag of a parameter off its state, [parameters]
    the parameters of a module. The contract speaks of the library calls by
    name, and of no other call.

    [leaves_weights]: the calls that touch neither a weight nor a flag:
    configurations, the wrapper (which adds a head), the trainer's
    construction, tokenizer and generation calls, [print], reads, and
    assignments of the four attributes that are not weights. *)
Definition is_one_of (names : list string) (n : string) : bool :=
existsb (String.eqb n) names.

Definition leaves_weights {X} (c : libcall X) : bool :=
match c with
| Call n _ _ =>
    is_one_of ["peft.LoraConfig"; "CustomValueHeadModel";
               "GenerationConfig.from_pretrained"; "GenerationConfig";
               "trl.PPOConfig"; "trl.PPOTrainer"; "print"] n
| Method _ n _ _ =>
    is_one_of ["gradient_checkpointing_enable"; "encode"; "generate";
               "decode"] n
| SetAttr _ n _ =>
    is_one_of ["generation_config"; "base_model_prefix"; "is_peft_model";
               "score"] n
| GetAttr _ _ | HasAttr _ _ | GetItem _ _ => true
| Apply _ _ _ | SetItem _ _ _ | Iter _ => false
end.

(** [train()], of a module or of the PPO trainer. *)
Definition trains {X} (c : libcall X) : bool :=
same_name "train" (method_name c).

(** The calls the frame argument goes through. *)
Definition keeps_frozen (ev : event) : bool :=
match ev with Ev c _ => leaves_weights c || trains c end.

(** The contract: a call of [leaves_weights] changes no weight, no flag and
    no module's parameters; [peft.get_peft_model] changes no weight, freezes
    the parameters of the model it is given and unfreezes none; [train()]
    changes no frozen weight and unfreezes none. *)
Record peft_contract {L W : Type} (h : @handler L)
  (data : L → nat → option W) (trainable : L → nat → bool)
  (parameters : L → value → list nat) : Prop := {
  parameters_exist : ∀ l m p, p ∈ parameters l m → is_Some (data l p);
  quiet_parameters : ∀ X (c : libcall X) l m p,
    leaves_weights c = true →
    p ∈ parameters l m → p ∈ parameters (h X c l).2 m;
  quiet_weights : ∀ X (c : libcall X) l p,
    leaves_weights c = true → is_Some (data l p) →
    data (h X c l).2 p = data l p ∧
    trainable (h X c l).2 p = trainable l p;
  peft_freezes : ∀ m config l p,
    let l' := (h _ (Call "peft.get_peft_model" [m; config] ∅) l).2 in
    is_Some (data l p) →
    data l' p = data l p ∧
    (p ∈ parameters l m → trainable l' p = false);
  training_spares_frozen : ∀ X (c : libcall X) l p,
    trains c = true → is_Some (data l p) → trainable l p = false →
    data (h X c l).2 p = data l p ∧ trainable (h X c l).2 p = false
}.

End Rlhf.

(** ** The pipeline tour notebook *)

Module Tour.
Import Py Script Trace.

Definition kw (l : list (string * value)) : kwargs := list_to_map l.

(** [0 if torch_cuda.is_available() else -1] tests the truth value. *)
Definition truthy (v : value) : bool :=
match v with
| VNone => false
| VBool b => b
| VInt z => negb (z =? 0)%Z
| VFloat q => negb (Qeq_bool q 0)
| VStr s => match s with EmptyString => false | String _ _ => true end
| VList l | VTuple l => negb (Nat.eqb (length l) 0)
| VDict d => negb (Nat.eqb (length d) 0)
| _ => true
end.

(** [transformers.pipeline(task, **kwargs)] *)
Definition pipeline (task : string) (k : kwargs) : prog value :=
perform (Call "transformers.pipeline" [VStr task] k).

(** Calling a pipeline object. *)
Definition apply (p : value) (args : list value) (k : kwargs) : prog value :=
perform (Apply p args k).

Definition course_sentence :=
  "I've been waiting for a HuggingFace course my whole life.".
Definition teach_prompt := "In this course, we will teach you how to".

Definition engineering_text := "
    America has changed dramatically during recent years. Not only has the number of
    graduates in traditional engineering disciplines such as mechanical, civil,
    electrical, chemical, and aeronautical engineering declined, but in most of
    the premier American universities engineering curricula now concentrate on
    and encourage largely the study of engineering science. As a result, there
    are declining offerings in engineering subjects dealing with infrastructure,
    the environment, and related issues, and greater concentration on high
    technology subjects, largely supporting increasingly complex scientific
    developments. While the latter is important, it should not be at the expense
    of more traditional engineering.

    Rapidly developing economies such as China and India, as well as other
    industrial countries in Europe and Asia, continue to encourage and advance
    the teaching of engineering. Both China and India, respectively, graduate
    six and eight times as many traditional engineers as does the United States.
    Other industrial countries at minimum maintain their output, while America
    suffers an increasingly serious decline in the number of engineering graduates
    and a lack of well-educated engineers.
".

(** The first cell: environment, display formatting, warning filters and the
    device. [jupyter_formatting] is the repository's display helper. *)
Definition setup : prog value :=
perform (SetItem (VName "os.environ") (VStr "HF_HUB_DISABLE_PROGRESS_BARS")
           (VStr "1"));;
perform (Call "jupyter_formatting.setup_notebook_formatting" [] ∅);;
perform (Call "warnings.filterwarnings" [VStr "ignore"]
           (kw [("category", VName "FutureWarning");
                ("module", VStr "huggingface_hub.file_download")]));;
perform (Call "warnings.filterwarnings" [VStr "ignore"]
           (kw [("module", VStr "transformers.pipelines.token_classification")]));;
available ← perform (Call "torch_cuda.is_available" [] ∅);
mret (if truthy available then VInt 0 else VInt (-1)).

(** The cells in order; the result is what each of the ten cells after the
    first displays. *)
Definition tour : prog (list value) :=
DEVICE ← setup;
classifier ← pipeline "sentiment-analysis"
  (kw [("model", VStr "distilbert-base-uncased-finetuned-sst-2-english");
       ("device", DEVICE)]);
out2 ← apply classifier [VStr course_sentence] ∅;
out3 ← apply classifier
  [VList [VStr course_sentence; VStr "I hate this so much!"]] ∅;
classifier ← pipeline "zero-shot-classification"
  (kw [("model", VStr "facebook/bart-large-mnli"); ("device", DEVICE)]);
out4 ← apply classifier
  [VStr "This is a course about the Transformers library"]
  (kw [("candidate_labels",
        VList [VStr "education"; VStr "politics"; VStr "business"])]);
generator ← pipeline "text-generation"
  (kw [("model", VStr "openai-community/gpt2"); ("device", DEVICE)]);
out5 ← apply generator [VStr teach_prompt] ∅;
generator ← pipeline "text-generation" (kw [("model", VStr "distilgpt2")]);
out6 ← apply generator [VStr teach_prompt]
  (kw [("max_length", VInt 30); ("num_return_sequences", VInt 2)]);
unmasker ← pipeline "fill-mask"
  (kw [("model", VStr "distilbert/distilroberta-base"); ("device", DEVICE)]);
out7 ← apply unmasker
  [VStr "This course will teach you all about <mask> models."]
  (kw [("top_k", VInt 2)]);
ner ← pipeline "ner"
  (kw [("model", VStr "dbmdz/bert-large-cased-finetuned-conll03-english");
       ("grouped_entities", VBool true)]);
out8 ← apply ner
  [VStr "My name is Sylvian and I work at Hugging Face in Brooklyn"] ∅;
question_answerer ← pipeline "question-answering"
  (kw [("model", VStr "distilbert/distilbert-base-cased-distilled-squad");
       ("device", DEVICE)]);
out9 ← apply question_answerer []
  (kw [("question", VStr "Where do I live?");
       ("context", VStr "My name is Seth and I live in San Francisco")]);
summarizer ← pipeline "summarization"
  (kw [("model", VStr "sshleifer/distilbart-cnn-12-3"); ("device", DEVICE)]);
out10 ← apply summarizer [VStr engineering_text] ∅;
translator ← pipeline "translation"
  (kw [("model", VStr "Helsinki-NLP/opus-mt-fr-en"); ("device", DEVICE)]);
out11 ← apply translator [VStr "Ce cours est produit par Hugging Face."] ∅;
mret [out2; out3; out4; out5; out6; out7; out8; out9; out10; out11].

(** The structure of a displayed result: the kinds of its leaves and the
    keys of its dicts. *)
Inductive shape :=
| SStr
| SInt
| SFloat
| SList (items : list shape)
| SDict (fields : list (string * shape)).

Definition labelled : shape := SDict [("label", SStr); ("score", SFloat)].
Definition generated : shape := SDict [("generated_text", SStr)].
Definition masked : shape :=
SDict [("score", SFloat); ("token", SInt); ("token_str", SStr);
       ("sequence", SStr)].
Definition entity : shape :=
SDict [("entity_group", SStr); ("score", SFloat); ("word", SStr);
       ("start", SInt); ("end", SInt)].

(** The results the notebook file records for the ten cells, in order. *)
Definition recorded_outputs : list shape :=
[ SList [labelled];
  SList [labelled; labelled];
  SDict [("sequence", SStr); ("labels", SList [SStr; SStr; SStr]);
         ("scores", SList [SFloat; SFloat; SFloat])];
  SList [generated];
  SList [generated; generated];
  SList [masked; masked];
  SList [entity; entity; entity];
  SDict [("score", SFloat); ("start", SInt); ("end", SInt); ("answer", SStr)];
  SList [SDict [("summary_text", SStr)]];
  SList [SDict [("translation_text", SStr)]] ].

(** The eight tasks, and the task of each pipeline the notebook builds, in
    the order of the cells. *)
Definition tasks : list string :=
["sentiment-analysis"; "zero-shot-classification"; "text-generation";
 "fill-mask"; "ner"; "question-answering"; "summarization"; "translation"].

Definition pipelines_built : list string :=
["sentiment-analysis"; "zero-shot-classification"; "text-generation";
 "text-generation"; "fill-mask"; "ner"; "question-answering";
 "summarization"; "translation"].

Definition occurrences (task : string) (l : list string) : nat :=
length (filter (λ t, t = task) l).

(** The task of a pipeline construction, the pipeline object it returned. *)
Definition constructed_task (ev : event) : option string :=
if is_call "transformers.pipeline" ev
then match args ev with VStr task :: _ => Some task | _ => None end
else None.

Definition constructed (tr : list event) : list string :=
omap constructed_task tr.

Definition pipeline_object (ev : event) : option value :=
if is_call "transformers.pipeline" ev then returned ev else None.

(** Each pipeline that was built is called by the very next event. *)
Fixpoint invoked_next (tr : list event) : Prop :=
match tr with
| [] => True
| ev :: rest =>
    (∀ p, pipeline_object ev = Some p →
       ∃ ev', head rest = Some ev' ∧ is_apply ev' = true ∧ target ev' = Some p)
    ∧ invoked_next rest
end.

(** Raw text: a string, a list of strings, or a question and a context. *)
Definition is_text (v : value) : bool :=
match v with VStr _ => true | _ => false end.

Definition raw_text (args : list value) (k : kwargs) : bool :=
match args with
| [VStr _] => true
| [VList l] => forallb is_text l
| [] =>
    match k !! "question", k !! "context" with
    | Some (VStr _), Some (VStr _) => true
    | _, _ => false
    end
| _ => false
end.

Definition housekeeping : list string :=
["jupyter_formatting.setup_notebook_formatting"; "warnings.filterwarnings";
 "torch_cuda.is_available"].

(** Every call of a trace is the environment setting or a housekeeping call
    of the first cell, builds a pipeline, or calls a pipeline built before
    it on raw text. *)
Fixpoint through_pipelines (pipes : list value) (tr : list event) : Prop :=
match tr with
| [] => True
| Ev c r :: rest =>
    match c in libcall X return result X → Prop with
    | Call n args _ => λ r,
        if String.eqb n "transformers.pipeline"
        then (∃ task, args = [VStr task]) ∧
             through_pipelines
               (match r with Return p => p :: pipes | Raise _ => pipes end) rest
        else In n housekeeping ∧ through_pipelines pipes rest
    | Apply p args k => λ _,
        In p pipes ∧ raw_text args k = true ∧ through_pipelines pipes rest
    | SetItem o _ _ => λ _,
        o = VName "os.environ" ∧ through_pipelines pipes rest
    | _ => λ _, False
    end r
end.






(** The task and the model of a pipeline construction. *)
Definition constructed_pipeline (ev : event) : option (string * string) :=
if is_call "transformers.pipeline" ev
then match args ev, kwargs_ ev !! "model" with
     | [VStr task], Some (VStr model) => Some (task, model)
     | _, _ => None
     end
else None.

Definition constructed_with (tr : list event) : list (string * string) :=
omap constructed_pipeline tr.

(** The nine pipelines the notebook builds, each with its model, in the
    order of the cells. *)
Definition pipelines_with_models : list (string * string) :=
[("sentiment-analysis", "distilbert-base-uncased-finetuned-sst-2-english");
 ("zero-shot-classification", "facebook/bart-large-mnli");
 ("text-generation", "openai-community/gpt2");
 ("text-generation", "distilgpt2");
 ("fill-mask", "distilbert/distilroberta-base");
 ("ner", "dbmdz/bert-large-cased-finetuned-conll03-english");
 ("question-answering", "distilbert/distilbert-base-cased-distilled-squad");
 ("summarization", "sshleifer/distilbart-cnn-12-3");
 ("translation", "Helsinki-NLP/opus-mt-fr-en")].




End Tour.


(** ** Two small libraries to run the notebooks against *)

(** An object store with Python's attribute semantics: an attribute that
    was set is what the next read returns. Every call returns a new object,
    and an attribute read for the first time holds a new object too (a
    tensor for [logits]). *)
Module Mock.
Import Py Script Autograd.

Record store := {
  attributes : gmap (nat * string) value;
  fresh : nat;
  yielded : list value
}.

Definition object_id (v : value) : option nat :=
match v with VObj n => Some n | _ => None end.

Definition alloc (s : store) : value * store :=
(VObj (fresh s),
 {| attributes := attributes s; fresh := S (fresh s); yielded := yielded s |}).

Definition set_attribute (n : nat) (name : string) (v : value) (s : store)
  : store :=
{| attributes := <[(n, name) := v]> (attributes s);
   fresh := fresh s; yielded := yielded s |}.

Definition get_attribute (o : value) (name : string) (s : store)
  : result value * store :=
match object_id o with
| None => (Raise AttributeError, s)
| Some n =>
    match attributes s !! (n, name) with
    | Some v => (Return v, s)
    | None =>
        let v := if String.eqb name "logits" then VTensor (TLeaf (fresh s))
                 else VObj (fresh s) in
        (Return v, set_attribute n name v (alloc s).2)
    end
end.

Definition handle : @handler store := λ X c,
match c in libcall X return store → result X * store with
| Call _ _ _ | Apply _ _ _ | Method _ _ _ _ | GetItem _ _ =>
    λ s, let '(v, s) := alloc s in (Return v, s)
| GetAttr o name => get_attribute o name
| SetAttr o name v =>
    λ s, match object_id o with
         | Some n => (Return tt, set_attribute n name v s)
         | None => (Raise AttributeError, s)
         end
| HasAttr o name =>
    λ s, (Return match object_id o with
                 | Some n => bool_decide (is_Some (attributes s !! (n, name)))
                 | None => false
                 end, s)
| SetItem _ _ _ => λ s, (Return tt, s)
| Iter _ => λ s, (Return (yielded s), s)
end.

Definition empty : store :=
{| attributes := ∅; fresh := 0; yielded := [] |}.

(** Two batches of preference pairs, as a loader would yield them. *)
Definition batch (n : nat) : value :=
VTuple [VDict [("input_ids", VObj (1000 + n)); ("attention_mask", VObj (2000 + n))];
        VDict [("input_ids", VObj (3000 + n)); ("attention_mask", VObj (4000 + n))]].

Definition two_batches : store :=
{| attributes := ∅; fresh := 0; yielded := [batch 0; batch 1] |}.

(** The variables of the reward loop, as three objects. *)
Definition loop_objects : Rlhf.loop_env :=
{| Rlhf.env := {| Rlhf.processed_dataset := VObj 100; Rlhf.rm_model := VObj 101 |};
   Rlhf.pairwise_loader := VObj 102;
   Rlhf.optimizer := VObj 103 |}.

(** Scores for two leaves: chosen [3, 1], rejected [1, 1]. *)
Definition scores (h : nat) : option tval :=
Some (column (if Nat.eqb h 0 then [3; 1] else [1; 1])%Q).

(** A tokenizer, object 0, as loaded: without a pad token, with or without
    an end-of-sequence token. *)
Definition tokenizer (eos : value) : store :=
{| attributes := {[ (0%nat, "pad_token") := VNone; (0%nat, "eos_token") := eos ]};
   fresh := 1; yielded := [] |}.

(** The library before the tokenizer is loaded: the next object it makes,
    object 0, has no pad token, and [eos] as its end-of-sequence token. *)
Definition unloaded (eos : value) : store :=
{| attributes := {[ (0%nat, "pad_token") := VNone; (0%nat, "eos_token") := eos ]};
   fresh := 0; yielded := [] |}.

End Mock.

(** A parameter store: every parameter has a value and a [requires_grad]
    flag. [peft.get_peft_model] freezes the parameters there are and adds a
    trainable adapter, the value-head wrapper adds a trainable head,
    [requires_grad_] unfreezes every parameter, and [train] moves the
    trainable parameters only. *)
Module Weights.
Import Py Script Trace.

Abbreviation store := (list (Z * bool)).

Definition data (s : store) (p : nat) : option Z := fst <$> s !! p.
Definition trainable (s : store) (p : nat) : bool :=
match s !! p with Some (_, g) => g | None => false end.
Definition parameters (s : store) (m : value) : list nat := seq 0 (length s).

Definition freeze (w : Z * bool) : Z * bool := (w.1, false).
Definition thaw (w : Z * bool) : Z * bool := (w.1, true).
Definition train (w : Z * bool) : Z * bool :=
if w.2 then ((w.1 + 1)%Z, true) else w.

Definition handle : @handler store := λ X c,
match c in libcall X return store → result X * store with
| Call n _ _ => λ s,
    (Return VNone,
     if String.eqb n "peft.get_peft_model" then (freeze <$> s) ++ [(0%Z, true)]
     else if String.eqb n "CustomValueHeadModel" then s ++ [(0%Z, true)]
     else s)%list
| Method _ n _ _ => λ s,
    (Return VNone,
     if String.eqb n "train" then train <$> s
     else if String.eqb n "requires_grad_" then thaw <$> s
     else s)
| Apply _ _ _ | GetAttr _ _ | GetItem _ _ => λ s, (Return VNone, s)
| SetAttr _ _ _ | SetItem _ _ _ => λ s, (Return tt, s)
| HasAttr _ _ => λ s, (Return true, s)
| Iter _ => λ s, (Return [], s)
end.

(** A base model of two parameters, trainable as loaded. *)
Definition loaded : store := [(7%Z, true); (3%Z, true)].

Definition no_reward : Rlhf.reward_env :=
{| Rlhf.processed_dataset := VNone; Rlhf.rm_model := VNone |}.

Definition no_base : Rlhf.base_env :=
{| Rlhf.lm_tokenizer := VNone; Rlhf.prompt_dataset := VNone;
   Rlhf.lm_model := VNone |}.

(** A script the notebook is not: the base model is unfrozen after LoRA,
    and then trained. *)
Definition unfreeze_and_train (b : Rlhf.base_env) : prog unit :=
lora_config ← Rlhf.call "peft.LoraConfig" [] Rlhf.lora_kwargs;
lora_model ← Rlhf.call "peft.get_peft_model" [Rlhf.lm_model b; lora_config] ∅;
Rlhf.method (Rlhf.lm_model b) "requires_grad_" [VBool true] ∅;;
Rlhf.method lora_model "train" [] ∅;;
mret tt.

End Weights.

(** A library that answers the calls of pipelines, one after the other,
    with values of the structures the notebook file records. *)
Module Recorded.
Import Py Script Trace Tour.

(** A value of a given structure. *)
Fixpoint example (s : shape) : value :=
match s with
| SStr => VStr "text"
| SInt => VInt 0
| SFloat => VFloat 0.5
| SList items => VList (map example items)
| SDict fields => VDict (map (λ f, (f.1, example f.2)) fields)
end.

(** The state: the structures that are still to be returned, and the
    number of objects made. *)
Definition handle : @handler (list shape * nat) := λ X c,
match c in libcall X return list shape * nat → result X * (list shape * nat)
with
| Apply _ _ _ => λ s,
    match s.1 with
    | out :: rest => (Return (example out), (rest, s.2))
    | [] => (Raise (LibraryError "nothing recorded"), s)
    end
| Call _ _ _ | Method _ _ _ _ | GetAttr _ _ | GetItem _ _ =>
    λ s, (Return (VObj s.2), (s.1, S s.2))
| SetAttr _ _ _ | SetItem _ _ _ => λ s, (Return tt, s)
| HasAttr _ _ => λ s, (Return true, s)
| Iter _ => λ s, (Return [], s)
end.


End Recorded.

(** ** [preprocess], the function the notebook maps over the dataset *)

Module Columns.
Import Py Tensor.

(** <<
    def preprocess(examples):
        return {"chosen": examples["chosen"], "rejected": examples["rejected"]}
    >>
    [examples] is a batch of the dataset: a dict from column names to the
    values of the column. *)
Definition preprocess {A} (examples : gmap string A) : result (gmap string A) :=
chosen ← subscript examples "chosen";
rejected ← subscript examples "rejected";
mret (<["chosen" := chosen]> (<["rejected" := rejected]> ∅)).

(** A batch with a column the function does not name. *)
Definition with_source : gmap string (list string) :=
<["chosen" := ["c0"; "c1"]]> (<["rejected" := ["r0"; "r1"]]>
  (<["source" := ["s0"; "s1"]]> ∅)).

(** What is left of it. *)
Definition kept : gmap string (list string) :=
<["chosen" := ["c0"; "c1"]]> (<["rejected" := ["r0"; "r1"]]> ∅).

End Columns.

(** ** Exceptions of library calls *)

Module Handling.
Import Py Script Trace.

(** The exception a call raised, when it raised one. *)
Definition raised (ev : event) : option exn :=
match ev with
| Ev _ (Raise e) => Some e
| Ev _ (Return _) => None
end.

Definition failed (ev : event) : bool :=
match raised ev with Some _ => true | None => false end.

(** A script that handles no exception of a call, except of the calls that
    pass [caught]: when such a call raises, the script raises the same
    exception at once. *)
Inductive strict {A} (caught : event → bool) : prog A → Prop :=
| strict_Ret a : strict caught (Ret a)
| strict_Throw e : strict caught (Throw e)
| strict_Do {X} (c : libcall X) k :
    (∀ e, caught (Ev c (Raise e)) = false → k (Raise e) = Throw e) →
    (∀ r, strict caught (k r)) → strict caught (Do c k).

(** The one call of the RLHF notebook inside a [try]. *)
Definition in_try (ev : event) : bool :=
is_call "GenerationConfig.from_pretrained" ev.

Definition uncaught (ev : event) : bool := failed ev && negb (in_try ev).

(** The functions and the methods the cells of the RLHF notebook call by
    name, the decorator and the calls in the bodies of its classes and
    functions included. The scripts emit the calls of the libraries among
    them as [Call] and [Method], and [hasattr] as [HasAttr]; [type],
    [__get__], [dataclasses.dataclass], [ValueError], [items] and the
    constructors of the two dataset classes are values and steps of the
    scripts, [torch.mean] and [squeeze] tensor expressions, and no event. *)
Definition functions : list string :=
["trl.set_seed"; "dataclasses.dataclass"; "datasets.load_dataset"; "range";
 "AutoTokenizer.from_pretrained";
 "AutoModelForSequenceClassification.from_pretrained"; "nn.Linear"; "type";
 "PairwiseDataset"; "data.DataLoader"; "optim.AdamW"; "torch.mean";
 "PromptDataset"; "AutoModelForCausalLM.from_pretrained"; "peft.LoraConfig";
 "peft.get_peft_model"; "CustomValueHeadModel"; "hasattr";
 "GenerationConfig.from_pretrained"; "GenerationConfig"; "ValueError";
 "trl.PPOConfig"; "trl.PPOTrainer"; "print"].

Definition methods : list string :=
["shuffle"; "select"; "map"; "__get__"; "items"; "parameters"; "train";
 "zero_grad"; "squeeze"; "backward"; "step"; "gradient_checkpointing_enable";
 "encode"; "generate"; "decode"].

Definition one_of (names : list string) (o : option string) : bool :=
match o with
| Some n => existsb (String.eqb n) names
| None => true
end.

Definition by_name (ev : event) : bool :=
match ev with
| Ev c _ => one_of functions (call_name c) && one_of methods (method_name c)
end.

End Handling.

(** A library that fails: the function or method [bad] raises, every other
    call is answered as by [Mock.handle]. *)
Module Faulty.
Import Py Script Trace.

Definition handle (bad : string) : @handler Mock.store := λ X c s,
if same_name bad (call_name c) || same_name bad (method_name c)
then (Raise (LibraryError bad), s)
else Mock.handle X c s.

End Faulty.

(** ** Counting the updates of the reward loop *)

Module Updates.
Import Py Script Trace.

(** The calls of a trace that clear the gradients, run [backward], and step
    the optimizer. *)
Definition cleared (tr : list event) : nat := count (is_method "zero_grad") tr.
Definition backwards (tr : list event) : nat := count (is_method "backward") tr.
Definition stepped (tr : list event) : nat := count (is_method "step") tr.

(** At most one batch is being worked on, and a batch is stepped only after
    [backward], which comes only after the gradients were cleared. *)
Definition interleaved (tr : list event) : Prop :=
(stepped tr ≤ backwards tr)%nat ∧ (backwards tr ≤ cleared tr)%nat ∧
(cleared tr ≤ stepped tr + 1)%nat.

Definition balanced (tr : list event) : Prop :=
cleared tr = stepped tr ∧ backwards tr = stepped tr.

(** The batches an iteration yielded, and how many were yielded in all. *)
Definition yielded (ev : event) : list value :=
match ev with
| Ev c r =>
    match c in libcall X return result X → list value with
    | Iter _ => λ r, match r with Return batches => batches | Raise _ => [] end
    | _ => λ _, []
    end r
end.

Fixpoint batches (tr : list event) : nat :=
match tr with
| [] => 0
| ev :: tr => length (yielded ev) + batches tr
end.

End Updates.

(** ** What the PPO trainer and the test generation are given *)

Module Wiring.
Import Py Script Trace Rlhf.

(** The keyword arguments of the policy tokenizer, of the test generation
    and of the decoding of its result. *)
Definition lm_tokenizer_kwargs : kwargs :=
kw [("use_fast", VBool false); ("padding_side", VStr "left")].

Definition sampling_kwargs : kwargs :=
kw [("max_length", VInt 64); ("do_sample", VBool true);
    ("top_k", VInt 50); ("top_p", VFloat 0.95);
    ("temperature", VFloat 1.0)].

Definition decode_kwargs : kwargs := kw [("skip_special_tokens", VBool true)].

(** The last [n] events of a trace. *)
Definition ending (n : nat) (tr : list event) : list event :=
drop (length tr - n) tr.

(** The calls that finish the policy object [ppo] and configure PPO. *)
Definition policy_finish (ppo pretrained g pcfg : value) : list event :=
[ Ev (GetAttr ppo "pretrained_model") (Return pretrained);
  Ev (GetAttr pretrained "generation_config") (Return g);
  Ev (SetAttr ppo "generation_config" g) (Return tt);
  Ev (SetAttr ppo "base_model_prefix" (VStr "pretrained_model")) (Return tt);
  Ev (SetAttr ppo "is_peft_model" (VBool true)) (Return tt);
  Ev (SetAttr ppo "score" (VBound "score" ppo)) (Return tt);
  Ev (Call "trl.PPOConfig" [] ppo_config_kwargs) (Return pcfg) ].

(** The second stage cut at the construction [ev] of the PPO trainer: the
    stage begins with the loading of the tokenizer; the first object called
    is that tokenizer, on the [chosen] column read just before; the calls
    before the trainer are [policy_finish]; and the trainer gets that
    tokenizer, the encodings as a [PromptDataset], and the policy object. *)
Definition trainer_wiring (e : reward_env) (pre : list event) (ev : event)
  : Prop :=
∃ tok texts enc ppo pretrained g pcfg r' pre1 post1,
  ev = Ev (Call "trl.PPOTrainer" []
             (ppo_trainer_kwargs pcfg ppo tok (rm_model e)
                (VInstance "PromptDataset" [enc]))) r' ∧
  head pre = Some (Ev (Call "AutoTokenizer.from_pretrained" [VStr lm_name]
                         lm_tokenizer_kwargs) (Return tok)) ∧
  split_at is_apply pre
    = Some (pre1, Ev (Apply tok [texts] encode_kwargs) (Return enc), post1) ∧
  last pre1 = Some (Ev (GetItem (processed_dataset e) (VStr "chosen"))
                      (Return texts)) ∧
  ending 7 pre = policy_finish ppo pretrained g pcfg.

Definition trainer_cut (e : reward_env) (tr : list event) : Prop :=
match split_at (is_call "trl.PPOTrainer") tr with
| None => True
| Some (pre, ev, post) => trainer_wiring e pre ev
end.

(** The calls from the construction of the trainer to the test generation. *)
Definition train_then_encode
  (k : kwargs) (trainer u tok query ppo pretrained : value) : list event :=
[ Ev (Call "trl.PPOTrainer" [] k) (Return trainer);
  Ev (Method trainer "train" [] ∅) (Return u);
  Ev (Method tok "encode" [VStr test_prompt] (kw [("return_tensors", VStr "pt")]))
     (Return query);
  Ev (GetAttr ppo "pretrained_model") (Return pretrained) ].

(** What follows a generation that returned [response]: its first sequence
    is read and decoded by the tokenizer, then the prompt and the decoded
    text are printed, and nothing else. *)
Definition decoded_and_printed (tok response : value) (post : list event)
  : Prop :=
∃ r1 post1,
  post = Ev (GetItem response (VInt 0)) r1 :: post1 ∧
  ∀ first, r1 = Return first → ∃ r2 post2,
    post1 = Ev (Method tok "decode" [first] decode_kwargs) r2 :: post2 ∧
    ∀ text, r2 = Return text → ∃ r3 post3,
      post2 = Ev (Call "print" [VStr "Prompt:"; VStr test_prompt] ∅) r3
              :: post3 ∧
      ∀ u, r3 = Return u → ∃ r4,
        post3 = [Ev (Call "print" [VStr "Response:"; text] ∅) r4].

(** The second stage cut at the test generation [ev]. *)
Definition generation_wiring (pre : list event) (ev : event)
  (post : list event) : Prop :=
∃ pcfg ppo tok rm prompts trainer u query pretrained rg,
  ending 4 pre
    = train_then_encode (ppo_trainer_kwargs pcfg ppo tok rm prompts)
        trainer u tok query ppo pretrained ∧
  ev = Ev (Method pretrained "generate" [query] sampling_kwargs) rg ∧
  ∀ response, rg = Return response → decoded_and_printed tok response post.

Definition generation_cut (tr : list event) : Prop :=
(count (is_method "generate") tr ≤ 1)%nat ∧
match split_at (is_method "generate") tr with
| None => True
| Some (pre, ev, post) => generation_wiring pre ev post
end.

Definition not_generate (ev : event) : bool := negb (is_method "generate" ev).

End Wiring.

(** ** The calls of the reward setup *)

Module Setup.
Import Py Script Trace Rlhf.

(** The values the calls of the reward setup return, in the order of the
    notebook. *)
Record returned := {
  seeded : value;
  dataset : value;
  shuffled : value;
  indices : value;
  selected : value;
  processed : value;
  rm_tokenizer : value;
  model : value;
  rm_model_config : value;
  config : value;
  hidden_size : value;
  token_value_head : value;
  chosen : value;
  chosen_encodings : value;
  rejected : value;
  rejected_encodings : value;
  loader : value;
  parameters : value;
  adamw : value;
  training : value
}.

(** The calls of a reward setup that goes through. *)
Definition events (v : returned) : list event :=
[ Ev (SetItem (VName "os.environ") (VStr "WANDB_DISABLED") (VStr "true"))
     (Return tt);
  Ev (Call "trl.set_seed" [VInt 241218] ∅) (Return (seeded v));
  Ev (Call "datasets.load_dataset" [VStr dataset_name]
        (kw [("split", VStr "train")])) (Return (dataset v));
  Ev (Method (dataset v) "shuffle" [] (kw [("seed", VInt 42)]))
     (Return (shuffled v));
  Ev (Call "range" [VInt 1000] ∅) (Return (indices v));
  Ev (Method (shuffled v) "select" [indices v] ∅) (Return (selected v));
  Ev (Method (selected v) "map" [VName "preprocess"]
        (kw [("batched", VBool true)])) (Return (processed v));
  Ev (Call "AutoTokenizer.from_pretrained" [VStr rm_name] ∅)
     (Return (rm_tokenizer v));
  Ev (Call "AutoModelForSequenceClassification.from_pretrained"
        [VStr rm_name] (kw [("num_labels", VInt 1)])) (Return (model v));
  Ev (GetAttr (model v) "config") (Return (rm_model_config v));
  Ev (SetAttr (rm_model_config v) "output_hidden_states" (VBool true))
     (Return tt);
  Ev (GetAttr (model v) "config") (Return (config v));
  Ev (GetAttr (config v) "hidden_size") (Return (hidden_size v));
  Ev (Call "nn.Linear" [hidden_size v; VInt 1] ∅)
     (Return (token_value_head v));
  Ev (SetAttr (model v) "token_value_head" (token_value_head v)) (Return tt);
  Ev (SetAttr (model v) "score" (VBound "rm_score" (model v))) (Return tt);
  Ev (GetItem (processed v) (VStr "chosen")) (Return (chosen v));
  Ev (Apply (rm_tokenizer v) [chosen v] encode_kwargs)
     (Return (chosen_encodings v));
  Ev (GetItem (processed v) (VStr "rejected")) (Return (rejected v));
  Ev (Apply (rm_tokenizer v) [rejected v] encode_kwargs)
     (Return (rejected_encodings v));
  Ev (Call "data.DataLoader"
        [VInstance "PairwiseDataset" [chosen_encodings v; rejected_encodings v]]
        (kw [("batch_size", VInt 8); ("shuffle", VBool true)]))
     (Return (loader v));
  Ev (Method (model v) "parameters" [] ∅) (Return (parameters v));
  Ev (Call "optim.AdamW" [parameters v] (kw [("lr", VFloat 1e-5)]))
     (Return (adamw v));
  Ev (Method (model v) "train" [] ∅) (Return (training v)) ].

(** What the setup leaves for the loop. *)
Definition left (v : returned) : loop_env :=
{| env := {| processed_dataset := processed v; rm_model := model v |};
   pairwise_loader := loader v;
   optimizer := adamw v |}.

End Setup.

(** ** The generation configuration of the policy *)

Module Fallback.
Import Py Script Trace Rlhf Wiring.

(** The configuration [g] is set on the [pretrained_model] of [ppo], read
    again for it. *)
Definition installs (ppo g : value) (post : list event) : Prop :=
∃ rp post',
  post = Ev (GetAttr ppo "pretrained_model") rp :: post' ∧
  ∀ p, rp = Return p → ∃ ru post'',
    post' = Ev (SetAttr p "generation_config" g) ru :: post''.

(** The adaptation of the policy cut at [ev], the call of
    [GenerationConfig.from_pretrained]; [r] is how the adaptation ends. *)
Definition fallback {A} (r : result A) (pre : list event) (ev : event)
  (post : list event) : Prop :=
∃ ppo pretrained rf,
  ending 2 pre =
    [Ev (GetAttr ppo "pretrained_model") (Return pretrained);
     Ev (HasAttr pretrained "generation_config") (Return false)] ∧
  ev = Ev (Call "GenerationConfig.from_pretrained" [VStr lm_name] ∅) rf ∧
  match rf with
  | Return g =>
      count (is_call "GenerationConfig") post = 0%nat ∧ installs ppo g post
  | Raise _ =>
      ∃ rd post',
        post = Ev (Call "GenerationConfig" [] ∅) rd :: post' ∧
        match rd with
        | Return g => installs ppo g post'
        | Raise e => post' = [] ∧ r = Raise e
        end
  end.

Definition fallback_cut {A} (r : result A) (tr : list event) : Prop :=
(count (is_call "GenerationConfig.from_pretrained") tr ≤ 1)%nat ∧
match split_at (is_call "GenerationConfig.from_pretrained") tr with
| None => count (is_call "GenerationConfig") tr = 0%nat
| Some (pre, ev, post) => fallback r pre ev post
end.

End Fallback.

(** ** The devices and the names of the tour *)

Module Devices.
Import Py Script Trace Tour.

(** The models of the two pipelines that are built without a [device]. *)
Definition on_default_device : list string :=
["distilgpt2"; "dbmdz/bert-large-cased-finetuned-conll03-english"].

Definition model_of (ev : event) : option string :=
match kwargs_ ev !! "model" with
| Some (VStr m) => Some m
| _ => None
end.

(** What [torch_cuda.is_available()] returned, once it did. *)
Definition availability (known : option value) (ev : event) : option value :=
if is_call "torch_cuda.is_available" ev
then match returned ev with Some a => Some a | None => known end
else known.

(** Every pipeline of a trace is built after [torch_cuda.is_available()]
    returned, names its model, and is given the device [0] when what was
    returned is true and [-1] when it is not, unless its model is one of the
    two in [on_default_device]: then it is given no device. *)
Fixpoint device_given (known : option value) (tr : list event) : Prop :=
match tr with
| [] => True
| ev :: rest =>
    (is_call "transformers.pipeline" ev = true →
       ∃ available m,
         known = Some available ∧ model_of ev = Some m ∧
         kwargs_ ev !! "device" =
           if existsb (String.eqb m) on_default_device then None
           else Some (if truthy available then VInt 0 else VInt (-1)))
    ∧ device_given (availability known ev) rest
end.

(** The pipeline a name is bound to: the one that was built last. *)
Definition rebound (latest : option value) (ev : event) : option value :=
if is_call "transformers.pipeline" ev then returned ev else latest.

(** Every call of an object is a call of the pipeline that was built last. *)
Fixpoint calls_latest (latest : option value) (tr : list event) : Prop :=
match tr with
| [] => True
| ev :: rest =>
    (is_apply ev = true → is_Some latest ∧ target ev = latest)
    ∧ calls_latest (rebound latest ev) rest
end.

End Devices.

(** ** The two [score] functions the notebook binds to its models *)

Module Heads.
Import Py Script Trace Autograd Rlhf.

(** <<
    def rm_score(self, hidden_states):
        token_values = self.token_value_head(hidden_states).squeeze(-1)
        return token_values
    >> *)
Definition rm_score (self hidden_states : value) : prog value :=
head ← getattr self "token_value_head";
out ← call_obj head [hidden_states] ∅;
token_values ← tensor_op1 (TSqueeze (-1)) out;
mret token_values.

(** <<
    def score(self, hidden_states):
        return self.v_head(hidden_states).squeeze(-1)
    >> *)
Definition score (self hidden_states : value) : prog value :=
head ← getattr self "v_head";
out ← call_obj head [hidden_states] ∅;
tensor_op1 (TSqueeze (-1)) out.

(** The calls of a score function that goes through, for the head it reads
    under [name]. *)
Definition head_events (name : string) (self hidden_states head : value)
  (out : texpr) : list event :=
[ Ev (GetAttr self name) (Return head);
  Ev (Apply head [hidden_states] ∅) (Return (VTensor out)) ].

(** A score function that returned [v] with the trace [tr]: the head read
    under [name] was called on the hidden states, and [v] is its output
    without its last dimension when that is 1, as it is otherwise. *)
Definition squeezed_head (name : string) (self hidden_states v : value)
  (tr : list event) : Prop :=
∃ head out,
  tr = head_events name self hidden_states head out ∧
  v = VTensor (TSqueeze (-1) out) ∧
  ∀ leaf t s n, eval leaf out = Some t → shape t = (s ++ [n])%list →
    eval leaf (TSqueeze (-1) out)
    = Some (if Nat.eqb n 1 then {| shape := s; data := data t |} else t).

(** A library whose modules return tensors: the [n]-th call of an object
    returns leaf [n]. *)
Definition linear : @handler nat := λ X c,
match c in libcall X return nat → result X * nat with
| Apply _ _ _ => λ n, (Return (VTensor (TLeaf n)), S n)
| Call _ _ _ | Method _ _ _ _ | GetAttr _ _ | GetItem _ _ =>
    λ n, (Return (VObj n), S n)
| SetAttr _ _ _ | SetItem _ _ _ => λ n, (Return tt, n)
| HasAttr _ _ => λ n, (Return true, n)
| Iter _ => λ n, (Return [], n)
end.

(** Values of a head for a batch of 2 sequences of 3 tokens. *)
Definition token_values (h : nat) : option tval :=
Some {| shape := [2; 3; 1]%nat; data := [1; 2; 3; 4; 5; 6]%Q |}.

End Heads.

(** * Properties *)

(** ** Results *)

Section ResultMonad.
Import Py.

Lemma returns_Return {T} (a : T) : returns (Return a).
Proof. by exists a. Qed.

Lemma returns_Raise {T} (e : exn) : ¬ returns (@Raise T e).
Proof. by intros [a Ha]. Qed.

Context {A B : Type}.

Lemma mapM_Return (f : A → result B) (l : list A) (k : list B) :
  mapM f l = Return k ↔ Forall2 (λ x y, f x = Return y) l k.
Proof.
  revert k. induction l as [|x l IH]; intros k; simpl.
  - split; [intros [= <-]; constructor | by inversion 1].
  - split.
    + destruct (f x) as [y|e] eqn:Hx; simpl; [|done].
      destruct (mapM f l) as [k'|e] eqn:Hl; simpl; [|done].
      intros [= <-]. constructor; [done|]. by apply IH.
    + inversion 1 as [|? y ? k' Hx Hl]; subst. rewrite Hx. simpl.
      apply IH in Hl. by rewrite Hl.
Qed.

Lemma mapM_returns (f : A → result B) (l : list A) :
  returns (mapM f l) ↔ Forall (λ x, returns (f x)) l.
Proof.
  induction l as [|x l IH]; simpl.
  - split; [intros _; apply Forall_nil_2 | intros _; apply returns_Return].
  - rewrite Forall_cons, <- IH. destruct (f x) as [y|e]; simpl.
    + destruct (mapM f l) as [k|e]; simpl.
      * split; [intros _; split; apply returns_Return
               | intros _; apply returns_Return].
      * split; [by intros ?%returns_Raise | by intros [_ ?%returns_Raise]].
    + split; [by intros ?%returns_Raise | by intros [?%returns_Raise _]].
Qed.

End ResultMonad.

(** ** The value-head wrapper *)

Section Forward.
Import Py CustomValueHeadModel.

(** C7. Whatever the arguments, [forward] calls the wrapped model with
    keyword arguments in which [output_hidden_states] is [True] and every
    other key is the caller's. When the model returns an output, [forward]
    raises a [ValueError] exactly when the output has no [logits] attribute,
    and returns the output itself when it has one; an exception of the model
    is passed on. *)
Theorem forward_forces_hidden_states_and_checks_logits
    (args : list value) (kw : kwargs) :
  ∃ passed : kwargs,
    passed !! "output_hidden_states" = Some (VBool true) ∧
    (∀ k, k ≠ "output_hidden_states" → passed !! k = kw !! k) ∧
    ∀ pretrained_model : model,
      match pretrained_model args passed with
      | Return outputs =>
          ((∃ msg, forward pretrained_model args kw = Raise (ValueError msg))
             ↔ hasattr outputs "logits" = false) ∧
          (hasattr outputs "logits" = true →
             forward pretrained_model args kw = Return outputs)
      | Raise e => forward pretrained_model args kw = Raise e
      end.
Proof.
  exists (<["output_hidden_states" := VBool true]> kw).
  split; [apply lookup_insert_eq|].
  split; [intros k Hk; by apply lookup_insert_ne|].
  intros pm. unfold forward. simpl.
  destruct (pm _ _) as [outputs|e]; simpl; [|done].
  destruct (hasattr outputs "logits"); split; try done.
  - split; [intros [msg H]; discriminate|done].
  - split; [done|]. intros _. by eexists.
Qed.

End Forward.

(** ** The datasets *)

Section Datasets.
Import Py Tensor.

Lemma bind_returns {A B} (r : result A) (f : A → result B) :
  returns (r ≫= f) ↔ ∃ a, r = Return a ∧ returns (f a).
Proof.
  destruct r as [a|e]; simpl.
  - split; [by exists a | by intros (? & [= <-] & ?)].
  - split; [by intros ?%returns_Raise | by intros (? & ? & _)].
Qed.

Lemma getitem_nat (v : tensor) (i : nat) :
  getitem v (Z.of_nat i) = from_option Return (Raise IndexError) (v !! i).
Proof.
  unfold getitem, shape0. cbv zeta.
  rewrite (bool_decide_eq_false_2 (_ < 0)%Z) by lia.
  rewrite Nat2Z.id. case_bool_decide as H; [done|].
  rewrite lookup_ge_None_2; [done|lia].
Qed.

Lemma getitem_nat_returns (v : tensor) (i : nat) :
  returns (getitem v (Z.of_nat i)) ↔ (i < length v)%nat.
Proof.
  rewrite getitem_nat, <- lookup_lt_is_Some.
  destruct (v !! i); simpl.
  - split; [by eexists | intros _; apply returns_Return].
  - split; [by intros ?%returns_Raise | by intros [? ?]].
Qed.

Lemma index_items_Return (enc : encodings) (idx : Z) (m : gmap string row) :
  index_items enc idx = Return m ↔
    map_Forall (λ _ v, returns (getitem v idx)) enc ∧
    m = (λ v, row_at v idx) <$> enc.
Proof.
  unfold index_items.
  set (f := λ kv : string * tensor, x ← getitem kv.2 idx; mret (kv.1, x)).
  assert (Hf : ∀ l k, Forall2 (λ x y, f x = Return y) l k ↔
            Forall (λ kv, returns (getitem kv.2 idx)) l ∧
            k = prod_map id (λ v, row_at v idx) <$> l).
  { intros l. induction l as [|[j v] l IH]; intros k.
    - split; [inversion 1; split; [constructor|done] | intros [_ ->]; constructor].
    - split.
      + inversion 1 as [|? y ? k' Hx Hl]; subst. apply IH in Hl as [Hl ->].
        unfold f in Hx. simpl in Hx. unfold row_at.
        destruct (getitem v idx) as [x|e] eqn:Hg; simpl in Hx; [|done].
        injection Hx as <-. split; [|by simpl; unfold row_at; rewrite Hg].
        constructor; [simpl; rewrite Hg; apply returns_Return | done].
      + intros [Hl ->]. apply Forall_cons in Hl as [[x Hx] Hl]. simpl in Hx.
        simpl. constructor.
        * unfold f, row_at. simpl. by rewrite Hx.
        * apply IH. done. }
  destruct (mapM f (map_to_list enc)) as [k|e] eqn:Hm; simpl.
  - apply mapM_Return, Hf in Hm as [Hall ->].
    rewrite list_to_map_fmap, list_to_map_to_list.
    rewrite map_Forall_to_list.
    split.
    + intros [= <-]. split; [|done].
      eapply Forall_impl; [done|]. by intros [??].
    + by intros [_ ->].
  - split; [done|]. intros [Hall _]. exfalso.
    assert (returns (mapM f (map_to_list enc))) as [k Hk]; [|congruence].
    apply mapM_returns. apply map_Forall_to_list in Hall.
    eapply Forall_impl; [done|]. intros [j v] [x Hx]. simpl in *.
    unfold f. simpl. rewrite Hx. apply returns_Return.
Qed.

Lemma index_items_returns (enc : encodings) (idx : Z) :
  returns (index_items enc idx) ↔
    map_Forall (λ _ v, returns (getitem v idx)) enc.
Proof.
  split.
  - intros [m Hm]. by apply index_items_Return in Hm as [? _].
  - intros H. eexists. apply index_items_Return. by split.
Qed.

(** C8. For chosen encodings that have [input_ids] and whose tensors all
    have as many rows as it: [__len__] is that number of rows; an item that
    [__getitem__] returns for [i] is made of row [i] of every chosen tensor
    and row [i] of every rejected tensor, under the same keys; and
    [__getitem__] returns for every [i] below the length exactly when every
    rejected tensor has at least that many rows. *)
Theorem pairwise_dataset_aligned (chosen rejected : encodings) (ids : tensor) :
  chosen !! "input_ids" = Some ids →
  (∀ k v, chosen !! k = Some v → length v = length ids) →
  let ds := PairwiseDataset.init chosen rejected in
  PairwiseDataset.len ds = Return (length ids) ∧
  (∀ (i : nat) c r,
     PairwiseDataset.getitem ds (Z.of_nat i) = Return (c, r) →
     ∀ k, c !! k = chosen !! k ≫= (.!! i) ∧ r !! k = rejected !! k ≫= (.!! i)) ∧
  ((∀ i : nat, (i < length ids)%nat →
      returns (PairwiseDataset.getitem ds (Z.of_nat i)))
   ↔ (∀ k v, rejected !! k = Some v → (length ids ≤ length v)%nat)).
Proof.
  intros Hids Hrect ds. split; [|split].
  - unfold PairwiseDataset.len, subscript. simpl. by rewrite Hids.
  - intros i c r. unfold PairwiseDataset.getitem. simpl.
    destruct (index_items chosen _) as [c'|] eqn:Hc; simpl; [|done].
    destruct (index_items rejected _) as [r'|] eqn:Hr; simpl; [|done].
    intros [= <- <-].
    apply index_items_Return in Hc as [Hc ->], Hr as [Hr ->].
    assert (Haux : ∀ (enc : encodings) k,
      map_Forall (λ _ v, returns (getitem v (Z.of_nat i))) enc →
      ((λ v, row_at v (Z.of_nat i)) <$> enc) !! k = enc !! k ≫= (.!! i)).
    { intros enc k Hall. rewrite lookup_fmap.
      destruct (enc !! k) as [v|] eqn:Hk; simpl; [|done].
      apply Hall in Hk as [x Hx]. unfold row_at. rewrite Hx.
      rewrite getitem_nat in Hx. by destruct (v !! i); simplify_eq/=. }
    intros k. by rewrite !Haux.
  - unfold PairwiseDataset.getitem. simpl.
    assert (Hchosen : ∀ i : nat, (i < length ids)%nat →
              returns (index_items chosen (Z.of_nat i))).
    { intros i Hi. apply index_items_returns. intros k v Hk.
      apply getitem_nat_returns. rewrite (Hrect _ _ Hk). done. }
    split.
    + intros Hsafe k v Hk.
      destruct (decide (length ids ≤ length v)%nat) as [|Hlt]; [done|exfalso].
      destruct (Hsafe (length v)) as [[c r] Hret]; [lia|].
      destruct (index_items chosen _) as [c'|]; simpl in Hret; [|done].
      destruct (index_items rejected _) as [r'|] eqn:Hr; simpl in Hret; [|done].
      apply index_items_Return in Hr as [Hr _].
      apply Hr in Hk. apply getitem_nat_returns in Hk. lia.
    + intros Hrows i Hi.
      destruct (Hchosen i Hi) as [c ->]. simpl.
      assert (returns (index_items rejected (Z.of_nat i))) as [r ->].
      { apply index_items_returns. intros k v Hk.
        apply getitem_nat_returns. specialize (Hrows _ _ Hk). lia. }
      simpl. apply returns_Return.
Qed.

End Datasets.

Lemma pairwise_dataset_aligned_witness :
  PairwiseDataset.len
    (PairwiseDataset.init PairwiseDataset.two_chosen
       PairwiseDataset.three_rejected) = Py.Return 2%nat ∧
  Py.returns
    (PairwiseDataset.getitem
       (PairwiseDataset.init PairwiseDataset.two_chosen
          PairwiseDataset.three_rejected) 1).
Proof.
  destruct (pairwise_dataset_aligned PairwiseDataset.two_chosen
              PairwiseDataset.three_rejected
              [[101; 7; 102]; [101; 9; 102]]%Z) as (Hlen & _ & Hsafe).
  - reflexivity.
  - apply (bool_decide_unpack
             (map_Forall (λ _ v, length v = 2%nat) PairwiseDataset.two_chosen)).
    vm_compute. exact I.
  - split; [exact Hlen|].
    apply (proj2 Hsafe) with (i := 1%nat); [|simpl; lia].
    apply (bool_decide_unpack
             (map_Forall (λ _ v, (2 ≤ length v)%nat)
                PairwiseDataset.three_rejected)).
    vm_compute. exact I.
Defined.

(** ** Reasoning about scripts *)

Section ScriptLogic.
Import Py Script Trace.
Context {L : Type} (h : @handler L).

Lemma run_bind {A B} (p : prog A) (f : A → prog B) (l : L) :
  run h (p ≫= f) l =
    match run h p l with
    | (Return a, l1, t1) =>
        let '(b, l2, t2) := run h (f a) l1 in (b, l2, (t1 ++ t2)%list)
    | (Raise e, l1, t1) => (Raise e, l1, t1)
    end.
Proof.
  revert l. induction p as [a|e|X c k IH]; intros l; simpl.
  - by destruct (run h (f a) l) as [[b l2] t2].
  - done.
  - unfold mbind, prog_bind in *. simpl. destruct (h X c l) as [r l1].
    rewrite IH. destruct (run h (k r) l1) as [[[a|e] l2] t1]; [|done].
    by destruct (run h (f a) l2) as [[b l3] t2].
Qed.

Lemma final_Do {A X} (c : libcall X) (k : result X → prog A) (l : L) :
  final h (Do c k) l = final h (k (h X c l).1) (h X c l).2.
Proof.
  unfold final. simpl. destruct (h X c l) as [r l1]. simpl.
  by destruct (run h (k r) l1) as [[a l2] tr].
Qed.

Lemma holds_Ret {A} (a : A) l Φ : Φ (Return a) l [] → holds h (Ret a) l Φ.
Proof. done. Qed.

Lemma holds_Throw {A} e l (Φ : result A → L → list event → Prop) :
  Φ (Raise e) l [] → holds h (Throw e) l Φ.
Proof. done. Qed.

Lemma holds_Do {A X} (c : libcall X) (k : result X → prog A) l Φ :
  (∀ r l1, h X c l = (r, l1) →
     holds h (k r) l1 (λ a l2 tr, Φ a l2 (Ev c r :: tr))) →
  holds h (Do c k) l Φ.
Proof.
  intros H. unfold holds, outcome, final, trace in *. simpl.
  destruct (h X c l) as [r l1] eqn:Hc. specialize (H r l1 eq_refl).
  by destruct (run h (k r) l1) as [[a l2] tr].
Qed.

Lemma holds_mono {A} (p : prog A) l (Φ Ψ : result A → L → list event → Prop) :
  holds h p l Φ → (∀ r l1 tr, Φ r l1 tr → Ψ r l1 tr) → holds h p l Ψ.
Proof. unfold holds. auto. Qed.

Lemma holds_bind {A B} (p : prog A) (f : A → prog B) l Φ :
  holds h p l (λ r l1 t1,
    match r with
    | Return a => holds h (f a) l1 (λ b l2 t2, Φ b l2 (t1 ++ t2)%list)
    | Raise e => Φ (Raise e) l1 t1
    end) →
  holds h (p ≫= f) l Φ.
Proof.
  unfold holds, outcome, final, trace. rewrite run_bind.
  destruct (run h p l) as [[[a|e] l1] t1]; simpl; [|done].
  by destruct (run h (f a) l1) as [[b l2] t2].
Qed.

(** A loop: the invariant holds of the items done so far. *)
Lemma holds_for_each {A} (body : A → prog unit)
    (I : list A → L → list event → Prop) (items : list A) l Φ :
  I [] l [] →
  (∀ done x l1 tr, I done l1 tr →
     holds h (body x) l1 (λ r l2 t2,
       match r with
       | Return _ => I (done ++ [x])%list l2 (tr ++ t2)%list
       | Raise e => Φ (Raise e) l2 (tr ++ t2)%list
       end)) →
  (∀ l1 tr, I items l1 tr → Φ (Return tt) l1 tr) →
  holds h (for_each items body) l Φ.
Proof.
  intros Hinit Hbody Hpost.
  assert (Hgen : ∀ rest done l1 tr, items = (done ++ rest)%list → I done l1 tr →
            holds h (for_each rest body) l1 (λ r l2 t2, Φ r l2 (tr ++ t2)%list)).
  { induction rest as [|x rest IH]; intros done l1 tr Hitems HI.
    - apply holds_Ret. rewrite !app_nil_r in *. subst. by apply Hpost.
    - simpl. apply holds_bind. eapply holds_mono; [by apply Hbody|].
      intros [[]|e] l2 t2; simpl; [|done]. intros HI'.
      eapply holds_mono; [apply (IH (done ++ [x])%list)|].
      + by rewrite <- app_assoc.
      + done.
      + intros r l3 t3. by rewrite app_assoc. }
  by apply (Hgen items [] l []).
Qed.

Lemma emits_bind {A B} ok (p : prog A) (f : A → prog B) :
  emits ok p → (∀ a, emits ok (f a)) → emits ok (p ≫= f).
Proof.
  intros Hp Hf. induction Hp as [a|e|X c k Hc Hk IH].
  - apply Hf.
  - constructor.
  - unfold mbind, prog_bind. simpl. constructor; [done|]. intros r. apply IH.
Qed.

Lemma emits_perform {X} ok (c : libcall X) :
  (∀ r, ok (Ev c r) = true) → emits ok (perform c).
Proof. intros Hc. constructor; [done|]. intros [x|e]; constructor. Qed.

Lemma emits_try_except {A} ok (p q : prog A) :
  emits ok p → emits ok q → emits ok (try_except p q).
Proof.
  intros Hp Hq. induction Hp as [a|e|X c k Hc Hk IH]; simpl.
  - constructor.
  - done.
  - constructor; [done|]. intros r. apply IH.
Qed.

Lemma emits_for_each {A} ok (items : list A) (body : A → prog unit) :
  (∀ x, emits ok (body x)) → emits ok (for_each items body).
Proof.
  intros Hbody. induction items as [|x items IH]; simpl; [constructor|].
  apply emits_bind; [apply Hbody | intros _; apply IH].
Qed.

Lemma emits_expect {A} ok (o : option A) e : emits ok (Rlhf.expect o e).
Proof. destruct o; constructor. Qed.

Lemma emits_trace {A} ok (p : prog A) l :
  emits ok p → Forall (λ ev, ok ev = true) (trace h p l).
Proof.
  intros Hp. revert l. induction Hp as [a|e|X c k Hc Hk IH]; intros l.
  - constructor.
  - constructor.
  - unfold trace in *. simpl. destruct (h X c l) as [r l1].
    specialize (IH r l1). destruct (run h (k r) l1) as [[a l2] tr].
    constructor; [apply Hc | apply IH].
Qed.

(** A property of the state that every call keeps holds when the script ends. *)
Lemma final_invariant {A} (J : L → Prop) (p : prog A) l :
  (∀ X (c : libcall X) l, J l → J (h X c l).2) → J l → J (final h p l).
Proof.
  intros Hkeep. revert l. induction p as [a|e|X c k IH]; intros l Hl; [done..|].
  unfold final in *. simpl. specialize (Hkeep X c l Hl).
  destruct (h X c l) as [r l1]. specialize (IH r l1 Hkeep).
  by destruct (run h (k r) l1) as [[a l2] tr].
Qed.

End ScriptLogic.

Section TraceLemmas.
Import Py Script Trace.

Lemma count_app test (t1 t2 : list event) :
  count test (t1 ++ t2) = (count test t1 + count test t2)%nat.
Proof. induction t1 as [|ev t1 IH]; simpl; [done|]. rewrite IH. lia. Qed.

Lemma count_none test (tr : list event) :
  Forall (λ ev, negb (test ev) = true) tr → count test tr = 0%nat.
Proof.
  induction 1 as [|ev tr Hev _ IH]; simpl; [done|].
  rewrite IH. by destruct (test ev).
Qed.

Lemma count_cut test (pre post : list event) ev :
  test ev = true → (1 ≤ count test (pre ++ ev :: post))%nat.
Proof. intros Hev. rewrite count_app. simpl. rewrite Hev. lia. Qed.

Lemma count_le_cut test (pre post : list event) ev :
  test ev = true → (count test (pre ++ ev :: post) ≤ 1)%nat →
  count test (pre ++ post) = 0%nat.
Proof. intros Hev. rewrite !count_app. simpl. rewrite Hev. lia. Qed.

Lemma split_at_Some test (tr pre post : list event) ev :
  split_at test tr = Some (pre, ev, post) →
  tr = (pre ++ ev :: post)%list ∧ test ev = true ∧ count test pre = 0%nat.
Proof.
  revert pre. induction tr as [|x tr IH]; intros pre; simpl; [done|].
  destruct (test x) eqn:Hx.
  - intros [= <- <- <-]. done.
  - destruct (split_at test tr) as [[[pre' ev'] post']|]; simpl; [|done].
    intros [= <- <- <-]. destruct (IH pre' eq_refl) as (-> & ? & ?).
    simpl. rewrite Hx. done.
Qed.

(** When an event that passes the test occurs once, any cut at it is the cut. *)
Lemma split_at_unique test (pre post : list event) ev :
  test ev = true → count test (pre ++ ev :: post) = 1%nat →
  split_at test (pre ++ ev :: post) = Some (pre, ev, post).
Proof.
  intros Hev. induction pre as [|x pre IH]; simpl.
  - by rewrite Hev.
  - rewrite count_app. simpl. rewrite Hev. destruct (test x); [lia|].
    intros Hc. rewrite IH; [done|]. rewrite count_app. simpl. rewrite Hev. lia.
Qed.

Lemma split_at_cut test (tr pre post : list event) ev :
  (count test tr ≤ 1)%nat → tr = (pre ++ ev :: post)%list → test ev = true →
  split_at test tr = Some (pre, ev, post).
Proof.
  intros Hle -> Hev. apply split_at_unique; [done|].
  pose proof (count_cut test pre post ev Hev). lia.
Qed.

Lemma cut_exists test (tr : list event) :
  (1 ≤ count test tr)%nat →
  ∃ pre ev post, tr = (pre ++ ev :: post)%list ∧ test ev = true.
Proof.
  induction tr as [|x tr IH]; simpl; [lia|].
  destruct (test x) eqn:Hx.
  - intros _. by exists [], x, tr.
  - intros Hc. destruct (IH Hc) as (pre & ev & post & -> & Hev).
    by exists (x :: pre), ev, post.
Qed.

Lemma stage_counts {L} (h : @handler L) (test not_test : event → bool) {A}
    (p : prog A) (l : L) :
  (∀ ev, not_test ev = true → test ev = false) →
  emits not_test p → count test (trace h p l) = 0%nat.
Proof.
  intros Himp Hp. apply count_none. eapply Forall_impl; [by apply emits_trace|].
  intros ev Hev. simpl in Hev. by rewrite (Himp ev Hev).
Qed.

End TraceLemmas.

(** Running a script one call at a time. *)
Ltac prog_simpl :=
  cbn [Script.pbind mbind Script.prog_bind Script.perform mret Script.prog_ret
       Script.try_except Script.for_each Rlhf.expect seq].

Ltac step :=
  prog_simpl;
  lazymatch goal with
  | |- Script.holds _ (Script.Do _ _) _ _ =>
      apply holds_Do; intros [?|?] ? _; cbv beta
  | |- Script.holds _ (Script.Ret _) _ _ => apply holds_Ret
  | |- Script.holds _ (mret _) _ _ => apply holds_Ret
  | |- Script.holds _ (Script.Throw _) _ _ => apply holds_Throw
  | |- Script.holds _ ?p _ _ =>
      match p with
      | context [match ?x with pair _ _ => _ end] => destruct x
      | context [if ?b then _ else _] => destruct b eqn:?
      | context [Rlhf.expect ?o _] => destruct o eqn:?
      end
  end.

Ltac emit :=
  repeat first
    [ apply Script.emits_Ret
    | apply Script.emits_Throw
    | apply emits_expect
    | apply emits_perform; intros; reflexivity
    | apply emits_for_each; intros
    | apply emits_try_except
    | apply emits_bind;
      [|intros; repeat match goal with x : _ * _ |- _ => destruct x end]
    | match goal with
      | |- Script.emits _ (if ?b then _ else _) => destruct b
      end ].

Ltac find_event :=
  repeat first [ apply list_elem_of_here | apply list_elem_of_further ].

Ltac count_calls :=
  cbn [Trace.split_at Trace.count Trace.is_call Trace.is_method Trace.is_apply
       Trace.same_name Trace.call_name Trace.method_name String.eqb Ascii.eqb
       Bool.eqb andb Nat.add mbind option_bind].

(** Cutting a trace at a call. *)
Ltac cut_calls :=
  lazy beta iota zeta delta
    [Trace.split_at Trace.count Trace.is_call Trace.is_method Trace.is_apply
     Trace.same_name Trace.call_name Trace.method_name String.eqb Ascii.eqb
     Bool.eqb andb Nat.add mbind option_bind].

(** The alphabet of a script that is run call by call. *)
Ltac emit_calls :=
  repeat first
    [ apply Script.emits_Ret
    | apply Script.emits_Throw
    | apply Script.emits_Do; [intros; reflexivity | intros [?|?]]
    | progress prog_simpl
    | match goal with
      | |- Script.emits _ ?p =>
          match p with context [if ?b then _ else _] => destruct b end
      end ].

(** ** The pipeline tour *)

Section TourProofs.
Import Py Script Trace Tour.

Ltac tour_calls :=
  cbn -[raw_text In];
  repeat match goal with
  | |- _ ∧ _ => split
  | |- True => exact I
  | |- ∃ task, _ = [VStr task] => by eexists
  | |- raw_text _ _ = true => vm_compute; reflexivity
  | |- In _ _ => simpl; auto 20
  | |- _ = _ => reflexivity
  end.

Ltac tour_invoked :=
  cbn; repeat split; intros ? ?; simplify_eq; eauto.

Lemma tour_run {L} (h : @handler L) (l : L) :
  holds h tour l (λ r _ tr,
    invoked_next tr ∧
    constructed tr `prefix_of` pipelines_built ∧
    (returns r → constructed tr = pipelines_built ∧
                 count is_apply tr = length recorded_outputs) ∧
    through_pipelines [] tr).
Proof.
  unfold tour, setup, pipeline, apply.
  repeat step.
  all: (split; [tour_invoked|split; [|split; [|tour_calls]]]).
  all: try (intros [? ?]; discriminate).
  all: try (by intros _).
  all: try (cbn; unfold pipelines_built; by eexists).
Qed.

Lemma tasks_built :
  (∀ task, task ∈ pipelines_built ↔ task ∈ tasks) ∧
  occurrences "text-generation" pipelines_built = 2%nat ∧
  (∀ task, task ∈ tasks → task ≠ "text-generation" →
     occurrences task pipelines_built = 1%nat).
Proof.
  split; [|split].
  - intros task. unfold pipelines_built, tasks.
    rewrite !elem_of_cons, !elem_of_nil. naive_solver.
  - by vm_compute.
  - intros task. unfold tasks. rewrite !elem_of_cons, elem_of_nil.
    intros H Hne. destruct_or!; subst; try done; by vm_compute.
Qed.

Lemma tour_models {L} (h : @handler L) (l : L) :
  holds h tour l (λ r _ tr,
    constructed_with tr `prefix_of` pipelines_with_models ∧
    count (is_call "transformers.pipeline") tr = length (constructed_with tr) ∧
    (returns r → constructed_with tr = pipelines_with_models)).
Proof.
  unfold tour, setup, pipeline, apply.
  repeat step.
  all: split;
    [apply (bool_decide_unpack _); vm_compute; exact I
    |split; [vm_compute; reflexivity|]].
  all: first [by intros [? ?] | intros _; vm_compute; reflexivity].
Qed.




(** C4, as the notebook has it. In every run each pipeline that is built is
    called by the very next call; every pipeline is built for a task and
    with a model that the call names; the pipelines built so far are the
    first ones of the nine in [pipelines_with_models], task and model; a run
    that goes through builds exactly these nine. Their tasks are
    [pipelines_built]: they cover the eight tasks and nothing else, with two
    pipelines for text generation, for [openai-community/gpt2] and then for
    [distilgpt2], and one for each other task. *)
Theorem tour_builds_nine_pipelines {L} (h : @handler L) (l : L) :
  let tr := trace h tour l in
  invoked_next tr ∧
  constructed tr `prefix_of` pipelines_built ∧
  (returns (outcome h tour l) → constructed tr = pipelines_built) ∧
  (∀ task, task ∈ pipelines_built ↔ task ∈ tasks) ∧
  occurrences "text-generation" pipelines_built = 2%nat ∧
  (∀ task, task ∈ tasks → task ≠ "text-generation" →
     occurrences task pipelines_built = 1%nat) ∧
  constructed_with tr `prefix_of` pipelines_with_models ∧
  count (is_call "transformers.pipeline") tr = length (constructed_with tr) ∧
  (returns (outcome h tour l) → constructed_with tr = pipelines_with_models) ∧
  pipelines_with_models.*1 = pipelines_built ∧
  filter (λ p, p.1 = "text-generation") pipelines_with_models
  = [("text-generation", "openai-community/gpt2");
     ("text-generation", "distilgpt2")].
Proof.
  destruct (tour_run h l) as (Hnext & Hpre & Hall & _).
  destruct (tour_models h l) as (Hwith & Hcount & Hmodels).
  destruct tasks_built as (Htasks & Htwo & Hone).
  split; [done|]. split; [done|].
  split; [intros Hr; by destruct (Hall Hr)|].
  split; [done|]. split; [done|]. split; [done|].
  split; [done|]. split; [done|]. split; [done|].
  split; reflexivity.
Qed.


End TourProofs.

(** C4, as stated, fails: a run of the tour that goes through builds two
    pipelines for text generation, not one. *)
Lemma one_pipeline_per_task_fails :
  ¬ (∀ task, task ∈ Tour.tasks →
       Tour.occurrences task
         (Tour.constructed (Script.trace Mock.handle Tour.tour Mock.empty))
       = 1%nat).
Proof.
  intros H. specialize (H "text-generation").
  assert (Hin : "text-generation" ∈ Tour.tasks).
  { unfold Tour.tasks. rewrite !elem_of_cons. auto 10. }
  specialize (H Hin). vm_compute in H. discriminate.
Qed.

Lemma tour_builds_nine_pipelines_witness :
  Py.returns (Script.outcome Mock.handle Tour.tour Mock.empty) ∧
  Tour.constructed (Script.trace Mock.handle Tour.tour Mock.empty)
    = Tour.pipelines_built ∧
  Tour.constructed_with (Script.trace Mock.handle Tour.tour Mock.empty)
    = Tour.pipelines_with_models.
Proof.
  assert (Hr : Py.returns (Script.outcome Mock.handle Tour.tour Mock.empty)).
  { eexists. vm_compute. reflexivity. }
  destruct (tour_builds_nine_pipelines Mock.handle Mock.empty)
    as (_ & _ & Htasks & _ & _ & _ & _ & _ & Hmodels & _).
  split; [exact Hr|]. split; [exact (Htasks Hr) | exact (Hmodels Hr)].
Defined.


(** ** The pad token of the policy tokenizer *)

Section Tokenizer.
Import Py Script Trace Rlhf.

Lemma ensure_pad_token_store (s : Mock.store) (t : nat) (pad eos : value) :
  Mock.attributes s !! (t, "pad_token") = Some pad →
  Mock.attributes s !! (t, "eos_token") = Some eos →
  run Mock.handle (ensure_pad_token (VObj t)) s =
    if is_none pad
    then (Return tt, Mock.set_attribute t "pad_token" eos s,
          [Ev (GetAttr (VObj t) "pad_token") (Return pad);
           Ev (GetAttr (VObj t) "eos_token") (Return eos);
           Ev (SetAttr (VObj t) "pad_token" eos) (Return tt)])
    else (Return tt, s, [Ev (GetAttr (VObj t) "pad_token") (Return pad)]).
Proof.
  intros Hpad Heos. unfold ensure_pad_token, getattr, setattr.
  cbn [pbind mbind prog_bind perform run Mock.handle Mock.get_attribute
       Mock.object_id].
  rewrite Hpad. cbn [pbind mbind prog_bind perform run mret prog_ret].
  destruct (is_none pad); [|done].
  cbn [pbind mbind prog_bind perform run Mock.handle Mock.get_attribute
       Mock.object_id].
  rewrite Heos. done.
Qed.

Lemma load_policy_order {L} (h : @handler L) (l : L) (e : reward_env) :
  holds h (load_policy e) l (λ _ _ tr, padded_after_fix e tr).
Proof.
  unfold load_policy, ensure_pad_token, call, call_obj, getattr, setattr,
    getitem, padded_after_fix.
  repeat step; cbn; try done.
  all: repeat match goal with u : unit |- _ => destruct u end.
  all: unfold fix_events.
  all: first
    [ eexists _, _, VNone, _, _; split;
      [by repeat match goal with H : is_none _ = _ |- _ => rewrite H end|done]
    | eexists _, _, _, _, _; split;
      [by repeat match goal with H : is_none _ = _ |- _ => rewrite H end|done] ].
Qed.

(** Loading the policy on a store in which the object the library makes
    next has the attributes of a tokenizer: the tokenization of the prompts is
    a call of that object, and it is made in a state in which the fix is
    done. *)
Lemma load_policy_store (s : Mock.store) (e : reward_env) (pad eos : value) :
  Mock.attributes s !! (Mock.fresh s, "pad_token") = Some pad →
  Mock.attributes s !! (Mock.fresh s, "eos_token") = Some eos →
  let i := if is_none pad then 5%nat else 3%nat in
  ∃ texts r st,
    trace Mock.handle (load_policy e) s !! i
      = Some (Ev (Apply (VObj (Mock.fresh s)) [texts] encode_kwargs) r) ∧
    count is_apply (take i (trace Mock.handle (load_policy e) s)) = 0%nat ∧
    states Mock.handle (load_policy e) s !! i = Some st ∧
    Mock.attributes st !! (Mock.fresh s, "pad_token")
      = Some (if is_none pad then eos else pad).
Proof.
  intros Hpad Heos. unfold load_policy, ensure_pad_token, call, call_obj,
    getattr, setattr, getitem, trace.
  cbn [pbind mbind prog_bind perform run states Mock.handle Mock.get_attribute
       Mock.object_id Mock.alloc fst snd Mock.attributes Mock.fresh].
  rewrite Hpad.
  cbn [pbind mbind prog_bind perform run states mret prog_ret].
  destruct (is_none pad) eqn:Hnone.
  - cbn [pbind mbind prog_bind perform run states Mock.handle
         Mock.get_attribute Mock.object_id Mock.alloc fst snd Mock.attributes
         Mock.fresh].
    rewrite Heos.
    cbn [pbind mbind prog_bind perform run states Mock.handle
         Mock.get_attribute Mock.object_id Mock.alloc Mock.set_attribute
         fst snd Mock.attributes Mock.fresh mret prog_ret].
    eexists _, _, _. split; [reflexivity|]. split; [reflexivity|].
    split; [reflexivity|]. cbn [Mock.attributes]. apply lookup_insert_eq.
  - cbn [pbind mbind prog_bind perform run states Mock.handle
         Mock.get_attribute Mock.object_id Mock.alloc Mock.set_attribute
         fst snd Mock.attributes Mock.fresh mret prog_ret].
    eexists _, _, _. split; [reflexivity|]. split; [reflexivity|].
    split; [reflexivity|]. cbn [Mock.attributes]. exact Hpad.
Qed.

(** C9, as the notebook has it. For a tokenizer object whose attributes
    [pad_token] and [eos_token] read [pad] and [eos], the fix returns, and
    afterwards [pad_token] reads [eos] when [pad] was [None] and [pad]
    otherwise; no other attribute changes; the attribute is assigned exactly
    when [pad] was [None]; so the pad token is not [None] afterwards exactly
    when the tokenizer had a pad token or an end-of-sequence token. Whatever
    the libraries do, the calls before the padded tokenization of the
    prompts are the loading of the tokenizer, the fix on it and the reading
    of the prompts, and no other: nothing comes between the fix and the
    tokenization, which is a call of the same tokenizer. And when the
    tokenizer is the object the library loads, the tokenization is the first
    call of an object and is made in a state in which its [pad_token] reads
    what the fix left: not [None], when the tokenizer had a pad token or an
    end-of-sequence token. *)
Theorem pad_token_after_setup (s : Mock.store) (t : nat) (pad eos : value) :
  Mock.attributes s !! (t, "pad_token") = Some pad →
  Mock.attributes s !! (t, "eos_token") = Some eos →
  let fixed := final Mock.handle (ensure_pad_token (VObj t)) s in
  let tr := trace Mock.handle (ensure_pad_token (VObj t)) s in
  outcome Mock.handle (ensure_pad_token (VObj t)) s = Return tt ∧
  Mock.attributes fixed !! (t, "pad_token")
    = Some (if is_none pad then eos else pad) ∧
  (∀ k, k ≠ (t, "pad_token") →
     Mock.attributes fixed !! k = Mock.attributes s !! k) ∧
  count is_setattr tr = (if is_none pad then 1 else 0)%nat ∧
  (is_none (if is_none pad then eos else pad) = false
     ↔ is_none pad = false ∨ is_none eos = false) ∧
  (∀ L (h : @handler L) l e,
     padded_after_fix e (trace h (load_policy e) l)) ∧
  encode_kwargs !! "padding" = Some (VBool true) ∧
  (∀ e, t = Mock.fresh s →
     let i := if is_none pad then 5%nat else 3%nat in
     ∃ texts r st,
       trace Mock.handle (load_policy e) s !! i
         = Some (Ev (Apply (VObj t) [texts] encode_kwargs) r) ∧
       count is_apply (take i (trace Mock.handle (load_policy e) s)) = 0%nat ∧
       states Mock.handle (load_policy e) s !! i = Some st ∧
       Mock.attributes st !! (t, "pad_token")
         = Some (if is_none pad then eos else pad) ∧
       (is_none pad = false ∨ is_none eos = false →
        ∃ v, Mock.attributes st !! (t, "pad_token") = Some v ∧
             is_none v = false)).
Proof.
  intros Hpad Heos fixed tr. subst fixed tr. unfold outcome, final, trace.
  rewrite (ensure_pad_token_store s t pad eos Hpad Heos).
  split; [by destruct (is_none pad)|].
  split.
  { destruct (is_none pad); cbn [fst snd]; [|done].
    unfold Mock.set_attribute. simpl. apply lookup_insert_eq. }
  split.
  { intros k Hk. destruct (is_none pad); cbn [fst snd]; [|done].
    unfold Mock.set_attribute. simpl. by apply lookup_insert_ne. }
  split; [by destruct (is_none pad)|].
  split.
  { destruct (is_none pad) eqn:Hp; cbv iota; rewrite ?Hp; split; auto.
    by intros [?|?]. }
  split; [intros L h l e; apply (load_policy_order h l e)|].
  split; [by vm_compute|].
  intros e ->.
  destruct (load_policy_store s e pad eos Hpad Heos)
    as (texts & r & st & Hcall & Hfirst & Hst & Hp).
  exists texts, r, st. repeat (split; [done|]).
  intros Hor. eexists. split; [exact Hp|].
  destruct (is_none pad) eqn:Hn; [|done]. by destruct Hor.
Qed.

End Tokenizer.

(** C9, as stated, fails: a tokenizer with neither a pad token nor an
    end-of-sequence token still has no pad token after the fix. *)
Lemma pad_token_can_stay_none :
  Mock.attributes
    (Script.final Mock.handle (Rlhf.ensure_pad_token (Py.VObj 0))
       (Mock.tokenizer Py.VNone))
  !! (0%nat, "pad_token") = Some Py.VNone.
Proof. vm_compute. reflexivity. Qed.

Lemma pad_token_after_setup_witness :
  Mock.attributes
    (Script.final Mock.handle (Rlhf.ensure_pad_token (Py.VObj 0))
       (Mock.unloaded (Py.VStr "</s>")))
  !! (0%nat, "pad_token") = Some (Py.VStr "</s>") ∧
  ∃ texts r st,
    Script.trace Mock.handle (Rlhf.load_policy Weights.no_reward)
      (Mock.unloaded (Py.VStr "</s>")) !! 5%nat
    = Some (Script.Ev (Script.Apply (Py.VObj 0) [texts] Rlhf.encode_kwargs) r) ∧
    Script.states Mock.handle (Rlhf.load_policy Weights.no_reward)
      (Mock.unloaded (Py.VStr "</s>")) !! 5%nat = Some st ∧
    Mock.attributes st !! (0%nat, "pad_token") = Some (Py.VStr "</s>").
Proof.
  destruct (pad_token_after_setup (Mock.unloaded (Py.VStr "</s>")) 0 Py.VNone
              (Py.VStr "</s>") eq_refl eq_refl)
    as (_ & Hfixed & _ & _ & _ & _ & _ & Hstate).
  split; [exact Hfixed|].
  destruct (Hstate Weights.no_reward eq_refl)
    as (texts & r & st & Htr & _ & Hst & Hp & _).
  exists texts, r, st. split; [exact Htr|]. split; [exact Hst | exact Hp].
Defined.

(** ** The reward stage *)

Section RewardStage.
Import Py Script Trace Autograd Rlhf.
Context {L : Type} (h : @handler L).

Lemma reward_stage_emits : emits not_ppo reward_stage.
Proof.
  unfold reward_stage, reward_setup, reward_loop, reward_step, call, call_obj,
    method, getattr, setattr, getitem, setitem, iter, unpack2, unpack_kwargs,
    tensor_op1, tensor_op2.
  emit.
Qed.

Lemma policy_stage_emits e : emits not_reward_update (policy_stage e).
Proof.
  unfold policy_stage, load_policy, adapt_and_train, adapt_policy, ppo_training,
    test_generation, ensure_pad_token, call, call_obj,
    method, getattr, setattr, hasattr, getitem, setitem.
  emit.
Qed.

Lemma reward_step_run (e : loop_env) (item : value) (l : L) :
  holds h (reward_step e item) l (λ r _ tr,
    r = Return tt → step_shape (rm_model (env e)) (optimizer e) item tr).
Proof.
  unfold reward_step, unpack2, unpack_kwargs, tensor_op1, tensor_op2,
    call_obj, method, getattr.
  repeat step; try done.
  intros _. unfold step_shape, batch_of.
  repeat match goal with H : as_tensor ?v = Some _ |- _ =>
    is_var v; destruct v; try discriminate end.
  simplify_eq/=.
  repeat match goal with H : as_pair _ = Some _ |- _ => rewrite H; clear H end.
  simpl.
  repeat match goal with H : as_dict _ = Some _ |- _ => rewrite H; clear H end.
  simpl. by eexists _, _, _, _, _, _, _, _, _.
Qed.

Lemma reward_loop_run (e : loop_env) (l : L) :
  holds h (reward_loop e) l (λ r _ tr,
    r = Return tt → ∃ batches chunks,
      tr = Ev (Iter (pairwise_loader e)) (Return batches) :: concat chunks ∧
      Forall2 (step_shape (rm_model (env e)) (optimizer e)) batches chunks).
Proof.
  unfold reward_loop, iter. step; [|by step].
  prog_simpl. apply (holds_bind h (for_each _ _)).
  apply (holds_for_each h _
    (λ done _ tr, ∃ chunks, tr = concat chunks ∧
       Forall2 (step_shape (rm_model (env e)) (optimizer e)) done chunks)).
  - by exists [].
  - intros done x l' tr (chunks & -> & Hall).
    eapply holds_mono; [apply reward_step_run|].
    intros [[]|err] l'' t2 Hstep; [|done].
    exists (chunks ++ [t2])%list. split.
    + rewrite concat_app. simpl. by rewrite app_nil_r.
    + apply Forall2_app; [done|]. constructor; [by apply Hstep|constructor].
  - intros l' tr (chunks & -> & Hall). repeat step.
    intros _. exists a, chunks. by rewrite !app_nil_r.
Qed.

Lemma reward_stage_run (l : L) :
  holds h reward_stage l (λ r _ tr, ∀ e, r = Return e →
    ∃ loader opt batches chunks setup_tr,
      split_at is_iter tr =
        Some (setup_tr, Ev (Iter loader) (Return batches), concat chunks) ∧
      Forall2 (step_shape (rm_model e) opt) batches chunks ∧
      Ev (Call "AutoModelForSequenceClassification.from_pretrained"
            [VStr rm_name] (kw [("num_labels", VInt 1)]))
         (Return (rm_model e)) ∈ setup_tr ∧
      (∃ ps, Ev (Method (rm_model e) "parameters" [] ∅) (Return ps) ∈ setup_tr ∧
             Ev (Call "optim.AdamW" [ps] (kw [("lr", VFloat 1e-5)]))
                (Return opt) ∈ setup_tr) ∧
      (∃ ce re, Ev (Call "data.DataLoader" [VInstance "PairwiseDataset" [ce; re]]
                      (kw [("batch_size", VInt 8); ("shuffle", VBool true)]))
                   (Return loader) ∈ setup_tr)).
Proof.
  unfold reward_stage, reward_setup, call, call_obj, method, getattr, setattr,
    getitem, setitem.
  repeat step;
    try lazymatch goal with
        | |- ∀ _, Raise _ = Return _ → _ => by intros ? [=]
        end.
  prog_simpl. apply (holds_bind h (reward_loop _)).
  eapply holds_mono; [apply reward_loop_run|].
  intros [[]|err] l' t Hloop; [|by intros ? [=]].
  destruct (Hloop eq_refl) as (batches & chunks & -> & Hall). clear Hloop.
  step. intros e [= <-]. cbn [rm_model env optimizer pairwise_loader] in *.
  eexists _, _, batches, chunks, _. split.
  { cbn. rewrite app_nil_r. reflexivity. }
  split; [exact Hall|].
  split; [find_event|]. split.
  - eexists. split; find_event.
  - eexists _, _. find_event.
Qed.

Lemma policy_stage_run (e : reward_env) (l : L) :
  holds h (policy_stage e) l (λ r _ tr, policy_shape e r tr).
Proof.
  unfold policy_stage, load_policy, adapt_and_train, adapt_policy, ppo_training,
    test_generation, ensure_pad_token, call, call_obj,
    method, getattr, setattr, hasattr, getitem, setitem.
  repeat step.
  all: unfold policy_shape; count_calls.
  all: (split; [lia|split; [lia|split; [try (by intros [? ?]); try done|]]]).
  all: (split; [try exact I|try exact I]).
  all: try (eexists; split;
            [reflexivity
            |split; [|split; [lia|try (by intros [? ?]); try done]]]).
  all: try (by intros ? [=]).
  all: try (intros ? [= <-]; by eexists _, _, _, _, _).
  all: eexists _, _, _, _, _, _, _, _.
  all: (split; [find_event|split; [find_event|split; [find_event
         |split; [find_event|]]]]).
  all: (split; [reflexivity|split; [reflexivity|]]).
  all: count_calls.
  all: (split; [lia|split; [|try (by intros [? ?]); try done]]).
  all: try (by intros ? [=]).
  all: intros ? [= <-]; by eexists _, _.
Qed.

End RewardStage.

(** ** The loss of the reward loop *)

Section Loss.
Import Py Script Trace Autograd Rlhf.

Lemma zip_sub_length (a b : list Q) :
  length a = length b → length (zip_sub a b) = length a.
Proof.
  revert b. induction a as [|x a IH]; intros [|y b]; simpl; try done.
  intros [= H]. by rewrite IH.
Qed.

Lemma sum_zip_sub (a b : list Q) :
  length a = length b → (sum (zip_sub a b) == sum a - sum b)%Q.
Proof.
  revert b. induction a as [|x a IH]; intros [|y b]; simpl; try done.
  intros [= H]. unfold sum in *. simpl. rewrite (IH b H). ring.
Qed.

Lemma squeeze_column (scores : list Q) :
  squeeze (-1) (column scores) =
    Some {| shape := [length scores]; data := scores |}.
Proof. done. Qed.

Lemma count_nonzero (n : nat) :
  n ≠ 0%nat → ¬ (inject_Z (Z.of_nat n) == 0)%Q.
Proof. intros Hn. unfold Qeq, inject_Z. simpl. lia. Qed.

Lemma pairwise_loss_value (leaf : nat → option tval) (a b : texpr)
    (cs rs : list Q) :
  eval leaf a = Some (column cs) → eval leaf b = Some (column rs) →
  length cs = length rs → cs ≠ [] →
  ∃ q, eval leaf (pairwise_loss (TSqueeze (-1) a) (TSqueeze (-1) b))
         = Some (scalar q) ∧
       (q == - mean_of (zip_sub cs rs))%Q ∧
       (q == mean_of rs - mean_of cs)%Q ∧
       (q < 0 ↔ 0 < mean_of (zip_sub cs rs))%Q.
Proof.
  intros Ha Hb Hlen Hne.
  exists (- mean_of (zip_sub cs rs))%Q.
  assert (Hn : ¬ (inject_Z (Z.of_nat (length cs)) == 0)%Q).
  { apply count_nonzero. by destruct cs. }
  split; [|split; [reflexivity|split]].
  - unfold pairwise_loss. cbn [eval]. rewrite Ha, Hb. cbn [mbind option_bind].
    rewrite !squeeze_column. cbn [mbind option_bind].
    unfold sub. cbn [shape data]. rewrite Hlen.
    rewrite decide_True by done. cbn [mbind option_bind].
    unfold mean, numel. cbn [data].
    destruct (length (zip_sub cs rs)) eqn:Hz.
    { rewrite zip_sub_length in Hz by done. by destruct cs. }
    rewrite <- Hz. done.
  - unfold mean_of. rewrite zip_sub_length, sum_zip_sub, <- Hlen by done.
    field. exact Hn.
  - split; intros H; lra.
Qed.

(** C2. Whatever the libraries return, a pass through the loop body that
    goes through is, for the two dicts of the batch: [zero_grad], the reward
    model called on the chosen dict and on the rejected dict, the [logits] of
    the two outputs read, [backward] called on
    [-mean(squeeze(chosen logits) - squeeze(rejected logits))], and [step].
    For logits of one column each, that loss is minus the mean of the margins
    chosen minus rejected, that is the mean rejected score minus the mean
    chosen score: it is negative exactly when the mean margin is positive, and
    no sigmoid or logarithm enters it. *)
Theorem reward_step_minimises_margin_loss :
  (∀ L (h : @handler L) (l : L) (e : loop_env) (item : value),
     holds h (reward_step e item) l (λ r _ tr,
       r = Return tt →
       step_shape (rm_model (env e)) (optimizer e) item tr)) ∧
  (∀ (leaf : nat → option tval) (a b : texpr) (cs rs : list Q),
     eval leaf a = Some (column cs) → eval leaf b = Some (column rs) →
     length cs = length rs → cs ≠ [] →
     ∃ q, eval leaf (pairwise_loss (TSqueeze (-1) a) (TSqueeze (-1) b))
            = Some (scalar q) ∧
          (q == - mean_of (zip_sub cs rs))%Q ∧
          (q == mean_of rs - mean_of cs)%Q ∧
          (q < 0 ↔ 0 < mean_of (zip_sub cs rs))%Q).
Proof.
  split.
  - intros L h l e item. apply reward_step_run.
  - apply pairwise_loss_value.
Qed.

End Loss.

Lemma reward_step_minimises_margin_loss_witness :
  Rlhf.step_shape (Py.VObj 101) (Py.VObj 103) (Mock.batch 0)
    (Script.trace Mock.handle (Rlhf.reward_step Mock.loop_objects (Mock.batch 0))
       Mock.empty) ∧
  ∃ q, Autograd.eval Mock.scores
         (Rlhf.pairwise_loss (Autograd.TSqueeze (-1) (Autograd.TLeaf 0))
                             (Autograd.TSqueeze (-1) (Autograd.TLeaf 1)))
       = Some (Autograd.scalar q) ∧ (q == -1)%Q.
Proof.
  destruct reward_step_minimises_margin_loss as [Hstep Hvalue].
  split.
  - apply (Hstep _ Mock.handle Mock.empty Mock.loop_objects (Mock.batch 0)).
    vm_compute. reflexivity.
  - destruct (Hvalue Mock.scores (Autograd.TLeaf 0) (Autograd.TLeaf 1)
                [3; 1]%Q [1; 1]%Q) as (q & Hq & Hm & _);
      [reflexivity|reflexivity|reflexivity|discriminate|].
    exists q. split; [exact Hq|]. rewrite Hm. reflexivity.
Defined.

(** ** The notebook, stage after stage *)

Section Notebook.
Import Py Script Trace Autograd Rlhf.
Context {L : Type} (h : @handler L).

Lemma trainer_kwargs_lookup (pcfg ppo tok rm prompts : value) :
  let k := ppo_trainer_kwargs pcfg ppo tok rm prompts in
  k !! "args" = Some pcfg ∧ k !! "model" = Some ppo ∧
  k !! "value_model" = Some ppo ∧ k !! "reward_model" = Some rm ∧
  k !! "ref_model" = Some VNone ∧ k !! "train_dataset" = Some prompts ∧
  k !! "processing_class" = Some tok.
Proof. by vm_compute. Qed.

Lemma ppo_config_lookup :
  ppo_config_kwargs !! "cliprange" = Some (VFloat 0.2) ∧
  ppo_config_kwargs !! "gamma" = Some (VFloat 1.0) ∧
  ppo_config_kwargs !! "lam" = Some (VFloat 0.95) ∧
  ppo_config_kwargs !! "num_ppo_epochs" = Some (VInt 1) ∧
  ppo_config_kwargs !! "num_sample_generations" = Some (VInt 0).
Proof. by vm_compute. Qed.

(** The notebook is the first stage, then the second. *)
Lemma notebook_run (l : L) :
  match run h reward_stage l with
  | (Return e, l1, tr1) =>
      ∃ r2 l2 tr2, run h (policy_stage e) l1 = (r2, l2, tr2) ∧
                   run h notebook l = (r2, l2, (tr1 ++ tr2)%list)
  | (Raise err, l1, tr1) => run h notebook l = (Raise err, l1, tr1)
  end.
Proof.
  unfold notebook. rewrite run_bind.
  destruct (run h reward_stage l) as [[[e|err] l1] tr1]; [|done].
  destruct (run h (policy_stage e) l1) as [[r2 l2] tr2]. by eexists _, _, _.
Qed.

Lemma not_ppo_trainer ev :
  not_ppo ev = true → is_call "trl.PPOTrainer" ev = false.
Proof. unfold not_ppo. by destruct (is_call "trl.PPOTrainer" ev). Qed.

Lemma not_ppo_config ev :
  not_ppo ev = true → is_call "trl.PPOConfig" ev = false.
Proof.
  unfold not_ppo. destruct (is_call "trl.PPOConfig" ev); [|done].
  by rewrite andb_false_r.
Qed.

Lemma not_update_step ev :
  not_reward_update ev = true → is_method "step" ev = false.
Proof. unfold not_reward_update. by destruct (is_method "step" ev). Qed.

Lemma not_update_backward ev :
  not_reward_update ev = true → is_method "backward" ev = false.
Proof.
  unfold not_reward_update. destruct (is_method "backward" ev); [|done].
  by rewrite andb_false_r.
Qed.

Lemma not_update_zero_grad ev :
  not_reward_update ev = true → is_method "zero_grad" ev = false.
Proof.
  unfold not_reward_update. destruct (is_method "zero_grad" ev); [|done].
  by rewrite !andb_false_r.
Qed.

Lemma not_update_iter ev :
  not_reward_update ev = true → is_iter ev = false.
Proof.
  unfold not_reward_update. destruct (is_iter ev); [|done].
  by rewrite !andb_false_r.
Qed.

(** A cut of the notebook's trace at a call of a PPO class: the first stage
    is over, and the cut is a cut of the second stage's trace. *)
Lemma notebook_cut (test : event → bool) (l : L) (pre post : list event) ev :
  (∀ x, not_ppo x = true → test x = false) →
  trace h notebook l = (pre ++ ev :: post)%list → test ev = true →
  ∃ e l1 tr1 rest,
    run h reward_stage l = (Return e, l1, tr1) ∧
    pre = (tr1 ++ rest)%list ∧
    trace h (policy_stage e) l1 = (rest ++ ev :: post)%list ∧
    outcome h notebook l = outcome h (policy_stage e) l1.
Proof.
  intros Htest Htr Hev.
  pose proof (notebook_run l) as Hrun.
  pose proof (stage_counts h test not_ppo reward_stage l Htest
                reward_stage_emits) as Hc1.
  unfold trace, outcome in *.
  destruct (run h reward_stage l) as [[[e|err] l1] tr1]; cbn [fst snd] in Hc1.
  - destruct Hrun as (r2 & l2 & tr2 & H2 & Hn). rewrite Hn in Htr.
    cbn [fst snd] in *.
    assert (Hpre : ∃ rest, pre = (tr1 ++ rest)%list ∧
                           tr2 = (rest ++ ev :: post)%list).
    { clear -Htr Hev Hc1. revert pre Htr.
      induction tr1 as [|x tr1 IH]; intros pre Htr.
      - exists pre. done.
      - simpl in Hc1. destruct (test x) eqn:Hx; [done|]. simpl in Hc1.
        destruct pre as [|y pre]; simpl in Htr.
        + injection Htr as <- _. congruence.
        + injection Htr as <- Htr. destruct (IH Hc1 pre Htr) as (rest & -> & ->).
          by exists rest. }
    destruct Hpre as (rest & -> & ->). eexists _, _, _, _.
    split; [done|]. split; [done|]. by rewrite H2, Hn.
  - rewrite Hrun in Htr. cbn [fst snd] in Htr. rewrite Htr in Hc1.
    pose proof (count_cut test pre post ev Hev). lia.
Qed.

End Notebook.

(** ** The two stages *)

Section Stages.
Import Py Script Trace Autograd Rlhf.
Context {L : Type} (h : @handler L).

(** C1. Whatever the libraries do, when the PPO trainer is built the first
    stage is over: the trace before it holds the loading of the reward model,
    its optimizer, the loader on the preference pairs, one iteration of the
    loader and a complete training step for every batch it yielded; from the
    end of the loop on, no call steps the optimizer, runs [backward] or
    iterates the loader; the trainer's [reward_model] is the model that was
    loaded and trained; and the next call is [train] on the trainer. *)
Theorem reward_training_precedes_ppo
    (l : L) (pre post : list event) (ev : event) :
  trace h notebook l = (pre ++ ev :: post)%list →
  is_call "trl.PPOTrainer" ev = true →
  two_stages pre ev post.
Proof.
  intros Htr Hev.
  destruct (notebook_cut h _ l pre post ev not_ppo_trainer Htr Hev)
    as (e & l1 & tr1 & rest & Hrun1 & -> & Htr2 & _).
  pose proof (reward_stage_run h l) as H1.
  unfold holds, outcome, trace in H1. rewrite Hrun1 in H1. cbn [fst snd] in H1.
  destruct (H1 e eq_refl)
    as (loader & opt & batches & chunks & setup_tr & Hsplit & Hall & Hrm
        & Hopt & Hld).
  apply split_at_Some in Hsplit as (-> & _ & Hiter).
  pose proof (policy_stage_run h e l1) as H2.
  unfold holds in H2. destruct H2 as (_ & Hle & _ & H2 & _).
  rewrite (split_at_cut _ _ _ _ _ Hle Htr2 Hev) in H2.
  destruct H2 as (lm & cfg & lora & ppo & pcfg & tok & prompts & r' & _ & _ & _
                  & _ & _ & -> & _ & Htrain & _).
  exists (rm_model e), loader, opt, batches, chunks, setup_tr, rest.
  split; [by rewrite <- !app_assoc|].
  split; [done|]. split; [done|]. split; [done|]. split; [done|]. split; [done|].
  rewrite <- Htr2.
  split; [apply (stage_counts h _ not_reward_update);
          [apply not_update_zero_grad | apply policy_stage_emits]|].
  split; [apply (stage_counts h _ not_reward_update);
          [apply not_update_backward | apply policy_stage_emits]|].
  split; [apply (stage_counts h _ not_reward_update);
          [apply not_update_step | apply policy_stage_emits]|].
  split; [apply (stage_counts h _ not_reward_update);
          [apply not_update_iter | apply policy_stage_emits]|].
  split; [apply trainer_kwargs_lookup|].
  intros t Ht. destruct r' as [t'|]; [|done]. injection Ht as ->.
  destruct (Htrain t eq_refl) as (u & post' & -> & _). by eexists _, _.
Qed.

(** C6. Whatever the libraries do, the PPO configuration is built with no
    positional argument and with [cliprange=0.2], [gamma=1.0], [lam=0.95],
    [num_ppo_epochs=1] and [num_sample_generations=0], and only once; the
    trainer is built next with it as [args], and only once; [train] is called
    next on that trainer and not again; and a run of the notebook that goes
    through calls [train] exactly once after the configuration. *)
Theorem ppo_configured_and_run_once
    (l : L) (pre post : list event) (ev : event) :
  trace h notebook l = (pre ++ ev :: post)%list →
  is_call "trl.PPOConfig" ev = true →
  ppo_run pre ev post (returns (outcome h notebook l)).
Proof.
  intros Htr Hev.
  destruct (notebook_cut h _ l pre post ev not_ppo_config Htr Hev)
    as (e & l1 & tr1 & rest & Hrun1 & -> & Htr2 & Hout).
  pose proof (stage_counts h _ not_ppo reward_stage l not_ppo_config
                reward_stage_emits) as Hc1.
  pose proof (stage_counts h _ not_ppo reward_stage l not_ppo_trainer
                reward_stage_emits) as Ht1.
  unfold trace in Hc1, Ht1. rewrite Hrun1 in Hc1, Ht1. cbn [fst snd] in Hc1, Ht1.
  pose proof (policy_stage_run h e l1) as H2.
  unfold holds in H2. destruct H2 as (Hlec & Hlet & _ & H2t & H2c).
  rewrite (split_at_cut _ _ _ _ _ Hlec Htr2 Hev) in H2c.
  destruct H2c as (rc & -> & Hnext & Hle & Hone).
  destruct ppo_config_lookup as (? & ? & ? & ? & ?).
  pose proof Hlet as Hlet'.
  rewrite Htr2 in Hlec, Hlet'.
  unfold ppo_run. cbn [args kwargs_ args_of kwargs_of].
  split; [done|]. split; [done|]. split; [done|]. split; [done|].
  split; [done|]. split; [done|].
  split.
  { rewrite <- app_assoc, count_app, Hc1. by apply count_le_cut in Hlec. }
  split.
  { intros cfg Hcfg. destruct rc as [cfg'|]; [|done]. injection Hcfg as ->.
    destruct (Hnext cfg eq_refl) as (ppo & tok & prompts & rt & post' & ->).
    eexists _, rt, post'. split; [done|].
    split; [apply trainer_kwargs_lookup|].
    assert (Hcut : trace h (policy_stage e) l1 =
              ((rest ++ [Ev (Call "trl.PPOConfig" [] ppo_config_kwargs)
                           (Return cfg)])
               ++ Ev (Call "trl.PPOTrainer" []
                        (ppo_trainer_kwargs cfg ppo tok (rm_model e) prompts)) rt
               :: post')%list).
    { by rewrite <- app_assoc. }
    split.
    { rewrite <- app_assoc, !count_app, Ht1. rewrite count_app in Hlet'.
      cbn [count is_call same_name call_name String.eqb Ascii.eqb Bool.eqb
           Nat.add] in Hlet'. lia. }
    rewrite (split_at_cut _ _ _ _ _ Hlet Hcut eq_refl) in H2t.
    destruct H2t as (lm & cfg2 & lora & ppo2 & pcfg2 & tok2 & prompts2 & r'
                     & _ & _ & _ & _ & _ & Heq & _ & Htrain & _).
    intros t ->. apply Htrain.
    assert (Hr : returned (Ev (Call "trl.PPOTrainer" []
                   (ppo_trainer_kwargs cfg ppo tok (rm_model e) prompts))
                   (Return t))
                 = returned (Ev (Call "trl.PPOTrainer" []
                   (ppo_trainer_kwargs pcfg2 ppo2 tok2 (rm_model e) prompts2)) r'))
      by by rewrite Heq.
    simpl in Hr. by destruct r'; simplify_eq. }
  split; [done|]. intros Hdone. apply Hone. by rewrite <- Hout.
Qed.

End Stages.

Lemma reward_training_precedes_ppo_witness :
  ∃ pre ev post,
    Script.trace Mock.handle Rlhf.notebook Mock.two_batches
      = (pre ++ ev :: post)%list ∧
    Trace.is_call "trl.PPOTrainer" ev = true ∧
    Rlhf.two_stages pre ev post.
Proof.
  destruct (cut_exists (Trace.is_call "trl.PPOTrainer")
              (Script.trace Mock.handle Rlhf.notebook Mock.two_batches))
    as (pre & ev & post & Htr & Hev); [vm_compute; apply le_n|].
  exists pre, ev, post. split; [exact Htr|]. split; [exact Hev|].
  exact (reward_training_precedes_ppo Mock.handle _ _ _ _ Htr Hev).
Defined.

Lemma ppo_configured_and_run_once_witness :
  ∃ pre ev post,
    Script.trace Mock.handle Rlhf.notebook Mock.two_batches
      = (pre ++ ev :: post)%list ∧
    Trace.is_call "trl.PPOConfig" ev = true ∧
    Py.returns (Script.outcome Mock.handle Rlhf.notebook Mock.two_batches) ∧
    Rlhf.ppo_run pre ev post
      (Py.returns (Script.outcome Mock.handle Rlhf.notebook Mock.two_batches)).
Proof.
  destruct (cut_exists (Trace.is_call "trl.PPOConfig")
              (Script.trace Mock.handle Rlhf.notebook Mock.two_batches))
    as (pre & ev & post & Htr & Hev); [vm_compute; apply le_n|].
  exists pre, ev, post. split; [exact Htr|]. split; [exact Hev|].
  split; [exists tt; vm_compute; reflexivity|].
  exact (ppo_configured_and_run_once Mock.handle _ _ _ _ Htr Hev).
Defined.

(** ** The weights of the base model *)

Section FrameLogic.
Import Py Script Trace.
Context {L : Type} (h : @handler L).

(** A property of the state that the calls of a script keep holds when the
    script ends. *)
Lemma final_invariant_emits {A} (ok : event → bool) (J : L → Prop)
    (p : prog A) l :
  emits ok p →
  (∀ X (c : libcall X) l, ok (Ev c (h X c l).1) = true → J l → J (h X c l).2) →
  J l → J (final h p l).
Proof.
  intros Hp Hkeep. revert l. induction Hp as [a|e|X c k Hc Hk IH]; intros l Hl;
    [done..|].
  unfold final in *. simpl.
  specialize (Hkeep X c l (Hc _) Hl).
  destruct (h X c l) as [r l1]. specialize (IH r l1 Hkeep).
  by destruct (run h (k r) l1) as [[a l2] tr].
Qed.

End FrameLogic.

Section Lora.
Import Py Script Trace Rlhf.
Context {L : Type} (h : @handler L).

Lemma policy_stage_lora (e : reward_env) (l : L) :
  holds h (policy_stage e) l (λ _ _ tr, lora_cut e tr).
Proof.
  unfold policy_stage, load_policy, adapt_and_train, adapt_policy, ppo_training,
    test_generation, ensure_pad_token, call, call_obj,
    method, getattr, setattr, hasattr, getitem, setitem.
  repeat step.
  all: unfold lora_cut; cut_calls; try exact I.
  all: eexists _, _, _, _, _, _, _, _, _, _, _, _.
  all: repeat (split; [reflexivity|]); reflexivity.
Qed.

Lemma reward_stage_not_adaptation : emits not_adaptation reward_stage.
Proof.
  unfold reward_stage, reward_setup, reward_loop, reward_step, call, call_obj,
    method, getattr, setattr, getitem, setitem, iter, unpack2, unpack_kwargs,
    tensor_op1, tensor_op2.
  emit.
Qed.

Lemma lora_policy_at_trainer (l : L) (pre post : list event) (ev : event) :
  trace h notebook l = (pre ++ ev :: post)%list →
  is_call "trl.PPOTrainer" ev = true → lora_policy pre ev.
Proof.
  intros Htr Hev.
  destruct (notebook_cut h _ l pre post ev not_ppo_trainer Htr Hev)
    as (e & l1 & tr1 & rest & Hrun1 & -> & Htr2 & _).
  assert (Hnone : ∀ test : event → bool,
            (∀ x, not_adaptation x = true → test x = false) →
            count test tr1 = 0%nat).
  { intros test Htest.
    pose proof (stage_counts h test not_adaptation reward_stage l Htest
                  reward_stage_not_adaptation) as Hc.
    unfold trace in Hc. by rewrite Hrun1 in Hc. }
  pose proof (policy_stage_run h e l1) as (_ & Hle & _).
  pose proof (policy_stage_lora e l1) as Hcut. unfold holds, lora_cut in Hcut.
  rewrite (split_at_cut _ _ _ _ _ Hle Htr2 Hev) in Hcut.
  destruct Hcut as (lm & u1 & config & lora & u2 & ppo & before & rest' & pcfg
                    & tok & prompts & r' & Hsplit & Htake & Hc0 & Hc1 & Hc2 & ->).
  apply split_at_Some in Hsplit as (-> & _ & Hb0).
  exists lm, u1, config, lora, u2, ppo, (tr1 ++ before)%list, (drop 5 rest').
  split.
  { rewrite <- (take_drop 5 rest') at 1. rewrite Htake.
    by rewrite <- !app_assoc. }
  rewrite <- !app_assoc, !count_app in *.
  split.
  { rewrite Hnone, Hb0, Hc0; [done|]. intros x. unfold not_adaptation.
    by destruct (is_call "AutoModelForCausalLM.from_pretrained" x). }
  split.
  { rewrite Hnone; [lia|]. intros x. unfold not_adaptation.
    destruct (is_call "peft.get_peft_model" x); [|done].
    by rewrite andb_false_r. }
  split.
  { rewrite Hnone; [lia|]. intros x. unfold not_adaptation.
    destruct (is_call "CustomValueHeadModel" x); [|done].
    by rewrite andb_false_r. }
  split; [by vm_compute|]. split; [by vm_compute|].
  cbn [kwargs_ kwargs_of].
  pose proof (trainer_kwargs_lookup pcfg ppo tok (rm_model e) prompts) as Hk.
  cbv zeta in Hk. destruct Hk as (Ha & Hm & Hv & Hr & Hf & Ht & Hp). done.
Qed.

End Lora.

Section Frame.
Import Py Script Trace Autograd Rlhf.
Context {L W : Type} (h : @handler L).
Context (data : L → nat → option W) (trainable : L → nat → bool)
        (parameters : L → value → list nat).
Hypothesis contract : peft_contract h data trainable parameters.

Lemma frozen_kept {X} (c : libcall X) (l0 l : L) (q : nat) :
  keeps_frozen (Ev c (h X c l).1) = true →
  is_Some (data l0 q) → data l q = data l0 q ∧ trainable l q = false →
  data (h X c l).2 q = data l0 q ∧ trainable (h X c l).2 q = false.
Proof.
  intros Hc Hq [Hd Ht]. assert (Hs : is_Some (data l q)) by by rewrite Hd.
  unfold keeps_frozen in Hc. apply orb_true_iff in Hc as [Hc|Hc].
  - destruct (quiet_weights _ _ _ _ contract X c l q Hc Hs) as [-> ->]. done.
  - destruct (training_spares_frozen _ _ _ _ contract X c l q Hc Hs Ht)
      as [-> ->]. done.
Qed.

Lemma base_weights_kept (e : reward_env) (b : base_env) (l : L) (q : nat) :
  q ∈ parameters l (lm_model b) →
  data (final h (adapt_and_train e b) l) q = data l q.
Proof.
  intros Hq.
  pose proof (parameters_exist _ _ _ _ contract _ _ _ Hq) as Hex.
  unfold adapt_and_train, adapt_policy, call, method.
  prog_simpl. rewrite final_Do.
  set (c1 := Method (lm_model b) "gradient_checkpointing_enable" [] ∅).
  destruct (quiet_weights _ _ _ _ contract _ c1 l q eq_refl Hex) as [Hd1 _].
  pose proof (quiet_parameters _ _ _ _ contract _ c1 l _ q eq_refl Hq) as Hq1.
  destruct (h value c1 l) as [[v1|err] l1]; cbn [fst snd] in *; [|by prog_simpl].
  assert (Hex1 : is_Some (data l1 q)) by by rewrite Hd1.
  prog_simpl. rewrite final_Do.
  set (c2 := Call "peft.LoraConfig" [] lora_kwargs).
  destruct (quiet_weights _ _ _ _ contract _ c2 l1 q eq_refl Hex1) as [Hd2 _].
  pose proof (quiet_parameters _ _ _ _ contract _ c2 l1 _ q eq_refl Hq1) as Hq2.
  destruct (h value c2 l1) as [[config|err] l2]; cbn [fst snd] in *;
    [|prog_simpl; cbn [final run fst snd]; congruence].
  assert (Hex2 : is_Some (data l2 q)) by by rewrite Hd2, Hd1.
  prog_simpl. rewrite final_Do.
  destruct (peft_freezes _ _ _ _ contract (lm_model b) config l2 q Hex2)
    as [Hd3 Hf3].
  specialize (Hf3 Hq2).
  set (c3 := Call "peft.get_peft_model" [lm_model b; config] ∅) in *.
  destruct (h value c3 l2) as [r3 l3]; cbn [fst snd] in *.
  assert (Hinv : data l3 q = data l q ∧ trainable l3 q = false)
    by (split; [congruence|done]).
  apply (final_invariant_emits h keeps_frozen
           (λ l', data l' q = data l q ∧ trainable l' q = false)); [| |done].
  - unfold ppo_training, test_generation, call, call_obj, method, getattr,
      setattr, hasattr, getitem.
    destruct r3; emit_calls.
  - intros X c l' Hc HJ. by apply frozen_kept.
Qed.

(** C5. The calls before the PPO trainer is built hold, one after the
    other, the loading of the base model, [gradient_checkpointing_enable],
    the LoRA configuration with [r=8] and [lora_alpha=16],
    [peft.get_peft_model] on that base model and that configuration,
    [train()] on the LoRA model, and the value-head wrapper of the LoRA
    model; no other call loads a base model, makes a LoRA model or wraps a
    model; and the trainer gets that wrapper as [model] and as
    [value_model]. And for libraries that keep the contract [peft_contract],
    which speaks of the calls of the libraries by name ([get_peft_model]
    freezes the parameters of the model it is given, [train()] changes no
    frozen weight, the configurations, the wrapper, the trainer's
    construction, generation, and the four attributes the notebook assigns
    touch no weight), every parameter the base model has when the
    adaptation begins has the same value when the notebook ends: the
    notebook freezes the base model before it trains and calls nothing in
    between that the contract does not cover. *)
Theorem ppo_leaves_base_weights :
  (∀ l pre ev post,
     trace h notebook l = (pre ++ ev :: post)%list →
     is_call "trl.PPOTrainer" ev = true → lora_policy pre ev) ∧
  (∀ e b l q, q ∈ parameters l (lm_model b) →
     data (final h (adapt_and_train e b) l) q = data l q).
Proof.
  split; [|apply base_weights_kept].
  intros l pre ev post. apply (lora_policy_at_trainer h l pre post ev).
Qed.

End Frame.


Section WeightsContract.
Import Py Script Trace Rlhf Weights.

Lemma weights_quiet {X} (c : libcall X) (s : store) (p : nat) w :
  leaves_weights c = true → s !! p = Some w → (handle X c s).2 !! p = Some w.
Proof.
  intros Hc Hp. destruct c; simpl in *; try done.
  - destruct (String.eqb_spec f "peft.get_peft_model") as [->|_]; [done|].
    destruct (String.eqb f "CustomValueHeadModel"); [|done].
    by rewrite lookup_app_l by (by eapply lookup_lt_Some).
  - destruct (String.eqb_spec name "train") as [->|_]; [done|].
    by destruct (String.eqb_spec name "requires_grad_") as [->|_].
Qed.

Lemma weights_length {X} (c : libcall X) (s : store) :
  (length s ≤ length (handle X c s).2)%nat.
Proof.
  destruct c; simpl; try done.
  - repeat case_match; rewrite ?length_app, ?length_fmap; simpl; lia.
  - repeat case_match; by rewrite ?length_fmap.
Qed.

Lemma weights_contract : peft_contract handle data trainable parameters.
Proof.
  split.
  - intros s m p Hp. unfold parameters in Hp. apply elem_of_seq in Hp.
    unfold data. apply fmap_is_Some, lookup_lt_is_Some. lia.
  - intros X c s m p _ Hp. unfold parameters in *. apply elem_of_seq in Hp.
    apply elem_of_seq. pose proof (weights_length c s). lia.
  - intros X c s p Hc [d Hd]. unfold data, trainable in *.
    apply fmap_Some in Hd as (w & Hp & ->).
    by rewrite (weights_quiet c s p w Hc Hp), Hp.
  - intros m config s p. cbv zeta. intros [d Hd]. unfold data, trainable in *.
    apply fmap_Some in Hd as ([d' g] & Hp & ->). simpl.
    rewrite lookup_app_l
      by (rewrite length_fmap; by eapply lookup_lt_Some).
    rewrite list_lookup_fmap, Hp. done.
  - intros X c s p Hc [d Hd] Ht. unfold data, trainable in *.
    apply fmap_Some in Hd as ([d' g] & Hp & ->). rewrite Hp in Ht. subst g.
    destruct c; simpl in *; try done. unfold trains in Hc. simpl in Hc.
    rewrite Hc. by rewrite list_lookup_fmap, Hp.
Qed.

End WeightsContract.

Lemma ppo_leaves_base_weights_witness :
  (∃ pre ev post,
     Script.trace Weights.handle Rlhf.notebook Weights.loaded
       = (pre ++ ev :: post)%list ∧
     Trace.is_call "trl.PPOTrainer" ev = true ∧ Rlhf.lora_policy pre ev) ∧
  (0%nat ∈ Weights.parameters Weights.loaded Py.VNone ∧
   Weights.data
     (Script.final Weights.handle
        (Rlhf.adapt_and_train Weights.no_reward Weights.no_base) Weights.loaded)
     0 = Some 7%Z).
Proof.
  pose proof (ppo_leaves_base_weights Weights.handle Weights.data
                Weights.trainable Weights.parameters weights_contract)
    as [Hpolicy Hframe].
  split.
  - destruct (cut_exists (Trace.is_call "trl.PPOTrainer")
                (Script.trace Weights.handle Rlhf.notebook Weights.loaded))
      as (pre & ev & post & Htr & Hev); [vm_compute; apply le_n|].
    exists pre, ev, post. split; [exact Htr|]. split; [exact Hev|].
    exact (Hpolicy _ _ _ _ Htr Hev).
  - assert (Hin : 0%nat ∈ Weights.parameters Weights.loaded Py.VNone)
      by (vm_compute; apply list_elem_of_here).
    split; [exact Hin|].
    exact (Hframe Weights.no_reward Weights.no_base Weights.loaded 0%nat Hin).
Defined.

(** The adapter and the value head of that run did move. *)
Example ppo_moves_adapter_and_head :
  Script.final Weights.handle
    (Rlhf.adapt_and_train Weights.no_reward Weights.no_base) Weights.loaded
  = [(7%Z, false); (3%Z, false); (2%Z, true); (1%Z, true)].
Proof. vm_compute. reflexivity. Qed.

(** The same library trains the base model of a script that unfreezes it
    after LoRA: the contract does not keep weights from moving, the notebook
    does. *)
Example unfrozen_base_is_trained :
  Weights.data
    (Script.final Weights.handle
       (Weights.unfreeze_and_train Weights.no_base) Weights.loaded) 0
  = Some 8%Z.
Proof. vm_compute. reflexivity. Qed.

(** * Further properties of the code *)

(** ** Indexing the datasets *)

Section DatasetBounds.
Import Py Tensor.

Lemma getitem_in_range (v : tensor) (idx : Z) :
  returns (getitem v idx)
  ↔ (- Z.of_nat (length v) ≤ idx < Z.of_nat (length v))%Z.
Proof.
  unfold getitem, shape0. cbv zeta.
  destruct (decide (idx < 0)%Z) as [Hneg|Hneg].
  - rewrite (bool_decide_eq_true_2 _ Hneg).
    case_bool_decide as Hin; [|split; [by intros ?%returns_Raise | lia]].
    destruct (lookup_lt_is_Some_2 v (Z.to_nat (idx + Z.of_nat (length v))))
      as [x Hx]; [lia|].
    rewrite Hx. simpl. split; [lia | intros _; apply returns_Return].
  - rewrite (bool_decide_eq_false_2 _ Hneg).
    case_bool_decide as Hin; [|split; [by intros ?%returns_Raise | lia]].
    destruct (lookup_lt_is_Some_2 v (Z.to_nat idx)) as [x Hx]; [lia|].
    rewrite Hx. simpl. split; [lia | intros _; apply returns_Return].
Qed.

Lemma getitem_raises (v : tensor) (idx : Z) (e : exn) :
  getitem v idx = Raise e → e = IndexError.
Proof.
  unfold getitem. cbv zeta. case_bool_decide; [|by intros [= <-]].
  destruct (v !! _); simpl; [done | by intros [= <-]].
Qed.

Lemma getitem_from_end (v : tensor) (j : nat) :
  (0 < j ≤ length v)%nat →
  getitem v (- Z.of_nat j) = Return (default [] (v !! (length v - j)%nat)).
Proof.
  intros Hj. unfold getitem, shape0. cbv zeta.
  rewrite (bool_decide_eq_true_2 (- Z.of_nat j < 0)%Z) by lia.
  rewrite bool_decide_eq_true_2 by lia.
  replace (Z.to_nat (- Z.of_nat j + Z.of_nat (length v))) with (length v - j)%nat
    by lia.
  destruct (lookup_lt_is_Some_2 v (length v - j)%nat) as [x Hx]; [lia|].
  by rewrite Hx.
Qed.

Lemma mapM_Raise {A B} (f : A → result B) (l : list A) (e : exn) :
  mapM f l = Raise e → ∃ x, x ∈ l ∧ f x = Raise e.
Proof.
  induction l as [|x l IH]; simpl; [done|].
  destruct (f x) as [y|e'] eqn:Hx; simpl.
  - destruct (mapM f l) as [k|e'] eqn:Hl; simpl; [done|].
    intros [= <-]. destruct (IH eq_refl) as (z & Hz & Hfz).
    exists z. split; [by apply list_elem_of_further | done].
  - intros [= <-]. exists x. split; [apply list_elem_of_here | done].
Qed.

Lemma index_items_raises (enc : encodings) (idx : Z) (e : exn) :
  index_items enc idx = Raise e → e = IndexError.
Proof.
  unfold index_items.
  destruct (mapM _ _) as [k|e'] eqn:Hm; simpl; [done|].
  intros [= <-]. apply mapM_Raise in Hm as ([k v] & _ & Hx). simpl in Hx.
  destruct (getitem v idx) as [x|e''] eqn:Hg; simpl in Hx; [done|].
  injection Hx as <-. by apply getitem_raises in Hg.
Qed.

Lemma index_items_in_range (enc : encodings) (idx : Z) :
  returns (index_items enc idx) ↔
    ∀ k v, enc !! k = Some v →
      (- Z.of_nat (length v) ≤ idx < Z.of_nat (length v))%Z.
Proof.
  rewrite index_items_returns. unfold map_Forall.
  split; intros H k v Hk; apply getitem_in_range; by eapply H.
Qed.

Lemma index_items_dom (enc : encodings) (idx : Z) (m : gmap string row) :
  index_items enc idx = Return m → dom m = dom enc.
Proof. intros [_ ->]%index_items_Return. apply dom_fmap_L. Qed.

(** X2. [PairwiseDataset.__getitem__] for a Python int that fits in 64
    bits: it returns exactly when the index is within [-n, n) for every
    tensor of both encodings, [n] being the rows of that tensor (so it
    returns for every such index when both encodings are empty dicts); the
    only exception it raises is [IndexError]; and the two dicts of an item
    have the keys of the two encodings. An index that does not fit in 64
    bits is outside the statement. *)
Theorem pairwise_getitem_bounds (chosen rejected : encodings) (idx : Z) :
  fits_int64 idx →
  let ds := PairwiseDataset.init chosen rejected in
  (returns (PairwiseDataset.getitem ds idx) ↔
     ∀ k v, chosen !! k = Some v ∨ rejected !! k = Some v →
       (- Z.of_nat (length v) ≤ idx < Z.of_nat (length v))%Z) ∧
  (∀ e, PairwiseDataset.getitem ds idx = Raise e → e = IndexError) ∧
  (∀ c r, PairwiseDataset.getitem ds idx = Return (c, r) →
     dom c = dom chosen ∧ dom r = dom rejected).
Proof.
  intros _. cbv zeta. unfold PairwiseDataset.getitem. simpl. split; [|split].
  - rewrite bind_returns. split.
    + intros (c & Hc & Hr). apply bind_returns in Hr as (r & Hr & _).
      intros k v [Hk|Hk].
      * by apply (proj1 (index_items_in_range chosen idx) (ex_intro _ c Hc) k v).
      * by apply (proj1 (index_items_in_range rejected idx) (ex_intro _ r Hr) k v).
    + intros H.
      destruct (proj2 (index_items_in_range chosen idx)) as [c Hc];
        [intros k v Hk; apply (H k v); by left|].
      destruct (proj2 (index_items_in_range rejected idx)) as [r Hr];
        [intros k v Hk; apply (H k v); by right|].
      exists c. split; [done|]. rewrite Hr. apply returns_Return.
  - intros e. destruct (index_items chosen idx) as [c|e1] eqn:Hc; simpl.
    + destruct (index_items rejected idx) as [r|e2] eqn:Hr; simpl; [done|].
      intros [= <-]. by apply index_items_raises in Hr.
    + intros [= <-]. by apply index_items_raises in Hc.
  - intros c r. destruct (index_items chosen idx) as [c'|] eqn:Hc; simpl; [|done].
    destruct (index_items rejected idx) as [r'|] eqn:Hr; simpl; [|done].
    intros [= <- <-]. split; by eapply index_items_dom.
Qed.

(** X1. [PromptDataset]: [__len__] is the number of rows of [input_ids],
    and a [KeyError] when the encodings have no [input_ids]; the item
    [__getitem__] returns for [i] holds row [i] of every tensor under the key
    of that tensor; and [__getitem__] returns for [i] exactly when every
    tensor has more than [i] rows. *)
Theorem prompt_dataset_rows (enc : encodings) :
  let ds := {| PromptDataset.encodings_ := enc |} in
  PromptDataset.len ds =
    match enc !! "input_ids" with
    | Some ids => Return (length ids)
    | None => Raise (KeyError "input_ids")
    end ∧
  (∀ (i : nat) m, PromptDataset.getitem ds (Z.of_nat i) = Return m →
     ∀ k, m !! k = enc !! k ≫= (.!! i)) ∧
  (∀ i : nat, returns (PromptDataset.getitem ds (Z.of_nat i)) ↔
     ∀ k v, enc !! k = Some v → (i < length v)%nat).
Proof.
  cbv zeta. unfold PromptDataset.len, PromptDataset.getitem, subscript. simpl.
  split; [by destruct (enc !! "input_ids")|]. split.
  - intros i m [Hall ->]%index_items_Return k. rewrite lookup_fmap.
    destruct (enc !! k) as [v|] eqn:Hk; simpl; [|done].
    apply Hall in Hk as [x Hx]. unfold row_at. rewrite Hx.
    rewrite getitem_nat in Hx. by destruct (v !! i); simplify_eq/=.
  - intros i. rewrite index_items_returns. unfold map_Forall.
    split; intros H k v Hk; apply getitem_nat_returns; by eapply H.
Qed.

Lemma index_items_from_end (enc : encodings) (n j : nat) :
  (∀ k v, enc !! k = Some v → length v = n) → (0 < j ≤ n)%nat →
  index_items enc (- Z.of_nat j)
  = Return ((λ v, default [] (v !! (n - j)%nat)) <$> enc).
Proof.
  intros Hrows Hj. apply index_items_Return. split.
  - intros k v Hk. apply getitem_in_range. rewrite (Hrows k v Hk). lia.
  - apply map_fmap_ext. intros k v Hk. unfold row_at.
    rewrite getitem_from_end by (rewrite (Hrows k v Hk); lia).
    by rewrite (Hrows k v Hk).
Qed.

(** X3. A negative index counts from the end of each encoding separately:
    when every chosen tensor has [n] rows and every rejected tensor has [m]
    rows, [ds[-j]] pairs row [n - j] of the chosen tensors with row [m - j] of
    the rejected tensors, which are the rows of one pair only when
    [n = m]. *)
Theorem pairwise_negative_index (chosen rejected : encodings) (n m j : nat) :
  (∀ k v, chosen !! k = Some v → length v = n) →
  (∀ k v, rejected !! k = Some v → length v = m) →
  (0 < j ≤ n)%nat → (j ≤ m)%nat →
  PairwiseDataset.getitem (PairwiseDataset.init chosen rejected) (- Z.of_nat j)
  = Return ((λ v, default [] (v !! (n - j)%nat)) <$> chosen,
            (λ v, default [] (v !! (m - j)%nat)) <$> rejected).
Proof.
  intros Hc Hr Hn Hm. unfold PairwiseDataset.getitem. simpl.
  rewrite (index_items_from_end chosen n j Hc Hn). simpl.
  by rewrite (index_items_from_end rejected m j Hr) by lia.
Qed.

End DatasetBounds.

Lemma pairwise_getitem_bounds_witness :
  Tensor.fits_int64 2 ∧
  ¬ Py.returns
      (PairwiseDataset.getitem
         (PairwiseDataset.init PairwiseDataset.two_chosen
            PairwiseDataset.three_rejected) 2) ∧
  ∀ e,
    PairwiseDataset.getitem
      (PairwiseDataset.init PairwiseDataset.two_chosen
         PairwiseDataset.three_rejected) 2 = Py.Raise e →
    e = Py.IndexError.
Proof.
  assert (Hfits : Tensor.fits_int64 2) by (unfold Tensor.fits_int64; lia).
  destruct (pairwise_getitem_bounds PairwiseDataset.two_chosen
              PairwiseDataset.three_rejected 2 Hfits) as (Hret & Hexn & _).
  split; [exact Hfits|]. split; [|exact Hexn].
  intros Hr. pose proof (proj1 Hret Hr) as Hb.
  assert (Hk : PairwiseDataset.two_chosen !! "input_ids"
               = Some [[101; 7; 102]; [101; 9; 102]]%Z)
    by (vm_compute; reflexivity).
  specialize (Hb _ _ (or_introl Hk)). simpl in Hb. lia.
Defined.

Lemma pairwise_negative_index_witness :
  PairwiseDataset.getitem
    (PairwiseDataset.init PairwiseDataset.two_chosen
       PairwiseDataset.three_rejected) (-1)
  = Py.Return
      ((λ v, default [] (v !! 1%nat)) <$> PairwiseDataset.two_chosen,
       (λ v, default [] (v !! 2%nat)) <$> PairwiseDataset.three_rejected).
Proof.
  apply (pairwise_negative_index PairwiseDataset.two_chosen
           PairwiseDataset.three_rejected 2 3 1).
  - apply (bool_decide_unpack
             (map_Forall (λ _ v, length v = 2%nat) PairwiseDataset.two_chosen)).
    vm_compute. exact I.
  - apply (bool_decide_unpack
             (map_Forall (λ _ v, length v = 3%nat)
                PairwiseDataset.three_rejected)).
    vm_compute. exact I.
  - lia.
  - lia.
Defined.

(** ** [preprocess] *)

Section Preprocess.
Import Py Tensor Columns.
Context {A : Type}.

Lemma preprocess_Return (examples out : gmap string A) :
  preprocess examples = Return out ↔
    ∃ c r, examples !! "chosen" = Some c ∧ examples !! "rejected" = Some r ∧
           out = <["chosen" := c]> (<["rejected" := r]> ∅).
Proof.
  unfold preprocess, subscript.
  destruct (examples !! "chosen") as [c|]; simpl.
  - destruct (examples !! "rejected") as [r|]; simpl.
    + split; [intros [= <-]; by eexists _, _ | by intros (? & ? & [= <-] & [= <-] & ->)].
    + split; [done | by intros (? & ? & _ & ? & _)].
  - split; [done | by intros (? & ? & ? & _)].
Qed.

(** X4. What [preprocess] returns has the two columns [chosen] and
    [rejected] and no other, each with the values it has in the batch; and
    [preprocess] applied to its own result returns it unchanged. *)
Theorem preprocess_keeps_two_columns (examples out : gmap string A) :
  preprocess examples = Return out →
  dom out = ({["chosen"; "rejected"]} : gset string) ∧
  out !! "chosen" = examples !! "chosen" ∧
  out !! "rejected" = examples !! "rejected" ∧
  preprocess out = Return out.
Proof.
  intros (c & r & Hc & Hr & ->)%preprocess_Return.
  split; [rewrite !dom_insert_L, dom_empty_L; set_solver|].
  split; [by rewrite lookup_insert_eq|].
  split; [by rewrite lookup_insert_ne, lookup_insert_eq|].
  apply preprocess_Return. exists c, r.
  split; [by rewrite lookup_insert_eq|].
  split; [by rewrite lookup_insert_ne, lookup_insert_eq | done].
Qed.

(** X5. [preprocess] returns exactly when the batch has both columns;
    without [chosen] it raises [KeyError] for [chosen], whether or not
    [rejected] is there, and with [chosen] but without [rejected] it raises
    [KeyError] for [rejected]. *)
Theorem preprocess_missing_column (examples : gmap string A) :
  (returns (preprocess examples) ↔
     is_Some (examples !! "chosen") ∧ is_Some (examples !! "rejected")) ∧
  (examples !! "chosen" = None →
     preprocess examples = Raise (KeyError "chosen")) ∧
  (is_Some (examples !! "chosen") → examples !! "rejected" = None →
     preprocess examples = Raise (KeyError "rejected")).
Proof.
  unfold preprocess, subscript. split; [|split].
  - destruct (examples !! "chosen") as [c|]; simpl.
    + destruct (examples !! "rejected") as [r|]; simpl.
      * split; [by intros _; split; eexists | intros _; apply returns_Return].
      * split; [by intros ?%returns_Raise | by intros [_ [? ?]]].
    + split; [by intros ?%returns_Raise | by intros [[? ?] _]].
  - by intros ->.
  - intros [c ->] ->. done.
Qed.

End Preprocess.

Lemma preprocess_keeps_two_columns_witness :
  Columns.preprocess Columns.with_source = Py.Return Columns.kept ∧
  dom Columns.kept = ({["chosen"; "rejected"]} : gset string) ∧
  Columns.preprocess Columns.kept = Py.Return Columns.kept.
Proof.
  assert (H : Columns.preprocess Columns.with_source = Py.Return Columns.kept)
    by (vm_compute; reflexivity).
  split; [exact H|].
  destruct (preprocess_keeps_two_columns _ _ H) as (Hdom & _ & _ & Hagain).
  split; [exact Hdom | exact Hagain].
Defined.

(** ** The wrapper around the wrapper *)

Section ForwardTwice.
Import Py CustomValueHeadModel.

(** X6. Wrapping twice is wrapping once: [forward] around [forward] around
    a model behaves as [forward] around the model, on every input. And the
    caller cannot switch the hidden states off: whatever value the caller
    passes for [output_hidden_states], [forward] behaves as if it had not
    been passed. *)
Theorem forward_wrapping_idempotent
    (pretrained_model : model) (args : list value) (kw : kwargs) (v : value) :
  forward (forward pretrained_model) args kw = forward pretrained_model args kw ∧
  forward pretrained_model args (<["output_hidden_states" := v]> kw)
  = forward pretrained_model args kw.
Proof.
  unfold forward. rewrite !insert_insert_eq. split; [|done].
  destruct (pretrained_model _ _) as [outputs|e]; simpl; [|done].
  destruct (hasattr outputs "logits") eqn:Hl; simpl; [|done].
  by rewrite Hl.
Qed.

End ForwardTwice.


(** ** Exceptions *)

Section Strictness.
Import Py Script Trace Handling.

Lemma strict_bind {A B} caught (p : prog A) (f : A → prog B) :
  strict caught p → (∀ a, strict caught (f a)) → strict caught (p ≫= f).
Proof.
  intros Hp Hf. induction Hp as [a|e|X c k Hc Hk IH].
  - apply Hf.
  - constructor.
  - unfold mbind, prog_bind. simpl. constructor.
    + intros e He. by rewrite (Hc e He).
    + intros r. apply IH.
Qed.

Lemma strict_perform {X} caught (c : libcall X) : strict caught (perform c).
Proof. constructor; [done|]. intros [x|e]; constructor. Qed.

Lemma strict_try_perform {X} caught (c : libcall X) (q : prog X) :
  (∀ e, caught (Ev c (Raise e)) = true) → strict caught q →
  strict caught (try_except (perform c) q).
Proof.
  intros Hc Hq. simpl. constructor.
  - intros e He. by rewrite Hc in He.
  - intros [x|e]; simpl; [constructor | done].
Qed.

Lemma strict_for_each {A} caught (items : list A) (body : A → prog unit) :
  (∀ x, strict caught (body x)) → strict caught (for_each items body).
Proof.
  intros Hbody. induction items as [|x items IH]; simpl; [constructor|].
  apply strict_bind; [apply Hbody | intros _; apply IH].
Qed.

Lemma strict_expect {A} caught (o : option A) e :
  strict caught (Rlhf.expect o e).
Proof. destruct o; constructor. Qed.

(** In a run of a strict script a call that raises and is not caught is the
    last call, and the script raises what the call raised. *)
Lemma strict_trace {L A} (h : @handler L) caught (p : prog A) :
  strict caught p → ∀ l pre ev post,
    trace h p l = (pre ++ ev :: post)%list →
    failed ev = true → caught ev = false →
    post = [] ∧ ∃ e, raised ev = Some e ∧ outcome h p l = Raise e.
Proof.
  induction 1 as [a|e|X c k Hc Hk IH]; intros l pre ev post Htr Hev Hun.
  - by destruct pre.
  - by destruct pre.
  - unfold trace, outcome in *. simpl in *.
    destruct (h X c l) as [r l1]. specialize (IH r l1).
    destruct (run h (k r) l1) as [[a l2] tr] eqn:Hrun. cbn [fst snd] in *.
    destruct pre as [|x pre]; simpl in Htr.
    + injection Htr as <- <-. destruct r as [x|e]; [done|].
      rewrite (Hc e Hun) in Hrun. injection Hrun as <- <- <-.
      split; [done|]. by exists e.
    + injection Htr as <- Htr. by apply (IH pre ev post).
Qed.

End Strictness.

Ltac strictness :=
  repeat first
    [ apply Handling.strict_Ret
    | apply Handling.strict_Throw
    | apply strict_expect
    | apply strict_perform
    | apply strict_for_each; intros
    | apply strict_try_perform; [intros; reflexivity|]
    | apply strict_bind;
      [|intros; repeat match goal with x : _ * _ |- _ => destruct x end]
    | match goal with
      | |- Handling.strict _ (if ?b then _ else _) => destruct b
      end ].

Section FailFast.
Import Py Script Trace Handling Rlhf.
Context {L : Type} (h : @handler L).

Lemma notebook_strict : strict in_try notebook.
Proof.
  unfold notebook, reward_stage, reward_setup, reward_loop, reward_step,
    policy_stage, load_policy, adapt_and_train, adapt_policy, ppo_training,
    test_generation, ensure_pad_token, call, call_obj,
    method, getattr, setattr, hasattr, getitem, setitem, iter, unpack2,
    unpack_kwargs, tensor_op1, tensor_op2.
  strictness.
Qed.

Lemma tour_strict : strict (λ _, false) Tour.tour.
Proof.
  unfold Tour.tour, Tour.setup, Tour.pipeline, Tour.apply.
  strictness.
Qed.

Lemma notebook_by_name : emits by_name notebook.
Proof.
  unfold notebook, reward_stage, reward_setup, reward_loop, reward_step,
    policy_stage, load_policy, adapt_and_train, adapt_policy, ppo_training,
    test_generation, ensure_pad_token, call, call_obj,
    method, getattr, setattr, hasattr, getitem, setitem, iter, unpack2,
    unpack_kwargs, tensor_op1, tensor_op2.
  emit.
Qed.

(** X9. The RLHF notebook handles the exception of one call only, that of
    [GenerationConfig.from_pretrained]: in every run, any other library call
    that raises is the last call of the run, and the notebook ends with the
    exception the call raised. *)
Theorem notebook_fails_fast (l : L) (pre post : list event) (ev : event) :
  trace h notebook l = (pre ++ ev :: post)%list →
  uncaught ev = true →
  post = [] ∧ ∃ e, raised ev = Some e ∧ outcome h notebook l = Raise e.
Proof.
  intros Htr [Hf Hc%negb_true_iff]%andb_true_iff.
  by apply (strict_trace h in_try notebook notebook_strict l pre ev post).
Qed.

(** X10. The pipeline tour handles no exception: in every run, a call that
    raises is the last call of the run, and the tour ends with the exception
    the call raised. *)
Theorem tour_fails_fast (l : L) (pre post : list event) (ev : event) :
  trace h Tour.tour l = (pre ++ ev :: post)%list →
  failed ev = true →
  post = [] ∧ ∃ e, raised ev = Some e ∧ outcome h Tour.tour l = Raise e.
Proof.
  intros Htr Hf.
  by apply (strict_trace h (λ _, false) Tour.tour tour_strict l pre ev post).
Qed.

(** X11. Whatever the libraries do, every call by name that a run of the
    RLHF notebook makes is of a function in [functions] or of a method in
    [methods], the names the cells call. So no run saves a model or a
    checkpoint by a call of its own, none puts a model in evaluation mode,
    and the class [SimpleModelOutput] that the notebook defines is never
    instantiated. *)
Theorem notebook_calls_by_name (l : L) :
  let tr := trace h notebook l in
  Forall (λ ev, by_name ev = true) tr ∧
  count (is_method "eval") tr = 0%nat ∧
  count (is_method "save_pretrained") tr = 0%nat ∧
  count (is_method "save_model") tr = 0%nat ∧
  count (is_call "SimpleModelOutput") tr = 0%nat.
Proof.
  cbv zeta. pose proof (emits_trace h by_name notebook l notebook_by_name) as H.
  split; [done|].
  assert (Hnone : ∀ test : event → bool,
            (∀ ev, by_name ev = true → test ev = false) →
            count test (trace h notebook l) = 0%nat).
  { intros test Htest. apply count_none. eapply Forall_impl; [exact H|].
    intros ev Hev. simpl in Hev. by rewrite (Htest ev Hev). }
  assert (Hm : ∀ n, existsb (String.eqb n) methods = false →
            ∀ ev, by_name ev = true → is_method n ev = false).
  { intros n Hn [X c r]. unfold by_name, is_method, same_name, one_of.
    destruct (method_name c) as [m|]; [|done].
    destruct (String.eqb m n) eqn:Hmn; [|done].
    apply String.eqb_eq in Hmn as ->. rewrite Hn. by rewrite andb_false_r. }
  assert (Hf : ∀ n, existsb (String.eqb n) functions = false →
            ∀ ev, by_name ev = true → is_call n ev = false).
  { intros n Hn [X c r]. unfold by_name, is_call, same_name, one_of.
    destruct (call_name c) as [m|]; [|done].
    destruct (String.eqb m n) eqn:Hmn; [|done].
    apply String.eqb_eq in Hmn as ->. by rewrite Hn. }
  repeat split; apply Hnone; first [by apply Hm | by apply Hf].
Qed.

End FailFast.

Lemma notebook_fails_fast_witness :
  ∃ pre ev,
    Script.trace (Faulty.handle "datasets.load_dataset") Rlhf.notebook Mock.empty
      = (pre ++ [ev])%list ∧
    Handling.uncaught ev = true ∧
    Script.outcome (Faulty.handle "datasets.load_dataset") Rlhf.notebook Mock.empty
      = Py.Raise (Py.LibraryError "datasets.load_dataset").
Proof.
  destruct (cut_exists Handling.uncaught
              (Script.trace (Faulty.handle "datasets.load_dataset")
                 Rlhf.notebook Mock.empty))
    as (pre & ev & post & Htr & Hev); [vm_compute; apply le_n|].
  destruct (notebook_fails_fast (Faulty.handle "datasets.load_dataset")
              Mock.empty pre post ev Htr Hev) as (-> & e & He & Hout).
  exists pre, ev. split; [exact Htr|]. split; [exact Hev|].
  vm_compute. reflexivity.
Defined.

Lemma tour_fails_fast_witness :
  ∃ pre ev,
    Script.trace (Faulty.handle "transformers.pipeline") Tour.tour Mock.empty
      = (pre ++ [ev])%list ∧
    Handling.failed ev = true ∧
    Script.outcome (Faulty.handle "transformers.pipeline") Tour.tour Mock.empty
      = Py.Raise (Py.LibraryError "transformers.pipeline").
Proof.
  destruct (cut_exists Handling.failed
              (Script.trace (Faulty.handle "transformers.pipeline")
                 Tour.tour Mock.empty))
    as (pre & ev & post & Htr & Hev); [vm_compute; apply le_n|].
  destruct (tour_fails_fast (Faulty.handle "transformers.pipeline")
              Mock.empty pre post ev Htr Hev) as (-> & e & He & Hout).
  exists pre, ev. split; [exact Htr|]. split; [exact Hev|].
  vm_compute. reflexivity.
Defined.


(** ** The updates of the reward loop *)

Section Binds.
Import Py Script Trace.
Context {L : Type} (h : @handler L).

Lemma trace_bind {A B} (p : prog A) (f : A → prog B) (l : L) :
  trace h (p ≫= f) l =
    (trace h p l ++
       match outcome h p l with
       | Return a => trace h (f a) (final h p l)
       | Raise _ => []
       end)%list.
Proof.
  unfold trace, outcome, final. rewrite run_bind.
  destruct (run h p l) as [[[a|e] l1] t1]; cbn [fst snd].
  - by destruct (run h (f a) l1) as [[b l2] t2].
  - by rewrite app_nil_r.
Qed.

Lemma outcome_bind {A B} (p : prog A) (f : A → prog B) (l : L) :
  outcome h (p ≫= f) l =
    match outcome h p l with
    | Return a => outcome h (f a) (final h p l)
    | Raise e => Raise e
    end.
Proof.
  unfold trace, outcome, final. rewrite run_bind.
  destruct (run h p l) as [[[a|e] l1] t1]; cbn [fst snd]; [|done].
  by destruct (run h (f a) l1) as [[b l2] t2].
Qed.

End Binds.

Ltac raised_returns :=
  first
    [ by intros [? ?]
    | by match goal with H : Py.returns (Py.Raise _) |- _ => destruct H end ].

Section UpdateCounts.
Import Py Script Trace Autograd Rlhf Updates.
Context {L : Type} (h : @handler L).

Lemma reward_setup_emits : emits not_reward_update reward_setup.
Proof.
  unfold reward_setup, call, call_obj, method, getattr, setattr, getitem,
    setitem.
  emit.
Qed.

Lemma reward_step_counts (e : loop_env) (item : value) (l : L) :
  holds h (reward_step e item) l (λ r _ tr,
    (stepped tr ≤ backwards tr)%nat ∧ (backwards tr ≤ cleared tr)%nat ∧
    (cleared tr ≤ 1)%nat ∧ count is_iter tr = 0%nat ∧
    (returns r → cleared tr = 1%nat ∧ backwards tr = 1%nat ∧
                 stepped tr = 1%nat)).
Proof.
  unfold reward_step, unpack2, unpack_kwargs, tensor_op1, tensor_op2,
    call_obj, method, getattr.
  repeat step.
  all: unfold stepped, backwards, cleared; cbn.
  all: repeat split; try lia; try done.
  all: raised_returns.
Qed.

Lemma holds_for_each_split {A} (body : A → prog unit)
    (I : list A → L → list event → Prop) (items : list A) l Φ :
  I [] l [] →
  (∀ done x rest l1 tr, items = (done ++ x :: rest)%list → I done l1 tr →
     holds h (body x) l1 (λ r l2 t2,
       match r with
       | Return _ => I (done ++ [x])%list l2 (tr ++ t2)%list
       | Raise e => Φ (Raise e) l2 (tr ++ t2)%list
       end)) →
  (∀ l1 tr, I items l1 tr → Φ (Return tt) l1 tr) →
  holds h (for_each items body) l Φ.
Proof.
  intros Hinit Hbody Hpost.
  assert (Hgen : ∀ rest done l1 tr, items = (done ++ rest)%list → I done l1 tr →
            holds h (for_each rest body) l1 (λ r l2 t2, Φ r l2 (tr ++ t2)%list)).
  { induction rest as [|x rest IH]; intros done l1 tr Hitems HI.
    - apply holds_Ret. rewrite !app_nil_r in *. subst. by apply Hpost.
    - simpl. apply holds_bind. eapply holds_mono; [by eapply Hbody|].
      intros [[]|e] l2 t2; simpl; [|done]. intros HI'.
      eapply holds_mono; [apply (IH (done ++ [x])%list)|].
      + by rewrite <- app_assoc.
      + done.
      + intros r l3 t3. by rewrite app_assoc. }
  by apply (Hgen items [] l []).
Qed.

Lemma batches_app (t1 t2 : list event) :
  batches (t1 ++ t2) = (batches t1 + batches t2)%nat.
Proof. induction t1 as [|ev t1 IH]; simpl; [done|]. rewrite IH. lia. Qed.

Lemma batches_none (tr : list event) :
  count is_iter tr = 0%nat → batches tr = 0%nat.
Proof.
  induction tr as [|[X c r] tr IH]; simpl; [done|].
  destruct c; simpl; intros H; first [done | by rewrite IH].
Qed.

Lemma reward_loop_counts (e : loop_env) (l : L) :
  holds h (reward_loop e) l (λ r _ tr,
    interleaved tr ∧ (count is_iter tr ≤ 1)%nat ∧
    (stepped tr ≤ batches tr)%nat ∧
    (returns r → balanced tr ∧ stepped tr = batches tr)).
Proof.
  unfold reward_loop, iter. step.
  2: { step. unfold interleaved, balanced, stepped, backwards, cleared. cbn.
       repeat split; try lia. all: raised_returns. }
  prog_simpl. apply (holds_bind h (for_each _ _)).
  apply (holds_for_each_split _
    (λ done _ tr, balanced tr ∧ count is_iter tr = 0%nat ∧
                  stepped tr = length done)).
  - by repeat split.
  - intros done x rest l' tr Hitems ([Hz Hb] & Hi & Hd).
    assert (Hlen : (length done + 1 ≤ length a)%nat).
    { rewrite Hitems, length_app. simpl. lia. }
    eapply holds_mono; [apply reward_step_counts|].
    intros r l'' t2 (Hsb & Hbz & Hz1 & Hi2 & Hret).
    unfold interleaved, balanced, stepped, backwards, cleared in *.
    destruct r as [[]|err].
    + destruct Hret as (? & ? & ?); [apply returns_Return|].
      rewrite !count_app, length_app. simpl. repeat split; lia.
    + cbn. rewrite !count_app, batches_app, (batches_none tr Hi),
        (batches_none t2 Hi2). cbn. repeat split; try lia.
      all: raised_returns.
  - intros l' tr ([Hz Hb] & Hi & Hd). repeat step.
    unfold interleaved, balanced, stepped, backwards, cleared in *.
    cbn. rewrite !app_nil_r, (batches_none tr Hi). repeat split; lia.
Qed.

Lemma zero_updates {A} (p : prog A) (l : L) :
  emits not_reward_update p →
  cleared (trace h p l) = 0%nat ∧ backwards (trace h p l) = 0%nat ∧
  stepped (trace h p l) = 0%nat ∧ count is_iter (trace h p l) = 0%nat.
Proof.
  intros Hp. unfold cleared, backwards, stepped.
  split; [by apply (stage_counts h _ not_reward_update);
          [apply not_update_zero_grad|]|].
  split; [by apply (stage_counts h _ not_reward_update);
          [apply not_update_backward|]|].
  split; [by apply (stage_counts h _ not_reward_update);
          [apply not_update_step|]|].
  by apply (stage_counts h _ not_reward_update); [apply not_update_iter|].
Qed.

Lemma zero_batches {A} (p : prog A) (l : L) :
  emits not_reward_update p → batches (trace h p l) = 0%nat.
Proof. intros Hp. apply batches_none. by apply zero_updates. Qed.

(** X12. In every run of the RLHF notebook, whether it completes or not,
    the optimizer is stepped at most as often as [backward] is called, which
    is called at most as often as the gradients are cleared, which are
    cleared at most once more than the optimizer is stepped; the loader is
    iterated at most once, and the optimizer is stepped at most once for each
    batch it yielded. In a run that completes the three numbers are equal to
    the number of batches: none when the loader yields nothing. *)
Theorem updates_interleaved (l : L) :
  let tr := trace h notebook l in
  interleaved tr ∧ (count is_iter tr ≤ 1)%nat ∧
  (stepped tr ≤ batches tr)%nat ∧
  (returns (outcome h notebook l) → balanced tr ∧ stepped tr = batches tr).
Proof.
  cbv zeta. unfold notebook, reward_stage.
  rewrite !trace_bind, !outcome_bind.
  destruct (zero_updates reward_setup l reward_setup_emits)
    as (Hz0 & Hb0 & Hs0 & Hi0).
  pose proof (zero_batches reward_setup l reward_setup_emits) as Hn0.
  destruct (outcome h reward_setup l) as [e|err] eqn:Hsetup.
  2: { rewrite !app_nil_r.
       unfold interleaved, balanced, stepped, backwards, cleared in *.
       repeat split; try lia. all: raised_returns. }
  rewrite !trace_bind, !outcome_bind.
  set (l1 := final h reward_setup l).
  pose proof (reward_loop_counts e l1) as (Hint & Hiter & Hle & Hbal).
  destruct (outcome h (reward_loop e) l1) as [[]|err] eqn:Hloop.
  2: { rewrite !app_nil_r.
       unfold interleaved, balanced, stepped, backwards, cleared in *.
       rewrite !count_app, batches_app. repeat split; try lia.
       all: raised_returns. }
  cbn [mret prog_ret trace outcome final run fst snd].
  rewrite !app_nil_r.
  set (l2 := final h _ l).
  destruct (zero_updates (policy_stage (env e)) l2 (policy_stage_emits (env e)))
    as (Hz2 & Hb2 & Hs2 & Hi2).
  pose proof (zero_batches (policy_stage (env e)) l2
                (policy_stage_emits (env e))) as Hn2.
  destruct (Hbal (returns_Return _)) as [[Hzs Hbs] Hsn].
  fold (trace h (policy_stage (env e)) l2).
  unfold interleaved, balanced, stepped, backwards, cleared in *.
  rewrite !count_app, !batches_app. repeat split; lia.
Qed.

End UpdateCounts.

Lemma updates_interleaved_witness :
  Py.returns (Script.outcome Mock.handle Rlhf.notebook Mock.two_batches) ∧
  Updates.stepped (Script.trace Mock.handle Rlhf.notebook Mock.two_batches)
  = Updates.batches (Script.trace Mock.handle Rlhf.notebook Mock.two_batches).
Proof.
  assert (Hr : Py.returns
                 (Script.outcome Mock.handle Rlhf.notebook Mock.two_batches))
    by (eexists; vm_compute; reflexivity).
  split; [exact Hr|].
  exact (proj2 (proj2 (proj2 (proj2
           (updates_interleaved Mock.handle Mock.two_batches))) Hr)).
Defined.


(** ** The wiring of the second stage *)

(** What follows a call, result after result. *)
Ltac follow :=
  repeat lazymatch goal with
  | |- ∀ _, Py.Raise _ = Py.Return _ → _ => by intros ? [=]
  | |- ∀ _, Py.Return _ = Py.Return _ → _ => intros ? [= <-]
  | |- ∃ _, _ => eexists
  | |- _ ∧ _ => split; [reflexivity|]
  | |- _ = _ => reflexivity
  end.

Section PolicyWiring.
Import Py Script Trace Rlhf Wiring.
Context {L : Type} (h : @handler L).

Lemma policy_stage_wiring (e : reward_env) (l : L) :
  holds h (policy_stage e) l (λ _ _ tr, trainer_cut e tr ∧ generation_cut tr).
Proof.
  unfold policy_stage, load_policy, adapt_and_train, adapt_policy, ppo_training,
    test_generation, ensure_pad_token, call, call_obj,
    method, getattr, setattr, hasattr, getitem, setitem.
  repeat step.
  all: repeat match goal with u : unit |- _ => destruct u end.
  all: split; [unfold trainer_cut|unfold generation_cut; split]; cut_calls;
    try exact I; try lia.
  all: lazymatch goal with
       | |- trainer_wiring _ _ _ =>
           unfold trainer_wiring; eexists _, _, _, _, _, _, _, _, _, _;
           repeat (split; [reflexivity|]); reflexivity
       | |- generation_wiring _ _ _ =>
           unfold generation_wiring, decoded_and_printed;
           eexists _, _, _, _, _, _, _, _, _, _;
           split; [reflexivity|]; split; [reflexivity|]; follow
       end.
Qed.

End PolicyWiring.


(** ** The reward setup *)

Section RewardSetup.
Import Py Script Trace Rlhf.
Context {L : Type} (h : @handler L).

Lemma reward_setup_run (l : L) :
  holds h reward_setup l (λ r _ tr, ∀ el, r = Return el →
    ∃ v, tr = Setup.events v ∧ el = Setup.left v).
Proof.
  unfold reward_setup, call, call_obj, method, getattr, setattr, getitem,
    setitem.
  repeat step;
    try lazymatch goal with
        | |- ∀ _, Raise _ = Return _ → _ => by intros ? [=]
        end.
  repeat match goal with u : unit |- _ => destruct u end.
  intros el [= <-].
  by eexists (Setup.Build_returned _ _ _ _ _ _ _ _ _ _ _ _ _ _ _ _ _ _ _ _).
Qed.

Lemma reward_setup_events (l : L) (el : loop_env) :
  outcome h reward_setup l = Return el →
  ∃ v, trace h reward_setup l = Setup.events v ∧ el = Setup.left v.
Proof. apply (reward_setup_run l). Qed.

(** X13. In a reward setup that goes through, the two encodings the
    [PairwiseDataset] is built from are what one tokenizer, loaded for
    [distilroberta-base], returned with the same arguments for the columns
    [chosen] and [rejected] of one dataset object: the one [map] returned for
    [preprocess]; the loader yields batches of 8 of them, shuffled; and that
    dataset object and the reward model are what the setup leaves for what
    follows. *)
Theorem pairs_from_one_dataset (l : L) (el : loop_env) :
  outcome h reward_setup l = Return el →
  ∃ ds tok chosen rejected ce re,
    let tr := trace h reward_setup l in
    Ev (Method ds "map" [VName "preprocess"] (kw [("batched", VBool true)]))
       (Return (processed_dataset (env el))) ∈ tr ∧
    Ev (Call "AutoTokenizer.from_pretrained" [VStr "distilroberta-base"] ∅)
       (Return tok) ∈ tr ∧
    Ev (GetItem (processed_dataset (env el)) (VStr "chosen")) (Return chosen)
      ∈ tr ∧
    Ev (Apply tok [chosen] encode_kwargs) (Return ce) ∈ tr ∧
    Ev (GetItem (processed_dataset (env el)) (VStr "rejected"))
       (Return rejected) ∈ tr ∧
    Ev (Apply tok [rejected] encode_kwargs) (Return re) ∈ tr ∧
    Ev (Call "data.DataLoader" [VInstance "PairwiseDataset" [ce; re]]
          (kw [("batch_size", VInt 8); ("shuffle", VBool true)]))
       (Return (pairwise_loader el)) ∈ tr ∧
    count is_apply tr = 2%nat.
Proof.
  intros Hr. destruct (reward_setup_events l el Hr) as (v & -> & ->).
  exists (Setup.selected v), (Setup.rm_tokenizer v), (Setup.chosen v),
    (Setup.rejected v), (Setup.chosen_encodings v),
    (Setup.rejected_encodings v).
  cbv zeta. unfold Setup.events, Setup.left. cbn [env processed_dataset
    pairwise_loader].
  repeat (split; [by find_event|]). reflexivity.
Qed.

(** X14. In a reward setup that goes through, the value head
    [nn.Linear(hidden_size, 1)], for the [hidden_size] of the model's
    config, is set on the reward model before the optimizer is given the
    model's [parameters()]; [output_hidden_states] is set on the model's
    config; [score] is bound to the model itself; and the setup ends with
    the optimizer, built with [lr=1e-5], and [rm_model.train()]. *)
Theorem reward_model_prepared (l : L) (el : loop_env) :
  outcome h reward_setup l = Return el →
  let rm := rm_model (env el) in
  ∃ cfg cfg' hidden head ps t before between,
    trace h reward_setup l =
      (before ++
       [Ev (GetAttr rm "config") (Return cfg);
        Ev (SetAttr cfg "output_hidden_states" (VBool true)) (Return tt);
        Ev (GetAttr rm "config") (Return cfg');
        Ev (GetAttr cfg' "hidden_size") (Return hidden);
        Ev (Call "nn.Linear" [hidden; VInt 1] ∅) (Return head);
        Ev (SetAttr rm "token_value_head" head) (Return tt);
        Ev (SetAttr rm "score" (VBound "rm_score" rm)) (Return tt)] ++
       between ++
       [Ev (Method rm "parameters" [] ∅) (Return ps);
        Ev (Call "optim.AdamW" [ps] (kw [("lr", VFloat 1e-5)]))
           (Return (optimizer el));
        Ev (Method rm "train" [] ∅) (Return t)])%list.
Proof.
  intros Hr. destruct (reward_setup_events l el Hr) as (v & -> & ->).
  cbv zeta.
  exists (Setup.rm_model_config v), (Setup.config v), (Setup.hidden_size v),
    (Setup.token_value_head v), (Setup.parameters v), (Setup.training v),
    (take 9 (Setup.events v)), (take 5 (drop 16 (Setup.events v))).
  reflexivity.
Qed.

End RewardSetup.

Lemma pairs_from_one_dataset_witness :
  ∃ el, Script.outcome Mock.handle Rlhf.reward_setup Mock.empty = Py.Return el ∧
    Trace.count Trace.is_apply
      (Script.trace Mock.handle Rlhf.reward_setup Mock.empty) = 2%nat.
Proof.
  assert (Hr : Py.returns
                 (Script.outcome Mock.handle Rlhf.reward_setup Mock.empty))
    by (eexists; vm_compute; reflexivity).
  destruct Hr as [el Hel]. exists el. split; [exact Hel|].
  destruct (pairs_from_one_dataset Mock.handle Mock.empty el Hel)
    as (ds & tok & c & r & ce & re & H).
  exact (proj2 (proj2 (proj2 (proj2 (proj2 (proj2 (proj2 H))))))).
Defined.

Lemma reward_model_prepared_witness :
  ∃ el t, Script.outcome Mock.handle Rlhf.reward_setup Mock.empty = Py.Return el ∧
    last (Script.trace Mock.handle Rlhf.reward_setup Mock.empty)
    = Some (Script.Ev (Script.Method (Rlhf.rm_model (Rlhf.env el)) "train" [] ∅)
              (Py.Return t)).
Proof.
  assert (Hr : Py.returns
                 (Script.outcome Mock.handle Rlhf.reward_setup Mock.empty))
    by (eexists; vm_compute; reflexivity).
  destruct Hr as [el Hel].
  destruct (reward_model_prepared Mock.handle Mock.empty el Hel)
    as (cfg & cfg' & hidden & head & ps & t & before & between & Htr).
  exists el, t. split; [exact Hel|]. rewrite Htr.
  rewrite !last_app. reflexivity.
Defined.


(** ** The trainer and the test generation in the notebook *)

Section Cuts.
Import Py Script Trace Rlhf Wiring.
Context {L : Type} (h : @handler L).

Lemma ending_length (n : nat) (tr k : list event) :
  ending n tr = k → length k = n → (n ≤ length tr)%nat.
Proof. unfold ending. intros <-. rewrite length_drop. lia. Qed.

Lemma ending_app (n : nat) (t1 t2 : list event) :
  (n ≤ length t2)%nat → ending n (t1 ++ t2) = ending n t2.
Proof.
  intros Hn. unfold ending. rewrite length_app, drop_app_ge by lia.
  f_equal. lia.
Qed.

Lemma ending_elem (n : nat) (tr : list event) (ev : event) :
  ev ∈ ending n tr → ev ∈ tr.
Proof. unfold ending. intros [i Hi]%list_elem_of_lookup_1.
  rewrite lookup_drop in Hi. by eapply list_elem_of_lookup_2. Qed.

Lemma reward_stage_not_generate : emits not_generate reward_stage.
Proof.
  unfold reward_stage, reward_setup, reward_loop, reward_step, call, call_obj,
    method, getattr, setattr, getitem, setitem, iter, unpack2, unpack_kwargs,
    tensor_op1, tensor_op2.
  emit.
Qed.

(** A cut of the notebook's trace at a call the first stage does not make:
    the first stage is over, and the cut is a cut of the second stage. *)
Lemma notebook_cut_after (test : event → bool) (l : L)
    (pre post : list event) ev :
  count test (trace h reward_stage l) = 0%nat →
  trace h notebook l = (pre ++ ev :: post)%list → test ev = true →
  ∃ e l1 tr1 rest,
    run h reward_stage l = (Return e, l1, tr1) ∧
    pre = (tr1 ++ rest)%list ∧
    trace h (policy_stage e) l1 = (rest ++ ev :: post)%list.
Proof.
  intros Hc1 Htr Hev.
  pose proof (notebook_run h l) as Hrun.
  unfold trace, outcome in *.
  destruct (run h reward_stage l) as [[[e|err] l1] tr1]; cbn [fst snd] in Hc1.
  - destruct Hrun as (r2 & l2 & tr2 & H2 & Hn). rewrite Hn in Htr.
    cbn [fst snd] in *.
    assert (Hpre : ∃ rest, pre = (tr1 ++ rest)%list ∧
                           tr2 = (rest ++ ev :: post)%list).
    { clear -Htr Hev Hc1. revert pre Htr.
      induction tr1 as [|x tr1 IH]; intros pre Htr.
      - exists pre. done.
      - simpl in Hc1. destruct (test x) eqn:Hx; [done|]. simpl in Hc1.
        destruct pre as [|y pre]; simpl in Htr.
        + injection Htr as <- _. congruence.
        + injection Htr as <- Htr. destruct (IH Hc1 pre Htr) as (rest & -> & ->).
          by exists rest. }
    destruct Hpre as (rest & -> & ->). eexists _, _, _, _.
    split; [done|]. split; [done|]. by rewrite H2.
  - rewrite Hrun in Htr. cbn [fst snd] in Htr. rewrite Htr in Hc1.
    pose proof (count_cut test pre post ev Hev). lia.
Qed.

(** The first stage, when it goes through, is the setup and then the loop. *)
Lemma reward_stage_setup (l l1 : L) (e : reward_env) (tr1 : list event) :
  run h reward_stage l = (Return e, l1, tr1) →
  ∃ v rest, tr1 = (Setup.events v ++ rest)%list ∧ e = env (Setup.left v).
Proof.
  intros Hrun.
  assert (Htr : trace h reward_stage l = tr1) by (unfold trace; by rewrite Hrun).
  assert (Hout : outcome h reward_stage l = Return e)
    by (unfold outcome; by rewrite Hrun).
  unfold reward_stage in Htr, Hout. rewrite trace_bind in Htr.
  rewrite outcome_bind in Hout.
  destruct (outcome h reward_setup l) as [el|err] eqn:Hsetup; [|done].
  destruct (reward_setup_events h l el Hsetup) as (v & Hv & ->).
  rewrite Hv in Htr. rewrite outcome_bind in Hout.
  destruct (outcome h (reward_loop _) _) as [[]|err]; [|done].
  cbn in Hout. injection Hout as <-. by eexists _, _.
Qed.

(** X15. Whatever the libraries do, the seven calls before the PPO trainer
    is built are: the policy object's [pretrained_model] and that model's
    [generation_config] are read, the configuration is set on the policy
    object, [base_model_prefix] is set to [pretrained_model],
    [is_peft_model] to [True], [score] is bound to the object, and the PPO
    configuration is built. The trainer gets that configuration as [args],
    that object as [model], and [None] as [ref_model]. *)
Theorem trainer_gets_peft_policy (l : L) (pre post : list event) (ev : event) :
  trace h notebook l = (pre ++ ev :: post)%list →
  is_call "trl.PPOTrainer" ev = true →
  ∃ ppo pretrained g pcfg,
    ending 7 pre = policy_finish ppo pretrained g pcfg ∧
    kwargs_ ev !! "args" = Some pcfg ∧
    kwargs_ ev !! "model" = Some ppo ∧
    kwargs_ ev !! "ref_model" = Some VNone.
Proof.
  intros Htr Hev.
  destruct (notebook_cut h _ l pre post ev not_ppo_trainer Htr Hev)
    as (e & l1 & tr1 & rest & Hrun1 & -> & Htr2 & _).
  pose proof (policy_stage_run h e l1) as (_ & Hle & _).
  pose proof (policy_stage_wiring h e l1) as [Hcut _].
  unfold trainer_cut in Hcut.
  rewrite (split_at_cut _ _ _ _ _ Hle Htr2 Hev) in Hcut.
  destruct Hcut as (tok & texts & enc & ppo & pretrained & g & pcfg & r' & pre1
                    & post1 & -> & _ & _ & _ & Hend).
  exists ppo, pretrained, g, pcfg. split.
  - rewrite ending_app; [done|]. by eapply ending_length.
  - cbn [kwargs_ kwargs_of].
    pose proof (trainer_kwargs_lookup pcfg ppo tok (rm_model e)
                  (VInstance "PromptDataset" [enc])) as Hk.
    cbv zeta in Hk. destruct Hk as (Ha & Hm & Hv & Hr & Hf & Ht & Hp). done.
Qed.

(** X16. Whatever the libraries do, the prompts the PPO trainer is given as
    [train_dataset] are a [PromptDataset] of what the policy tokenizer,
    loaded for [huggyllama/llama-7b] with left padding, returned for the
    column [chosen] of the dataset the reward pairs were taken from, with
    the arguments of the reward tokenizer; and that tokenizer is the
    trainer's [processing_class]. *)
Theorem ppo_prompts_are_chosen_texts
    (l : L) (pre post : list event) (ev : event) :
  trace h notebook l = (pre ++ ev :: post)%list →
  is_call "trl.PPOTrainer" ev = true →
  ∃ ds processed tok texts enc,
    Ev (Method ds "map" [VName "preprocess"] (kw [("batched", VBool true)]))
       (Return processed) ∈ pre ∧
    Ev (Call "AutoTokenizer.from_pretrained" [VStr "huggyllama/llama-7b"]
          lm_tokenizer_kwargs) (Return tok) ∈ pre ∧
    Ev (GetItem processed (VStr "chosen")) (Return texts) ∈ pre ∧
    Ev (Apply tok [texts] encode_kwargs) (Return enc) ∈ pre ∧
    kwargs_ ev !! "train_dataset" = Some (VInstance "PromptDataset" [enc]) ∧
    kwargs_ ev !! "processing_class" = Some tok.
Proof.
  intros Htr Hev.
  destruct (notebook_cut h _ l pre post ev not_ppo_trainer Htr Hev)
    as (e & l1 & tr1 & rest & Hrun1 & -> & Htr2 & _).
  destruct (reward_stage_setup l l1 e tr1 Hrun1) as (v & loop_tr & -> & ->).
  pose proof (policy_stage_run h (env (Setup.left v)) l1) as (_ & Hle & _).
  pose proof (policy_stage_wiring h (env (Setup.left v)) l1) as [Hcut _].
  unfold trainer_cut in Hcut.
  rewrite (split_at_cut _ _ _ _ _ Hle Htr2 Hev) in Hcut.
  destruct Hcut as (tok & texts & enc & ppo & pretrained & g & pcfg & r' & pre1
                    & post1 & -> & Hhead & Hsplit & Hlast & _).
  apply split_at_Some in Hsplit as (Hrest & _ & _).
  exists (Setup.selected v), (Setup.processed v), tok, texts, enc.
  split.
  { apply elem_of_app. left. apply elem_of_app. left.
    unfold Setup.events. by find_event. }
  split.
  { apply elem_of_app. right. destruct rest as [|x rest]; [done|].
    injection Hhead as ->. apply list_elem_of_here. }
  split.
  { apply elem_of_app. right. rewrite Hrest. apply elem_of_app. left.
    apply last_Some in Hlast as [l' ->].
    apply elem_of_app. right. apply list_elem_of_here. }
  split.
  { apply elem_of_app. right. rewrite Hrest. apply elem_of_app. right.
    apply list_elem_of_here. }
  cbn [kwargs_ kwargs_of].
  pose proof (trainer_kwargs_lookup pcfg ppo tok
                (rm_model (env (Setup.left v)))
                (VInstance "PromptDataset" [enc])) as Hk.
  cbv zeta in Hk. destruct Hk as (Ha & Hm & Hv & Hr & Hf & Ht & Hp). done.
Qed.

(** X17. Whatever the libraries do, the test generation comes after the PPO
    training returned: the four calls before it are the construction of the
    trainer, [train] on it, the encoding of the test prompt by the trainer's
    tokenizer, and the reading of [pretrained_model] off the trainer's
    policy object. [generate] is called on that model with the encoded
    prompt, sampling; it is called at most once; and when it returns, its
    first sequence is decoded by the same tokenizer and printed after the
    prompt, which ends the notebook. *)
Theorem generation_follows_training
    (l : L) (pre post : list event) (ev : event) :
  trace h notebook l = (pre ++ ev :: post)%list →
  is_method "generate" ev = true →
  ∃ k ppo tok trainer u query pretrained rg,
    ending 4 pre = train_then_encode k trainer u tok query ppo pretrained ∧
    k !! "model" = Some ppo ∧ k !! "processing_class" = Some tok ∧
    ev = Ev (Method pretrained "generate" [query] sampling_kwargs) rg ∧
    (∀ response, rg = Return response →
       decoded_and_printed tok response post) ∧
    count (is_method "generate") (pre ++ post) = 0%nat.
Proof.
  intros Htr Hev.
  assert (Hc1 : count (is_method "generate") (trace h reward_stage l) = 0%nat).
  { apply (stage_counts h _ not_generate); [|apply reward_stage_not_generate].
    intros x. unfold not_generate. by destruct (is_method "generate" x). }
  destruct (notebook_cut_after _ l pre post ev Hc1 Htr Hev)
    as (e & l1 & tr1 & rest & Hrun1 & -> & Htr2).
  unfold trace in Hc1. rewrite Hrun1 in Hc1. cbn [fst snd] in Hc1.
  pose proof (policy_stage_wiring h e l1) as [_ [Hle Hcut]].
  rewrite (split_at_cut _ _ _ _ _ Hle Htr2 Hev) in Hcut.
  destruct Hcut as (pcfg & ppo & tok & rm & prompts & trainer & u & query
                    & pretrained & rg & Hend & -> & Hpost).
  exists (ppo_trainer_kwargs pcfg ppo tok rm prompts), ppo, tok, trainer, u,
    query, pretrained, rg.
  split.
  { rewrite ending_app; [done|]. by eapply ending_length. }
  pose proof (trainer_kwargs_lookup pcfg ppo tok rm prompts) as Hk.
  cbv zeta in Hk. destruct Hk as (Ha & Hm & Hv & Hr & Hf & Ht & Hp).
  split; [done|]. split; [done|]. split; [done|].
  split; [done|].
  rewrite Htr2 in Hle. apply count_le_cut in Hle; [|done].
  rewrite <- app_assoc, count_app, Hc1. done.
Qed.

End Cuts.

Lemma trainer_gets_peft_policy_witness :
  ∃ pre ev post ppo,
    Script.trace Mock.handle Rlhf.notebook Mock.two_batches
      = (pre ++ ev :: post)%list ∧
    Trace.is_call "trl.PPOTrainer" ev = true ∧
    Trace.kwargs_ ev !! "model" = Some ppo ∧
    Trace.kwargs_ ev !! "ref_model" = Some Py.VNone.
Proof.
  destruct (cut_exists (Trace.is_call "trl.PPOTrainer")
              (Script.trace Mock.handle Rlhf.notebook Mock.two_batches))
    as (pre & ev & post & Htr & Hev); [vm_compute; apply le_n|].
  destruct (trainer_gets_peft_policy Mock.handle _ _ _ _ Htr Hev)
    as (ppo & pretrained & g & pcfg & _ & _ & Hmodel & Href).
  exists pre, ev, post, ppo. split; [exact Htr|]. split; [exact Hev|].
  split; [exact Hmodel | exact Href].
Defined.

Lemma ppo_prompts_are_chosen_texts_witness :
  ∃ pre ev post tok,
    Script.trace Mock.handle Rlhf.notebook Mock.two_batches
      = (pre ++ ev :: post)%list ∧
    Trace.is_call "trl.PPOTrainer" ev = true ∧
    Trace.kwargs_ ev !! "processing_class" = Some tok.
Proof.
  destruct (cut_exists (Trace.is_call "trl.PPOTrainer")
              (Script.trace Mock.handle Rlhf.notebook Mock.two_batches))
    as (pre & ev & post & Htr & Hev); [vm_compute; apply le_n|].
  destruct (ppo_prompts_are_chosen_texts Mock.handle _ _ _ _ Htr Hev)
    as (ds & processed & tok & texts & enc & _ & _ & _ & _ & _ & Htok).
  exists pre, ev, post, tok. split; [exact Htr|]. split; [exact Hev|].
  exact Htok.
Defined.

Lemma generation_follows_training_witness :
  ∃ pre ev post,
    Script.trace Mock.handle Rlhf.notebook Mock.two_batches
      = (pre ++ ev :: post)%list ∧
    Trace.is_method "generate" ev = true ∧
    Trace.count (Trace.is_method "generate") (pre ++ post) = 0%nat.
Proof.
  destruct (cut_exists (Trace.is_method "generate")
              (Script.trace Mock.handle Rlhf.notebook Mock.two_batches))
    as (pre & ev & post & Htr & Hev); [vm_compute; apply le_n|].
  destruct (generation_follows_training Mock.handle _ _ _ _ Htr Hev)
    as (k & ppo & tok & trainer & u & query & pretrained & rg & _ & _ & _ & _
        & _ & Honce).
  exists pre, ev, post. split; [exact Htr|]. split; [exact Hev|]. exact Honce.
Defined.


(** ** The generation configuration *)

Section GenerationConfig.
Import Py Script Trace Rlhf Wiring Fallback.
Context {L : Type} (h : @handler L).

Lemma adapt_policy_fallback (b : base_env) (l : L) :
  holds h (adapt_policy b) l (λ r _ tr, fallback_cut r tr).
Proof.
  unfold adapt_policy, call, method, getattr, setattr, hasattr.
  repeat step.
  all: repeat match goal with u : unit |- _ => destruct u end.
  all: unfold fallback_cut; split; cut_calls; try lia; try reflexivity.
  all: unfold fallback, installs; eexists _, _, _.
  all: split; [reflexivity|]; split; [reflexivity|]; cbv iota.
  all: try (split; [reflexivity|]).
  all: repeat first [progress cbv iota | progress follow].
Qed.

(** X18. The policy object gets a generation configuration whether or not
    one can be loaded. [GenerationConfig.from_pretrained] is called, at most
    once, only right after [hasattr] found no [generation_config] on the
    [pretrained_model] of the policy object. When it returns, what it
    returned is set on that model and [GenerationConfig()] is not called.
    When it raises, whatever the exception, the next call is
    [GenerationConfig()]: what that returns is set on the model, and only
    when that raises too does the adaptation end with an exception. *)
Theorem generation_config_fallback
    (b : base_env) (l : L) (pre post : list event) (ev : event) :
  trace h (adapt_policy b) l = (pre ++ ev :: post)%list →
  is_call "GenerationConfig.from_pretrained" ev = true →
  fallback (outcome h (adapt_policy b) l) pre ev post ∧
  count (is_call "GenerationConfig.from_pretrained") (pre ++ post) = 0%nat.
Proof.
  intros Htr Hev.
  pose proof (adapt_policy_fallback b l) as [Hle Hcut].
  split; [by rewrite (split_at_cut _ _ _ _ _ Hle Htr Hev) in Hcut|].
  apply (count_le_cut _ pre post ev Hev). by rewrite <- Htr.
Qed.

End GenerationConfig.

Lemma generation_config_fallback_witness :
  ∃ pre ev post,
    Script.trace (Faulty.handle "GenerationConfig.from_pretrained")
      (Rlhf.adapt_policy Weights.no_base) Mock.empty
      = (pre ++ ev :: post)%list ∧
    Handling.failed ev = true ∧
    Py.returns
      (Script.outcome (Faulty.handle "GenerationConfig.from_pretrained")
         (Rlhf.adapt_policy Weights.no_base) Mock.empty) ∧
    Fallback.fallback
      (Script.outcome (Faulty.handle "GenerationConfig.from_pretrained")
         (Rlhf.adapt_policy Weights.no_base) Mock.empty) pre ev post ∧
    Trace.count (Trace.is_call "GenerationConfig.from_pretrained")
      (pre ++ post) = 0%nat.
Proof.
  destruct (cut_exists
              (λ ev, Trace.is_call "GenerationConfig.from_pretrained" ev
                     && Handling.failed ev)
              (Script.trace (Faulty.handle "GenerationConfig.from_pretrained")
                 (Rlhf.adapt_policy Weights.no_base) Mock.empty))
    as (pre & ev & post & Htr & Hev); [vm_compute; apply le_n|].
  apply andb_true_iff in Hev as [Hcall Hfail].
  exists pre, ev, post. split; [exact Htr|]. split; [exact Hfail|].
  split; [eexists; vm_compute; reflexivity|].
  exact (generation_config_fallback
           (Faulty.handle "GenerationConfig.from_pretrained") _ _ _ _ _
           Htr Hcall).
Defined.


(** ** Devices and names in the tour *)

Section TourDevices.
Import Py Script Trace Tour Devices.
Context {L : Type} (h : @handler L).

Ltac tour_checks :=
  cbn [device_given availability calls_latest rebound is_call is_apply
       same_name call_name returned value_of target target_of
       String.eqb Ascii.eqb Bool.eqb];
  repeat match goal with
  | |- _ ∧ _ => split
  | |- True => exact I
  | |- false = true → _ => intros [=]
  | |- true = true → ∃ _, _ =>
      intros _; eexists _, _; split; [reflexivity|];
      split; vm_compute; reflexivity
  | |- true = true → _ ∧ _ => intros _; split; [by eexists | reflexivity]
  end.

Lemma tour_devices (l : L) :
  holds h tour l (λ _ _ tr, device_given None tr ∧ calls_latest None tr).
Proof.
  unfold tour, setup, pipeline, apply.
  repeat step.
  all: split; tour_checks.
Qed.

(** X19. Whatever the libraries do, every pipeline of the tour is built
    after [torch_cuda.is_available()] returned and names its model. Unless
    the model is [distilgpt2] or the entity recogniser's, the pipeline is
    given [device=0] when what [is_available()] returned is true and
    [device=-1] when it is not; the pipelines of these two models are built
    without a [device] argument. *)
Theorem tour_device_argument (l : L) : device_given None (trace h tour l).
Proof. apply (tour_devices l). Qed.

(** X20. Whatever the libraries do, every call of a pipeline in the tour is
    a call of the pipeline that was built last: once [classifier] and
    [generator] are bound to a second pipeline, the first is not called
    again. *)
Theorem tour_calls_latest_pipeline (l : L) : calls_latest None (trace h tour l).
Proof. apply (tour_devices l). Qed.

End TourDevices.


(** ** The score functions *)

Section Scores.
Import Py Script Trace Autograd Rlhf Heads.

Lemma squeeze_last (t : tval) (s : list nat) :
  shape t = (s ++ [1%nat])%list →
  squeeze (-1) t = Some {| shape := s; data := data t |}.
Proof.
  intros Hs. unfold squeeze. rewrite Hs, length_app. cbn [length].
  cbv zeta. rewrite (bool_decide_eq_true_2 (-1 < 0)%Z) by lia.
  rewrite bool_decide_eq_true_2 by lia.
  replace (Z.to_nat (-1 + Z.of_nat (length s + 1))) with (length s) by lia.
  rewrite list_lookup_middle by done.
  change (s ++ [1%nat])%list with (s ++ 1%nat :: [])%list.
  by rewrite delete_middle, app_nil_r.
Qed.

Lemma squeeze_keeps (t : tval) (s : list nat) (n : nat) :
  shape t = (s ++ [n])%list → n ≠ 1%nat → squeeze (-1) t = Some t.
Proof.
  intros Hs Hn. unfold squeeze. rewrite Hs, length_app. cbn [length].
  cbv zeta. rewrite (bool_decide_eq_true_2 (-1 < 0)%Z) by lia.
  rewrite bool_decide_eq_true_2 by lia.
  replace (Z.to_nat (-1 + Z.of_nat (length s + 1))) with (length s) by lia.
  rewrite list_lookup_middle by done.
  destruct n as [|[|n]]; done.
Qed.

Context {L : Type} (h : @handler L).

Lemma rm_score_run (self hidden_states : value) (l : L) :
  holds h (rm_score self hidden_states) l (λ r _ tr, ∀ v, r = Return v →
    ∃ head out, tr = head_events "token_value_head" self hidden_states head out
                ∧ v = VTensor (TSqueeze (-1) out)).
Proof.
  unfold rm_score, tensor_op1, call_obj, getattr.
  repeat step; try (by intros ? [=]).
  intros v [= <-]. destruct a0; try discriminate. simplify_eq/=.
  by eexists _, _.
Qed.

Lemma score_run (self hidden_states : value) (l : L) :
  holds h (score self hidden_states) l (λ r _ tr, ∀ v, r = Return v →
    ∃ head out, tr = head_events "v_head" self hidden_states head out
                ∧ v = VTensor (TSqueeze (-1) out)).
Proof.
  unfold score, tensor_op1, call_obj, getattr.
  repeat step; try (by intros ? [=]).
  intros v [= <-]. destruct a0; try discriminate. simplify_eq/=.
  by eexists _, _.
Qed.

(** X21. The two [score] functions make two calls when they go through:
    [rm_score] reads [token_value_head] off its model, [score] reads
    [v_head], and the head is called on the hidden states, once. What they
    return is the head's output with [squeeze(-1)] applied: for an output of
    shape [(..., 1)] the values of the head without the last dimension, one
    value per token; an output whose last dimension is not 1 is returned as
    it is. *)
Theorem score_functions_squeeze_head
    (self hidden_states v : value) (l : L) :
  (outcome h (rm_score self hidden_states) l = Return v →
     squeezed_head "token_value_head" self hidden_states v
       (trace h (rm_score self hidden_states) l)) ∧
  (outcome h (score self hidden_states) l = Return v →
     squeezed_head "v_head" self hidden_states v
       (trace h (score self hidden_states) l)).
Proof.
  assert (Hshape : ∀ out leaf t s n,
    eval leaf out = Some t → shape t = (s ++ [n])%list →
    eval leaf (TSqueeze (-1) out)
    = Some (if Nat.eqb n 1 then {| shape := s; data := data t |} else t)).
  { intros out leaf t s n Ht Hs. cbn [eval]. rewrite Ht. cbn [mbind option_bind].
    destruct (Nat.eqb n 1) eqn:Hn.
    - apply Nat.eqb_eq in Hn as ->. by apply squeeze_last.
    - apply Nat.eqb_neq in Hn. by eapply squeeze_keeps. }
  split; intros Hv.
  - destruct (rm_score_run self hidden_states l v Hv) as (head & out & ? & ?).
    exists head, out. split; [done|]. split; [done|]. apply Hshape.
  - destruct (score_run self hidden_states l v Hv) as (head & out & ? & ?).
    exists head, out. split; [done|]. split; [done|]. apply Hshape.
Qed.

End Scores.

Lemma score_functions_squeeze_head_witness :
  ∃ out,
    Script.outcome Heads.linear (Heads.rm_score (Py.VObj 0) (Py.VObj 1)) 0%nat
      = Py.Return (Py.VTensor (Autograd.TSqueeze (-1) out)) ∧
    Autograd.eval Heads.token_values (Autograd.TSqueeze (-1) out)
      = Some {| Autograd.shape := [2; 3]%nat;
                Autograd.data := [1; 2; 3; 4; 5; 6]%Q |}.
Proof.
  destruct (proj1 (score_functions_squeeze_head Heads.linear (Py.VObj 0)
                     (Py.VObj 1)
                     (Py.VTensor (Autograd.TSqueeze (-1) (Autograd.TLeaf 1)))
                     0%nat) eq_refl)
    as (head & out & _ & Hv & Hshape).
  exists out. split; [by rewrite <- Hv|].
  injection Hv as <-.
  exact (Hshape Heads.token_values _ [2; 3]%nat 1%nat eq_refl eq_refl).
Defined.

